(** * Gold Graph: the price-series pipeline of [src/lib/gold.ts]

    A shallow embedding of the price-series derivation code of the
    dashboard (range-key parsing, densification of anchors, range slicing,
    high/low statistics, N-day changes, unit conversion) together with the
    live-API variant of the library (forward-filled series), and the
    properties the specification states about them.

    Conventions of the embedding.
    - A JavaScript [number] that holds a price is an IEEE-754 binary64
      value: Rocq's primitive [float], whose operations are the ones the
      JavaScript engine performs.
    - A JavaScript [number] that holds an epoch-millisecond time stamp is
      [msec = option Z]: [Some t] is the integer-valued double [t] and
      [None] is [NaN] (what [Date.parse] gives for an unparseable date).
      All time stamps the code builds are multiples of one day below 2^53,
      where double arithmetic is exact integer arithmetic.
    - A JavaScript string is a [string]; each character is one UTF-16 code
      unit in the range U+0000..U+00FF.
    - [undefined] and [null] are [None]; a thrown exception is [Thrown]. *)

From Stdlib Require Import ZArith QArith Floats Ascii String List Bool Lia.
From stdpp Require Import base option list strings gmap sorting.

Set Warnings "-inexact-float".
Local Open Scope Z_scope.

(** ** The JavaScript run time the code relies on *)

Module JS.

(** Exceptions the modelled code can raise. *)
Inductive error : Type :=
  | RangeError (msg : string)
  | TypeError (msg : string)
  | Error (msg : string).

Inductive outcome (A : Type) : Type :=
  | Ok (a : A)
  | Thrown (e : error).
Arguments Ok {A} a.
Arguments Thrown {A} e.

Definition bind {A B : Type} (x : outcome A) (k : A -> outcome B) : outcome B :=
  match x with
  | Ok a => k a
  | Thrown e => Thrown e
  end.

(** Time stamps: an integer number of milliseconds, or NaN. *)
Definition msec : Type := option Z.

Definition msec_sub (a b : msec) : msec :=
  match a, b with
  | Some x, Some y => Some (x - y)
  | _, _ => None
  end.

(** [a <= b] and [a >= b] on numbers: false as soon as one side is NaN. *)
Definition msec_leb (a b : msec) : bool :=
  match a, b with
  | Some x, Some y => x <=? y
  | _, _ => false
  end.

Definition msec_geb (a b : msec) : bool := msec_leb b a.

(** The double that holds the integer [z] (exact for |z| < 2^53). *)
Definition number_of_Z (z : Z) : float :=
  if z <? 0 then (- of_uint63 (Uint63.of_Z (- z)))%float
  else of_uint63 (Uint63.of_Z z).

(** [Math.round(a / b)] for integers [a] and [b > 0] where the quotient is
    computed exactly: the nearest integer, ties towards +infinity. *)
Definition round_div (a b : Z) : Z := (2 * a + b) / (2 * b).

(** [x > y] on doubles. *)
Definition gtb (x y : float) : bool := (y <? x)%float.

(** [s.startsWith(p)]. *)
Definition startsWith (s p : string) : bool := String.prefix p s.

(** [Number.isFinite(x)]. *)
Definition isFinite (x : float) : bool :=
  match Prim2SF x with
  | S754_zero _ | S754_finite _ _ _ => true
  | _ => false
  end.

(** A double that is finite and not a zero. *)
Definition finite_nonzero (x : float) : bool :=
  match Prim2SF x with
  | S754_finite _ _ _ => true
  | _ => false
  end.

Definition is_nan (x : float) : bool :=
  match Prim2SF x with
  | S754_nan => true
  | _ => false
  end.

(** *** Strings *)

(** [s.toLowerCase()] on code units up to U+00FF: the letters A-Z and the
    Latin-1 capitals U+00C0..U+00DE (U+00D7, the multiplication sign, apart). *)
Definition lower_char (c : ascii) : ascii :=
  let n := nat_of_ascii c in
  if ((65 <=? n) && (n <=? 90))%nat then ascii_of_nat (n + 32)
  else if ((192 <=? n) && (n <=? 222) && negb (n =? 215))%nat then ascii_of_nat (n + 32)
  else c.

Fixpoint toLowerCase (s : string) : string :=
  match s with
  | EmptyString => EmptyString
  | String c r => String (lower_char c) (toLowerCase r)
  end.

(** [s.split(sep)] for a one-character separator. *)
Fixpoint split (sep : ascii) (s : string) : list string :=
  match s with
  | EmptyString => [EmptyString]
  | String c r =>
      if Ascii.eqb c sep then EmptyString :: split sep r
      else match split sep r with
           | h :: t => String c h :: t
           | [] => [String c EmptyString]
           end
  end.

(** The value of a digit character in the given base (2..16). *)
Definition digit_value (base : Z) (c : ascii) : option Z :=
  let n := Z.of_nat (nat_of_ascii c) in
  let v := if (48 <=? n) && (n <=? 57) then Some (n - 48)
           else if (97 <=? n) && (n <=? 102) then Some (n - 87)
           else if (65 <=? n) && (n <=? 70) then Some (n - 55)
           else None in
  match v with
  | Some d => if d <? base then Some d else None
  | None => None
  end.

(** The longest prefix of digits of [s]: its value (after [acc]), the number
    of digits read, and the rest of the string. *)
Fixpoint span_digits (base : Z) (s : string) (acc : Z) (count : nat) : Z * nat * string :=
  match s with
  | EmptyString => (acc, count, s)
  | String c r =>
      match digit_value base c with
      | Some d => span_digits base r (acc * base + d) (S count)
      | None => (acc, count, s)
      end
  end.

(** A string of decimal digits only, at least one: its value. *)
Definition digits_value (s : string) : option Z :=
  match span_digits 10 s 0 0 with
  | (v, S _, EmptyString) => Some v
  | _ => None
  end.

(** *** Numbers read from strings *)

(** The result of [Number(s)]: NaN, an infinity, or a finite value, kept
    here as the exact rational the literal denotes (the uses below truncate
    it to an integer and range-check it). *)
Inductive strnum : Type :=
  | SNaN
  | SInf (neg : bool)
  | SFin (q : Q).

Definition is_white (c : ascii) : bool :=
  let n := nat_of_ascii c in
  ((9 <=? n) && (n <=? 13) || (n =? 32) || (n =? 160))%nat.

Fixpoint trim_left (s : string) : string :=
  match s with
  | String c r => if is_white c then trim_left r else s
  | EmptyString => s
  end.

(** Drops trailing white space. *)
Fixpoint trim_right (s : string) : string :=
  match s with
  | EmptyString => EmptyString
  | String c r =>
      match trim_right r with
      | EmptyString => if is_white c then EmptyString else String c EmptyString
      | r' => String c r'
      end
  end.

Definition pow10 (e : Z) (m : Z) : Q :=
  if 0 <=? e then inject_Z (m * 10 ^ e) else Qmake m (Z.to_pos (10 ^ (- e))).

(** [ExponentPart], optional, up to the end of the string. *)
Definition exponent_part (s : string) : option Z :=
  match s with
  | EmptyString => Some 0
  | String c r =>
      if Ascii.eqb c "e" || Ascii.eqb c "E" then
        match r with
        | String "+" r' => digits_value r'
        | String "-" r' => option_map Z.opp (digits_value r')
        | _ => digits_value r
        end
      else None
  end.

(** [StrUnsignedDecimalLiteral]. *)
Definition unsigned_decimal (s : string) : strnum :=
  if String.eqb s "Infinity" then SInf false else
  let '(ip, ni, r1) := span_digits 10 s 0 0 in
  match r1 with
  | String "." r2 =>
      let '(m, nf, r3) := span_digits 10 r2 ip 0 in
      match (ni + nf)%nat, exponent_part r3 with
      | S _, Some e => SFin (pow10 (e - Z.of_nat nf) m)
      | _, _ => SNaN
      end
  | _ =>
      match ni, exponent_part r1 with
      | S _, Some e => SFin (pow10 e ip)
      | _, _ => SNaN
      end
  end.

Definition strnum_opp (n : strnum) : strnum :=
  match n with
  | SNaN => SNaN
  | SInf b => SInf (negb b)
  | SFin q => SFin (- q)
  end.

(** [0x..], [0o..], [0b..]: digits of the base up to the end, at least one. *)
Definition non_decimal (base : Z) (s : string) : strnum :=
  match span_digits base s 0 0 with
  | (v, S _, EmptyString) => SFin (inject_Z v)
  | _ => SNaN
  end.

(** [Number(s)] for a string [s] (StringToNumber). *)
Definition Number (s : string) : strnum :=
  match trim_right (trim_left s) with
  | EmptyString => SFin 0
  | String "0" (String "x" r) | String "0" (String "X" r) => non_decimal 16 r
  | String "0" (String "o" r) | String "0" (String "O" r) => non_decimal 8 r
  | String "0" (String "b" r) | String "0" (String "B" r) => non_decimal 2 r
  | String "+" r => unsigned_decimal r
  | String "-" r => strnum_opp (unsigned_decimal r)
  | t => unsigned_decimal t
  end.

(** [n - 1] on such a number. *)
Definition strnum_pred (n : strnum) : strnum :=
  match n with
  | SFin q => SFin (q - 1)
  | _ => n
  end.

(** ToIntegerOrInfinity of a finite number: truncation towards zero. *)
Definition truncate (q : Q) : Z := Z.quot (Qnum q) (Zpos (Qden q)).

(** *** Dates *)

Definition msPerDay : Z := 86400000.

(** The largest time value of a [Date]. *)
Definition maxTime : Z := 8640000000000000.

Definition is_leap (y : Z) : bool :=
  ((y mod 4 =? 0) && negb (y mod 100 =? 0)) || (y mod 400 =? 0).

Definition days_in_month (y m : Z) : Z :=
  if m =? 2 then (if is_leap y then 29 else 28)
  else if (m =? 4) || (m =? 6) || (m =? 9) || (m =? 11) then 30
  else 31.

(** The day number (days since 1970-01-01) of the civil date [y]-[m]-[d] in
    the proleptic Gregorian calendar, months counted from 1. *)
Definition days_from_civil (y m d : Z) : Z :=
  let y' := if m <=? 2 then y - 1 else y in
  let era := y' / 400 in
  let yoe := y' - era * 400 in
  let doy := (153 * (if 2 <? m then m - 3 else m + 9) + 2) / 5 + d - 1 in
  let doe := yoe * 365 + yoe / 4 - yoe / 100 + doy in
  era * 146097 + doe - 719468.

(** The civil date (year, month from 1, day) of a day number. *)
Definition civil_from_days (z : Z) : Z * Z * Z :=
  let z := z + 719468 in
  let era := z / 146097 in
  let doe := z - era * 146097 in
  let yoe := (doe - doe / 1460 + doe / 36524 - doe / 146096) / 365 in
  let y := yoe + era * 400 in
  let doy := doe - (365 * yoe + yoe / 4 - yoe / 100) in
  let mp := (5 * doy + 2) / 153 in
  let d := doy - (153 * mp + 2) / 5 + 1 in
  let m := if mp <? 10 then mp + 3 else mp - 9 in
  (if m <=? 2 then y + 1 else y, m, d).

(** [Date.parse(s)] for the date-only form [YYYY-MM-DD], the form of an
    anchor's date: UTC midnight of that day, NaN when the year, month or day
    is not a number of the calendar. Other forms [Date.parse] accepts (a
    time of day, a time zone, the legacy formats) are not anchor dates and
    are read as NaN here, and so are a year of more than four digits
    ([+275760-09-13]) and a day past the end of its month ([2024-02-30]),
    which the standard rejects and some engines carry into the next month.
    The model is the engine's [Date.parse] on the days of the calendar of
    the years 0000 to 9999, on which all engines agree; every property
    below that depends on a date assumes it to be such a day. *)
Definition Date_parse (s : string) : msec :=
  if negb (String.length s =? 10)%nat then None else
  match digits_value (substring 0 4 s), String.get 4 s,
        digits_value (substring 5 2 s), String.get 7 s,
        digits_value (substring 8 2 s) with
  | Some y, Some "-"%char, Some m, Some "-"%char, Some d =>
      if (1 <=? m) && (m <=? 12) && (1 <=? d) && (d <=? days_in_month y m)
      then Some (days_from_civil y m d * msPerDay)
      else None
  | _, _, _, _, _ => None
  end.

(** [n] decimal digits of [z], zero-padded. *)
Fixpoint zero_pad (n : nat) (z : Z) : string :=
  match n with
  | O => EmptyString
  | S k => zero_pad k (z / 10) ++ String (ascii_of_nat (48 + Z.to_nat (z mod 10))) EmptyString
  end.

Definition iso_year (y : Z) : string :=
  if (0 <=? y) && (y <=? 9999) then zero_pad 4 y
  else ((if (y <? 0)%Z then "-" else "+") ++ zero_pad 6 (Z.abs y))%string.

(** The text of [new Date(t).toISOString()] for a time [t] in the range of
    [Date]. *)
Definition iso_string (t : Z) : string :=
  let '(y, m, d) := civil_from_days (t / msPerDay) in
  let r := t mod msPerDay in
  (iso_year y ++ "-" ++ zero_pad 2 m ++ "-" ++ zero_pad 2 d ++ "T"
   ++ zero_pad 2 (r / 3600000)%Z ++ ":" ++ zero_pad 2 (r / 60000 mod 60)%Z ++ ":"
   ++ zero_pad 2 (r / 1000 mod 60)%Z ++ "." ++ zero_pad 3 (r mod 1000)%Z ++ "Z")%string.

(** [new Date(t).toISOString()]: a RangeError outside the range of [Date]. *)
Definition toISOString (t : msec) : outcome string :=
  match t with
  | Some t =>
      if Z.abs t <=? maxTime then Ok (iso_string t)
      else Thrown (RangeError "Invalid time value")
  | None => Thrown (RangeError "Invalid time value")
  end.

(** [Date.UTC(year, month, 1)]: the year and month are truncated, a year
    from 0 to 99 means 1900 + year, months outside 0..11 carry into the
    year, and the result is NaN when an argument is not finite or the time
    is outside the range of [Date]. *)
Definition Date_UTC (year month : strnum) : msec :=
  match year, month with
  | SFin qy, SFin qm =>
      let y := truncate qy in
      let yr := if (0 <=? y) && (y <=? 99) then 1900 + y else y in
      let m := truncate qm in
      let ym := yr + m / 12 in
      let mn := m mod 12 in
      let t := days_from_civil ym (mn + 1) 1 * msPerDay in
      if Z.abs t <=? maxTime then Some t else None
  | _, _ => None
  end.

(** [new Date(t)]: the time value is NaN outside the range of [Date]. *)
Definition TimeClip (t : msec) : msec :=
  match t with
  | Some t => if Z.abs t <=? maxTime then Some t else None
  | None => None
  end.

(** [l.map(f)] when [f] can throw: the first exception ends the map. *)
Fixpoint mapM {A B : Type} (f : A -> outcome B) (l : list A) : outcome (list B) :=
  match l with
  | [] => Ok []
  | a :: l' => bind (f a) (fun b => bind (mapM f l') (fun bs => Ok (b :: bs)))
  end.

(** [Array.prototype.sort] with a comparator: a stable sort; [after a b]
    says that the comparator puts [a] after [b] (a result greater than 0;
    NaN counts as 0). With a comparator that is a total preorder, as here on
    parseable dates, every stable sort gives this same array. *)
Section Sort.
Context {A : Type} (after : A -> A -> bool).

Fixpoint sort_insert (a : A) (l : list A) : list A :=
  match l with
  | [] => [a]
  | b :: l' => if after a b then b :: sort_insert a l' else a :: l
  end.

Fixpoint sort (l : list A) : list A :=
  match l with
  | [] => []
  | a :: l' => sort_insert a (sort l')
  end.
End Sort.

(** [a > b] on numbers: false as soon as one side is NaN. *)
Definition msec_gtb (a b : msec) : bool :=
  match a, b with
  | Some x, Some y => y <? x
  | _, _ => false
  end.

(** *** [URLSearchParams]

    The list of name-value pairs, [set] and [toString]: the serializer of
    [application/x-www-form-urlencoded], which encodes the text as UTF-8,
    keeps the ASCII letters and digits and [* - . _], writes a space as [+]
    and every other byte as [%XX] in upper-case hexadecimal. The text is a
    string of code units up to U+00FF, as everywhere here; code units above
    (and the surrogates, which the serializer replaces by U+FFFD) are not
    covered. *)
Definition URLSearchParams : Type := list (string * string).

Definition hex_digit (n : nat) : ascii :=
  if (n <? 10)%nat then ascii_of_nat (48 + n) else ascii_of_nat (55 + n).

Definition percent_byte (b : nat) : string :=
  String "%" (String (hex_digit (b / 16)) (String (hex_digit (b mod 16)) EmptyString)).

(** The UTF-8 bytes of a code unit up to U+00FF. *)
Definition utf8_bytes (c : ascii) : list nat :=
  let n := nat_of_ascii c in
  if (n <? 128)%nat then [n] else [(192 + n / 64)%nat; (128 + n mod 64)%nat].

Definition form_safe (b : nat) : bool :=
  ((48 <=? b) && (b <=? 57) || (65 <=? b) && (b <=? 90) || (97 <=? b) && (b <=? 122)
   || (b =? 42) || (b =? 45) || (b =? 46) || (b =? 95))%nat.

Definition form_encode_byte (b : nat) : string :=
  if (b =? 32)%nat then "+"%string
  else if form_safe b then String (ascii_of_nat b) EmptyString
  else percent_byte b.

Fixpoint form_encode (s : string) : string :=
  match s with
  | EmptyString => EmptyString
  | String c r =>
      (String.concat EmptyString (map form_encode_byte (utf8_bytes c)) ++ form_encode r)%string
  end.

(** [params.set(name, value)]: the first pair of that name takes the value
    and the other pairs of that name go; without such a pair, a new pair is
    appended. *)
Fixpoint params_set_first (name value : string) (params : URLSearchParams)
    : URLSearchParams :=
  match params with
  | [] => []
  | (n, v) :: rest =>
      if String.eqb n name
      then (n, value) :: List.filter (fun nv => negb (String.eqb (fst nv) name)) rest
      else (n, v) :: params_set_first name value rest
  end.

Definition params_set (name value : string) (params : URLSearchParams) : URLSearchParams :=
  if existsb (fun nv => String.eqb (fst nv) name) params
  then params_set_first name value params
  else params ++ [(name, value)].

Definition params_toString (params : URLSearchParams) : string :=
  String.concat "&"
    (map (fun nv => (form_encode (fst nv) ++ "=" ++ form_encode (snd nv))%string) params).

End JS.

Import JS.

(** ** [src/lib/gold.ts]: the snapshot-based library *)

Module Gold.

Definition DAY_MS : Z := 24 * 60 * 60 * 1000.
Definition GRAMS_PER_OUNCE : float := 31.1034768%float.

Inductive GoldRangeKind : Type := kind_recent | kind_month | kind_year.

(** The [label] of a range is text for display. The label of a month range
    is what [Intl.DateTimeFormat] prints for a time stamp; its text depends
    on the host's locale data and time zone, so it is kept symbolic. *)
Inductive Label : Type :=
  | LabelText (s : string)
  | LabelMonthYear (t : Z).

Record GoldRangeConfig : Type := {
  key : string;
  label : Label;
  kind : GoldRangeKind;
  days : option Z;
  year : option string;
  month : option string
}.

Definition recentRange : GoldRangeConfig := {|
  key := "recent";
  label := LabelText "Recent";
  kind := kind_recent;
  days := Some 14;
  year := None;
  month := None
|}.

Inductive GoldUnit : Type := oz | g.

#[global] Instance GoldUnit_eq_dec : EqDecision GoldUnit.
Proof. solve_decision. Defined.

Record GoldUnitMeta : Type := {
  unit_value : GoldUnit;
  unit_label : string;
  shortLabel : string;
  suffix : string
}.

Definition goldUnits : list GoldUnitMeta := [
  {| unit_value := oz; unit_label := "Ounce"; shortLabel := "oz"; suffix := "USD/oz" |};
  {| unit_value := g; unit_label := "Gram"; shortLabel := "g"; suffix := "USD/g" |}
].

Record GoldPoint : Type := {
  date : string;
  value : float;
  time : msec
}.

Record GoldChanges : Type := {
  day1 : option float;
  day7 : option float;
  day30 : option float
}.

Record GoldStats : Type := {
  low : float;
  high : float
}.

Record GoldAnchor : Type := {
  anchor_date : string;
  anchor_value : float
}.

Record GoldSeriesFile : Type := {
  source : string;
  updatedAt : string;
  anchors : list GoldAnchor
}.

Record GoldData : Type := {
  latest : GoldPoint;
  range : GoldRangeConfig;
  unit : GoldUnit;
  unitSuffix : string;
  sourceLabel : string;
  rangePoints : list GoldPoint;
  rangeStats : GoldStats;
  yearStats : GoldStats;
  lastUpdated : string;
  changes : GoldChanges;
  pointsCount : nat
}.

(** A query parameter as Next.js hands it over: [string | string[] | undefined]. *)
Inductive QueryParam : Type :=
  | QAbsent
  | QString (s : string)
  | QArray (l : list string).

(** [Array.isArray(input) ? input[0] : input]. *)
Definition first_value (input : QueryParam) : option string :=
  match input with
  | QAbsent => None
  | QString s => Some s
  | QArray l => head l
  end.

(** The string a unit is written as in a query. *)
Definition unit_string (u : GoldUnit) : string :=
  match u with
  | oz => "oz"
  | g => "g"
  end.

Definition resolveUnit (input : QueryParam) : GoldUnit :=
  let value := first_value input in
  let match_ := List.find (fun u => bool_decide (Some (unit_string (unit_value u)) = value)) goldUnits in
  match match_ with
  | Some m => unit_value m
  | None => oz
  end.

Definition buildHref (rangeKey : string) (unit_ : GoldUnit) : string :=
  let params : URLSearchParams := [] in
  let params := if negb (String.eqb rangeKey (key recentRange))
                then params_set "range" rangeKey params else params in
  let params := if negb (bool_decide (unit_ = oz))
                then params_set "unit" (unit_string unit_) params else params in
  let query := params_toString params in
  match query with
  | EmptyString => "/"%string
  | _ => ("/?" ++ query)%string
  end.

(** [monthYearFormatter.format(new Date(t))]: a RangeError for an invalid
    date. *)
Definition format_month_year (t : msec) : outcome Label :=
  match t with
  | Some t => Ok (LabelMonthYear t)
  | None => Thrown (RangeError "Invalid time value")
  end.

Definition has_length (n : nat) (s : option string) : bool :=
  match s with
  | Some s => (String.length s =? n)%nat
  | None => false
  end.

Definition resolveRange (input : QueryParam) : outcome GoldRangeConfig :=
  let value := first_value input in
  let normalized := option_map toLowerCase value in
  match normalized with
  | None | Some EmptyString => Ok recentRange
  | Some normalized =>
    if String.eqb normalized (key recentRange) then Ok recentRange else
    let parts := split "-" normalized in
    let year_ := parts !! 1%nat in
    let month_ := parts !! 2%nat in
    if startsWith normalized "month-" && has_length 4 year_ && has_length 2 month_ then
      let y := default EmptyString year_ in
      let m := default EmptyString month_ in
      bind (format_month_year (Date_UTC (Number y) (strnum_pred (Number m))))
        (fun label_ =>
           Ok {| key := normalized; label := label_; kind := kind_month;
                 days := None; year := Some y; month := Some m |})
    else if startsWith normalized "year-" && has_length 4 year_ then
      let y := default EmptyString year_ in
      Ok {| key := normalized; label := LabelText y; kind := kind_year;
            days := None; year := Some y; month := None |}
    else Ok recentRange
  end.

(** The comparator of the sort in [buildSeriesFromAnchors] puts [a] after
    [b] when [Date.parse(a.date) - Date.parse(b.date) > 0]. *)
Definition date_after (a b : GoldAnchor) : bool :=
  match msec_sub (Date_parse (anchor_date a)) (Date_parse (anchor_date b)) with
  | Some v => 0 <? v
  | None => false
  end.

(** One turn of the inner loop of [buildSeriesFromAnchors]. *)
Definition day_step (index : nat) (start end_ : GoldAnchor) (startTime daySpan : Z)
    (points : list GoldPoint) (day : Z) : outcome (list GoldPoint) :=
  if (0 <? index)%nat && (day =? 0) then Ok points else
  let ratio := if daySpan =? 0 then 0%float
               else (number_of_Z day / number_of_Z daySpan)%float in
  let value_ := (anchor_value start
                 + (anchor_value end_ - anchor_value start) * ratio)%float in
  let time_ := startTime + day * DAY_MS in
  bind (toISOString (Some time_)) (fun iso =>
  let date_ := substring 0 10 iso in
  Ok (points ++ [{| date := date_; value := value_; time := Some time_ |}])).

(** The inner loop, [day] from 0 to [daySpan]. *)
Definition day_loop (index : nat) (start end_ : GoldAnchor) (startTime daySpan : Z)
    (points : list GoldPoint) : outcome (list GoldPoint) :=
  foldl (fun acc day => bind acc (fun pts => day_step index start end_ startTime daySpan pts day))
        (Ok points) (seqZ 0 (daySpan + 1)).

(** The outer loop over the pairs of consecutive anchors of [sorted]; with
    a NaN start or end time the span is NaN and the inner loop does not run. *)
Fixpoint pair_loop (index : nat) (sorted : list GoldAnchor) (points : list GoldPoint)
    : outcome (list GoldPoint) :=
  match sorted with
  | start :: (end_ :: _) as rest =>
      let step :=
        match Date_parse (anchor_date start), Date_parse (anchor_date end_) with
        | Some startTime, Some endTime =>
            let daySpan := Z.max 1 (round_div (endTime - startTime) DAY_MS) in
            day_loop index start end_ startTime daySpan points
        | _, _ => Ok points
        end in
      bind step (fun points' => pair_loop (S index) rest points')
  | _ => Ok points
  end.

Definition buildSeriesFromAnchors (anchors_ : list GoldAnchor) : outcome (list GoldPoint) :=
  let sorted := sort date_after anchors_ in
  match sorted with
  | [a] =>
      let time_ := Date_parse (anchor_date a) in
      Ok [{| date := anchor_date a; value := anchor_value a; time := time_ |}]
  | _ => pair_loop 0 sorted []
  end.

(** The range filter of [sliceRange]; [sliced.length ? sliced : points]. *)
Definition nonempty_or {A : Type} (sliced points : list A) : list A :=
  match sliced with
  | [] => points
  | _ :: _ => sliced
  end.

(** A string is truthy when it is present and not empty. *)
Definition truthy (s : option string) : option string :=
  match s with
  | Some EmptyString => None
  | _ => s
  end.

Definition sliceRange (points : list GoldPoint) (range : GoldRangeConfig)
    (latest : GoldPoint) : list GoldPoint :=
  match points with
  | [] => []
  | _ :: _ =>
    match kind range, truthy (year range), truthy (month range) with
    | kind_recent, _, _ =>
        let rangeDays := default 14 (days range) in
        let cutoff := msec_sub (time latest) (Some (rangeDays * DAY_MS)) in
        let sliced := List.filter (fun point => msec_geb (time point) cutoff) points in
        nonempty_or sliced points
    | kind_month, Some y, Some m =>
        let prefix := (y ++ "-" ++ m)%string in
        let sliced := List.filter (fun point => startsWith (date point) prefix) points in
        nonempty_or sliced points
    | kind_year, Some y, _ =>
        let sliced := List.filter (fun point => startsWith (date point) y) points in
        nonempty_or sliced points
    | _, _, _ => points
    end
  end.

(** The backward scan of [computeChange]: the point of greatest index whose
    time is at most [target]. *)
Fixpoint find_prior (target : msec) (rev_points : list GoldPoint) : option GoldPoint :=
  match rev_points with
  | [] => None
  | p :: rest => if msec_leb (time p) target then Some p else find_prior target rest
  end.

Definition computeChange (points : list GoldPoint) (daysBack : Z) : option float :=
  match last points with
  | None => None
  | Some latest =>
      let target := msec_sub (time latest) (Some (daysBack * DAY_MS)) in
      match find_prior target (rev points) with
      | None => None
      | Some prior => Some ((value latest - value prior) / value prior)%float
      end
  end.

(** The loop of [computeHighLow], carrying [low] and [high]. *)
Fixpoint highLow_loop (points : list GoldPoint) (lo hi : float) : GoldStats :=
  match points with
  | [] => {| low := lo; high := hi |}
  | point :: rest =>
      let lo' := if (value point <? lo)%float then value point else lo in
      let hi' := if gtb (value point) hi then value point else hi in
      highLow_loop rest lo' hi'
  end.

Definition computeHighLow (points : list GoldPoint) : option GoldStats :=
  match points with
  | [] => None
  | p0 :: _ => Some (highLow_loop points (value p0) (value p0))
  end.

(** [a || b] on strings. *)
Definition or_else (a b : string) : string :=
  match a with
  | EmptyString => b
  | _ => a
  end.

(** [loadSeriesFile]; the imported JSON snapshot is its argument. *)
Definition loadSeriesFile (parsed : GoldSeriesFile) : outcome GoldSeriesFile :=
  match anchors parsed with
  | [] => Thrown (Error "Gold series file is empty")
  | _ :: _ =>
      Ok {| source := or_else (source parsed) "Local snapshot";
            updatedAt := or_else (updatedAt parsed)
                           (from_option anchor_date EmptyString (last (anchors parsed)));
            anchors := anchors parsed |}
  end.

(** The factor [getGoldData] multiplies every value by. *)
Definition unitMultiplier (unit_ : GoldUnit) : float :=
  match unit_ with
  | g => (1 / GRAMS_PER_OUNCE)%float
  | oz => 1%float
  end.

Definition to_unit (unit_ : GoldUnit) (point : GoldPoint) : GoldPoint :=
  {| date := date point;
     value := (value point * unitMultiplier unit_)%float;
     time := time point |}.

Definition getGoldData (goldSeries : GoldSeriesFile) (range_ : GoldRangeConfig)
    (unit_ : GoldUnit) : outcome GoldData :=
  bind (loadSeriesFile goldSeries) (fun seriesFile =>
  bind (buildSeriesFromAnchors (anchors seriesFile)) (fun series =>
  let unitMeta :=
    from_option id {| unit_value := oz; unit_label := "Ounce"; shortLabel := "oz";
                      suffix := "USD/oz" |}
      (List.find (fun option_ => bool_decide (unit_value option_ = unit_)) goldUnits) in
  let points := map (to_unit unit_) series in
  match last points with
  | None => Thrown (Error "Gold data is empty")
  | Some latest_ =>
      let lastUpdated_ := or_else (updatedAt seriesFile) (date latest_) in
      let rangePoints_ := sliceRange points range_ latest_ in
      let yearPoints :=
        sliceRange points
          {| key := key recentRange; label := label recentRange; kind := kind recentRange;
             days := Some 365; year := year recentRange; month := month recentRange |}
          latest_ in
      let rangeStats_ :=
        default {| low := value latest_; high := value latest_ |}
                (computeHighLow rangePoints_) in
      let yearStats_ := default rangeStats_ (computeHighLow yearPoints) in
      Ok {| latest := latest_;
            range := range_;
            unit := unit_;
            unitSuffix := suffix unitMeta;
            sourceLabel := source seriesFile;
            rangePoints := rangePoints_;
            rangeStats := rangeStats_;
            yearStats := yearStats_;
            lastUpdated := lastUpdated_;
            changes := {| day1 := computeChange points 1;
                          day7 := computeChange points 7;
                          day30 := computeChange points 30 |};
            pointsCount := length rangePoints_ |}
  end)).

End Gold.

(** ** The live-API library ([src/unnamed/part_003]) *)

Module Live.

Import Gold.

Definition GRAMS_PER_OUNCE : float := 31.1034768%float.

(** The table of units, declared as in [src/lib/gold.ts]. *)
Definition goldUnits : list GoldUnitMeta := Gold.goldUnits.

Record GoldData : Type := {
  price : float;
  pricePerGram : float;
  change24h : float;
  changePercent24h : float;
  timestamp : msec;
  unit : GoldUnit;
  unitSuffix : string
}.

Record PricePoint : Type := {
  time : msec;
  point_price : float
}.

Record GoldSeries : Type := {
  data : GoldData;
  points : list PricePoint;
  days : Z
}.

Definition convertPrice (pricePerOz : float) (unit_ : GoldUnit) : float :=
  match unit_ with
  | g => (pricePerOz / GRAMS_PER_OUNCE)%float
  | oz => pricePerOz
  end.

Definition formatIsoDate (value_ : msec) : outcome string :=
  bind (toISOString value_) (fun iso => Ok (substring 0 10 iso)).

(** [new Date(`${value}T00:00:00Z`)]: UTC midnight of the date [value], for
    the dates [Date_parse] covers. The code calls it on the text of
    [formatIsoDate] only, which is such a date up to the year 9999. *)
Definition parseIsoDate (value_ : string) : msec := Date_parse value_.

Definition addDays (value_ : msec) (days_ : Z) : msec :=
  match value_ with
  | Some t => TimeClip (Some (t + days_ * 24 * 60 * 60 * 1000))
  | None => None
  end.

Definition diffDaysInclusive (start end_ : msec) : Z :=
  match start, end_ with
  | Some startTime, Some endTime =>
      let delta := round_div (endTime - startTime) (24 * 60 * 60 * 1000) in
      Z.max 0 delta + 1
  | _, _ => 0
  end.

Record Chunk : Type := {
  chunk_start : string;
  chunk_end : string
}.

(** The [while] loop of [buildTimeframeChunks], carrying [cursor] and
    [chunks]; [fuel] bounds the number of turns, and [None] says that the
    loop is still running when the fuel is used up. *)
Fixpoint chunk_loop (fuel : nat) (cursor end_ : msec) (maxDaysInclusive : Z)
    (chunks : list Chunk) : option (outcome (list Chunk)) :=
  match fuel with
  | O => None
  | S fuel' =>
      if msec_leb cursor end_ then
        let chunkStart := cursor in
        let chunkEnd := addDays chunkStart (maxDaysInclusive - 1) in
        let boundedEnd := if msec_gtb chunkEnd end_ then end_ else chunkEnd in
        match formatIsoDate chunkStart with
        | Thrown e => Some (Thrown e)
        | Ok start_ =>
            match formatIsoDate boundedEnd with
            | Thrown e => Some (Thrown e)
            | Ok bounded =>
                chunk_loop fuel' (addDays boundedEnd 1) end_ maxDaysInclusive
                  (chunks ++ [{| chunk_start := start_; chunk_end := bounded |}])
            end
        end
      else Some (Ok chunks)
  end.

Definition buildTimeframeChunks (fuel : nat) (start end_ : msec) (maxDaysInclusive : Z)
    : option (outcome (list Chunk)) :=
  chunk_loop fuel start end_ maxDaysInclusive [].

Record DateItem : Type := {
  item_date : string;
  item_time : msec
}.

Record PointOz : Type := {
  oz_date : string;
  oz_time : msec;
  pricePerOz : float
}.

(** The loop that fills the missing days, carrying [lastKnown] and the
    array [filledValues]. *)
Fixpoint fill_loop (rawValues : list (option float)) (lastKnown : float)
    (filledValues : list float) : list float :=
  match rawValues with
  | [] => filledValues
  | Some value_ :: rest => fill_loop rest value_ (filledValues ++ [value_])
  | None :: rest => fill_loop rest lastKnown (filledValues ++ [lastKnown])
  end.

(** The part of [fetchGoldSeries] after the responses are merged into
    [perDayUsd]: the window of dates, the filled values and the result. *)
Definition series_of_rates (unit_ : GoldUnit) (safeDays : Z) (start end_ : msec)
    (perDayUsd : gmap string float) : outcome GoldSeries :=
  let totalDays := diffDaysInclusive start end_ in
  bind (mapM (fun index =>
                let day := addDays start index in
                bind (formatIsoDate day) (fun d => Ok {| item_date := d; item_time := day |}))
             (seqZ 0 totalDays)) (fun dates =>
  let rawValues := map (fun item => perDayUsd !! item_date item) dates in
  match List.find (fun value_ => bool_decide (is_Some value_)) rawValues with
  | None | Some None =>
      Thrown (Error "MetalpriceAPI returned no points for selected range")
  | Some (Some firstKnown) =>
      let filledValues := fill_loop rawValues firstKnown [] in
      let pointsOz :=
        zip_with (fun item filled =>
                    {| oz_date := item_date item; oz_time := item_time item;
                       pricePerOz := filled |}) dates filledValues in
      match last pointsOz with
      | None => Thrown (TypeError "Cannot read properties of undefined")
      | Some lastPointOz =>
          let priorPointOz :=
            if (2 <=? length pointsOz)%nat then pointsOz !! (length pointsOz - 2)%nat
            else None in
          let unitMeta :=
            from_option id {| unit_value := oz; unit_label := "Ounce"; shortLabel := "oz";
                              suffix := "USD/oz" |}
              (List.find (fun option_ => bool_decide (unit_value option_ = unit_)) goldUnits) in
          let currentPrice := convertPrice (pricePerOz lastPointOz) unit_ in
          let priorPrice := option_map (fun p => convertPrice (pricePerOz p) unit_) priorPointOz in
          let change24h_ :=
            match priorPrice with
            | Some p => (currentPrice - p)%float
            | None => 0%float
            end in
          let changePercent24h_ :=
            match priorPrice with
            | Some p => if (p =? 0)%float then 0%float else (change24h_ / p * 100)%float
            | None => 0%float
            end in
          let points_ :=
            map (fun point => {| time := oz_time point;
                                 point_price := convertPrice (pricePerOz point) unit_ |})
                pointsOz in
          Ok {| data := {| price := currentPrice;
                           pricePerGram := (pricePerOz lastPointOz / GRAMS_PER_OUNCE)%float;
                           change24h := change24h_;
                           changePercent24h := changePercent24h_;
                           timestamp := oz_time lastPointOz;
                           unit := unit_;
                           unitSuffix := suffix unitMeta |};
                points := points_;
                days := safeDays |}
      end
  end).

(** [fetchGoldSeries]: [days_] is [Math.floor(days)], [now] the clock
    reading of [new Date()] and [perDayUsd] the mapping merged from the
    responses of the rate API for the window (the requests themselves are
    outside the model). *)
Definition fetchGoldSeries (unit_ : GoldUnit) (days_ : Z) (now : Z)
    (perDayUsd : gmap string float) : outcome GoldSeries :=
  let safeDays := Z.max 2 days_ in
  bind (formatIsoDate (TimeClip (Some now))) (fun today =>
  let end_ := parseIsoDate today in
  let start := addDays end_ (- (safeDays - 1)) in
  series_of_rates unit_ safeDays start end_ perDayUsd).

End Live.

(** ** The dashboard component ([src/unnamed/part_001]) *)

Module Dashboard.

Import Gold.

Definition goldUnits : list GoldUnitMeta := Live.goldUnits.

Definition resolveUnit (input : QueryParam) : GoldUnit :=
  let value_ := first_value input in
  let match_ := List.find (fun u => bool_decide (Some (unit_string (unit_value u)) = value_)) goldUnits in
  match match_ with
  | Some m => unit_value m
  | None => oz
  end.

Definition buildHref (unit_ : GoldUnit) : string :=
  if bool_decide (unit_ = oz) then "/"%string else ("/?unit=" ++ unit_string unit_)%string.

End Dashboard.

(** * Vocabulary of the properties

    The definitions the statements below are written with: the values the
    loops of the code build, written as plain functions, the conditions on
    the inputs, and the sample inputs of the examples. *)

Section Vocabulary.
Import Gold.

(** What the loop keeps true of the values seen so far ([seen]) and the
    running bounds. *)
Definition bounds_of (seen : list GoldPoint) (lo hi : float) : Prop :=
  (exists p, p ∈ seen /\ lo = value p) /\
  (exists p, p ∈ seen /\ hi = value p) /\
  (forall p, p ∈ seen -> (value p <? lo)%float = false /\ (hi <? value p)%float = false).

(** A point of value [v]; the statistics read nothing else of a point. *)
Definition point_of (v : float) : GoldPoint :=
  {| date := "2024-01-01"; value := v; time := None |}.

(** The filter of a range, as the specification words it: [Recent] keeps
    the points at or after the cutoff, [Month] the dates that start with
    [YYYY-MM], [Year] the dates that start with [YYYY]. A configuration
    that lacks the year or month of its kind names no filter. *)
Definition range_filter (range_ : GoldRangeConfig) (latest_ : GoldPoint)
    : option (GoldPoint -> bool) :=
  match kind range_ with
  | kind_recent =>
      Some (fun p => msec_geb (time p)
                       (msec_sub (time latest_) (Some (default 14 (days range_) * DAY_MS))))
  | kind_month =>
      match truthy (year range_), truthy (month range_) with
      | Some y, Some m => Some (fun p => startsWith (date p) (y ++ "-" ++ m))
      | _, _ => None
      end
  | kind_year =>
      match truthy (year range_) with
      | Some y => Some (fun p => startsWith (date p) y)
      | None => None
      end
  end.

(** Sample input: two days of January 2024, and the range of a month with
    no point among them. *)
Definition jan (d : string) (t : Z) : GoldPoint :=
  {| date := d; value := 2000%float; time := Some t |}.

Definition january : list GoldPoint :=
  [jan "2024-01-01" 1704067200000; jan "2024-01-02" 1704153600000].

Definition march_2024 : GoldRangeConfig :=
  {| key := "month-2024-03"; label := LabelMonthYear 1709251200000; kind := kind_month;
     days := None; year := Some "2024"%string; month := Some "03"%string |}.

(** Points one day apart, starting at [t0]. *)
Definition dense_daily (t0 : Z) (points : list GoldPoint) : Prop :=
  forall i p, points !! i = Some p -> time p = Some (t0 + Z.of_nat i * DAY_MS).

(** Sample input: a dense series of three days. *)
Definition three_days : list GoldPoint :=
  [ {| date := "2024-01-01"; value := 2000%float; time := Some 1704067200000 |};
    {| date := "2024-01-02"; value := 2010%float; time := Some 1704153600000 |};
    {| date := "2024-01-03"; value := 2020%float; time := Some 1704240000000 |} ].

(** A point of the densified series with the price [x] per ounce. *)
Definition price_point (x : float) : GoldPoint :=
  {| date := "2024-01-01"; value := x; time := Some 1704067200000 |}.

(** The first ten characters of the ISO text of a time: its date. *)
Definition iso_date (t : Z) : string := substring 0 10 (iso_string t).

(** The days before the first of March of year [y + 1], counted from the
    first of March of year 0: the years of [days_from_civil] run from March,
    so that the leap day comes last. *)
Definition days_before (y : Z) : Z := 365 * y + y / 4 - y / 100 + y / 400.

(** The year counted from March that month [m] of year [y] is in, and the
    number of the month in it (March is 0). *)
Definition march_year (y m : Z) : Z := if m <=? 2 then y - 1 else y.

Definition march_month (m : Z) : Z := if 2 <? m then m - 3 else m + 9.

(** The point the inner loop pushes for [day]. *)
Definition interpolated (start end_ : GoldAnchor) (startTime daySpan day : Z) : GoldPoint :=
  {| date := iso_date (startTime + day * DAY_MS);
     value := (anchor_value start
               + (anchor_value end_ - anchor_value start)
                 * (if (daySpan =? 0)%Z then 0 else number_of_Z day / number_of_Z daySpan))%float;
     time := Some (startTime + day * DAY_MS) |}.

(** The days for which the inner loop pushes a point. *)
Definition emitted_days (index : nat) (daySpan : Z) : list Z :=
  List.filter (fun day => negb ((0 <? index)%nat && (day =? 0))) (seqZ 0 (daySpan + 1)).

(** The points pushed for one pair of anchors, and for all the pairs. *)
Definition segment (index : nat) (start end_ : GoldAnchor) : list GoldPoint :=
  match Date_parse (anchor_date start), Date_parse (anchor_date end_) with
  | Some startTime, Some endTime =>
      let daySpan := Z.max 1 (round_div (endTime - startTime) DAY_MS) in
      map (interpolated start end_ startTime daySpan) (emitted_days index daySpan)
  | _, _ => []
  end.

Fixpoint segments (index : nat) (sorted : list GoldAnchor) : list GoldPoint :=
  match sorted with
  | start :: (end_ :: _) as rest => segment index start end_ ++ segments (S index) rest
  | _ => []
  end.

(** An anchor whose date is a calendar day, and the number of that day. *)
Definition valid_date (a : GoldAnchor) : Prop := is_Some (Date_parse (anchor_date a)).

Definition day_of (a : GoldAnchor) : Z :=
  default 0 (Date_parse (anchor_date a)) / msPerDay.

(** Anchors in the order of their days, no day twice. *)
Definition ascending (l : list GoldAnchor) : Prop :=
  StronglySorted (fun a b => day_of a < day_of b) l.

(** Sample input: the two anchors of the specification's end-to-end
    example, the later one first. *)
Definition two_anchors : list GoldAnchor :=
  [ {| anchor_date := "2024-01-11"; anchor_value := 2100%float |};
    {| anchor_date := "2024-01-01"; anchor_value := 2000%float |} ].

(** Sample input: a price that drops to less than half within a day. *)
Definition drop_anchors : list GoldAnchor :=
  [ {| anchor_date := "2024-01-01"; anchor_value := 2650.7%float |};
    {| anchor_date := "2024-01-02"; anchor_value := 1000.1%float |} ].

(** The range of the trailing year, as [getGoldData] builds it:
    [{ ...recentRange, days: 365 }]. *)
Definition year_range : GoldRangeConfig :=
  {| key := "recent"; label := LabelText "Recent"; kind := kind_recent;
     days := Some 365; year := None; month := None |}.

(** A price of the snapshot, which is per troy ounce, in the requested
    unit: as it is for ounces, and for grams its product with the double
    nearest to 1 / 31.1034768. *)
Definition price_in (unit_ : GoldUnit) (x : float) : float :=
  match unit_ with
  | oz => x
  | g => (x * (1 / 31.1034768))%float
  end.

(** Sample input: a snapshot of two anchors two months apart, and the range
    of the month between them. *)
Definition winter : GoldSeriesFile :=
  {| source := "snapshot"; updatedAt := "2024-03-01";
     anchors := [ {| anchor_date := "2024-01-01"; anchor_value := 2000%float |};
                  {| anchor_date := "2024-03-01"; anchor_value := 2120%float |} ] |}.

Definition february : GoldRangeConfig :=
  {| key := "month-2024-02"; label := LabelMonthYear 1706745600000; kind := kind_month;
     days := None; year := Some "2024"%string; month := Some "02"%string |}.

(** Strings of decimal digits, and the ten digits. *)
Definition is_digit (c : ascii) : bool :=
  let n := nat_of_ascii c in ((48 <=? n) && (n <=? 57))%nat.

Fixpoint all_digits (s : string) : bool :=
  match s with
  | EmptyString => true
  | String c r => is_digit c && all_digits r
  end.

Definition digit_chars : list ascii :=
  ["0"; "1"; "2"; "3"; "4"; "5"; "6"; "7"; "8"; "9"]%char.

(** [Number] of a string that is the integer [v] between 0 and [bound]. *)
Definition reads_as (bound : Z) (s : string) : bool :=
  match Number s with
  | SFin q => (Qnum q =? Z.max 0 (Qnum q)) && (Qnum q <=? bound) && Pos.eqb (Qden q) 1
  | _ => false
  end.

(** Reading back the text [URLSearchParams] writes: [+] is a space, [%XX]
    a byte, and one or two bytes are a code unit up to U+00FF. *)
Definition hex_value (c : ascii) : nat :=
  let n := nat_of_ascii c in
  if (n <? 58)%nat then (n - 48)%nat else (n - 55)%nat.

Fixpoint form_decode (s : string) : string :=
  match s with
  | EmptyString => EmptyString
  | String "+" r => String " " (form_decode r)
  | String "%" (String x (String y r)) =>
      let b := (16 * hex_value x + hex_value y)%nat in
      if (b <? 128)%nat then String (ascii_of_nat b) (form_decode r)
      else match r with
           | String "%" (String x2 (String y2 r2)) =>
               let b2 := (16 * hex_value x2 + hex_value y2)%nat in
               String (ascii_of_nat ((b - 192) * 64 + (b2 - 128))) (form_decode r2)
           | _ => String (ascii_of_nat b) (form_decode r)
           end
  | String c r => String c (form_decode r)
  end.

(** The characters a key is written with unchanged. *)
Fixpoint plain_key (s : string) : bool :=
  match s with
  | EmptyString => true
  | String c r => form_safe (nat_of_ascii c) && plain_key r
  end.

Fixpoint has_char (c : ascii) (s : string) : bool :=
  match s with
  | EmptyString => false
  | String c' r => Ascii.eqb c c' || has_char c r
  end.

Definition form_encode_char (c : ascii) : string :=
  String.concat EmptyString (map form_encode_byte (utf8_bytes c)).

(** The point's date is a day of month [M] of year [Y], or of year [Y]. *)
Definition date_in_month (Y M : Z) (p : GoldPoint) : bool :=
  match Date_parse (date p) with
  | Some t => let '(y, m, _) := civil_from_days (t / msPerDay) in (y =? Y) && (m =? M)
  | None => false
  end.

Definition date_in_year (Y : Z) (p : GoldPoint) : bool :=
  match Date_parse (date p) with
  | Some t => let '(y, _, _) := civil_from_days (t / msPerDay) in y =? Y
  | None => false
  end.

(** [Number] of a string of digits is the number the digits spell. *)
Definition reads_digits (s : string) : bool :=
  match Number s, digits_value s with
  | SFin q, Some v => (Qnum q =? v) && Pos.eqb (Qden q) 1
  | _, _ => false
  end.

End Vocabulary.

Section LiveVocabulary.
Import Gold Live.

(** The window of dates: one item per day from [start]. *)
Definition window (s : Z) (totalDays : Z) : list DateItem :=
  (fun index => {| item_date := iso_date (s + index * 86400000);
                   item_time := Some (s + index * 86400000) |}) <$> seqZ 0 totalDays.

(** The rate observed for day [index] of the window that starts at [s]. *)
Definition observed (perDayUsd : gmap string float) (s : Z) (index : nat) : option float :=
  perDayUsd !! iso_date (s + Z.of_nat index * 86400000).

(** Sample input: rates observed on the second and the fourth of January
    2024. *)
Definition sample_rates : gmap string float :=
  <["2024-01-02"%string := 2040%float]> (<["2024-01-04"%string := 2060%float]> ∅).

(** The chunks of a window of [n + 1] days from [s], at most
    [maxDaysInclusive] days each: chunk [i] starts [i * maxDaysInclusive]
    days after [s] and ends with its last day or with the window. *)
Definition chunks_from (s n maxDaysInclusive c : Z) (k : Z) : list Chunk :=
  (fun i => {| chunk_start := iso_date (s + (c + i * maxDaysInclusive) * 86400000);
               chunk_end := iso_date (s + Z.min n (c + i * maxDaysInclusive
                                                   + maxDaysInclusive - 1) * 86400000) |})
    <$> seqZ 0 k.

Definition chunks_of (s n maxDaysInclusive : Z) : list Chunk :=
  chunks_from s n maxDaysInclusive 0 ((n + maxDaysInclusive) / maxDaysInclusive).

End LiveVocabulary.

(** * Properties *)

(** ** Facts about binary64 arithmetic

    The primitive operations are specified by [SpecFloat]; the facts below
    are the ones the pipeline relies on: multiplying by 1, dividing a number
    by itself, converting a day count, and the order of doubles. *)

(** Case analysis on the comparisons inside [SFcompare]. *)
Ltac cmp_cases :=
  repeat match goal with
  | |- context [Z.compare ?a ?b] => destruct (Z.compare_spec a b)
  | H : context [Z.compare ?a ?b] |- _ => destruct (Z.compare_spec a b)
  | |- context [Pos.compare_cont Eq ?a ?b] =>
      change (Pos.compare_cont Eq a b) with (Pos.compare a b);
      destruct (Pos.compare_spec a b)
  | H : context [Pos.compare_cont Eq ?a ?b] |- _ =>
      change (Pos.compare_cont Eq a b) with (Pos.compare a b) in H;
      destruct (Pos.compare_spec a b)
  end.

Section FloatFacts.

Lemma iter_pos_comm {A} (f : A -> A) n x : SpecFloat.iter_pos f n (f x) = f (SpecFloat.iter_pos f n x).
Proof.
revert x. induction n as [n IH|n IH|]; intros x; simpl; [| |reflexivity].
- rewrite !IH. reflexivity.
- rewrite !IH. reflexivity.
Qed.

Lemma iter_pos_succ {A} (f : A -> A) n x : SpecFloat.iter_pos f (Pos.succ n) x = f (SpecFloat.iter_pos f n x).
Proof.
revert x. induction n as [n IH|n IH|]; intros x; simpl.
- rewrite !IH, !iter_pos_comm. reflexivity.
- rewrite !iter_pos_comm. reflexivity.
- reflexivity.
Qed.

Lemma digits2_iter_xO m k :
Z.pos (digits2_pos (Pos.iter xO m k)) = Z.pos (digits2_pos m) + Z.pos k.
Proof.
induction k as [|k IH] using Pos.peano_ind.
- simpl. lia.
- rewrite Pos.iter_succ. simpl. lia.
Qed.

Lemma shr_iter_xO m k :
SpecFloat.iter_pos shr_1 k {| shr_m := Z.pos (Pos.iter xO m k); shr_r := false; shr_s := false |}
= {| shr_m := Z.pos m; shr_r := false; shr_s := false |}.
Proof.
induction k as [|k IH] using Pos.peano_ind.
- reflexivity.
- rewrite Pos.iter_succ, iter_pos_succ, <- iter_pos_comm. simpl. exact IH.
Qed.

Lemma mul_pow2 m k : (m * Pos.iter xO 1 k)%positive = Pos.iter xO m k.
Proof.
induction k as [|k IH] using Pos.peano_ind.
- simpl. lia.
- rewrite !Pos.iter_succ. lia.
Qed.

(** Rounding a canonical mantissa that was shifted left by [k] bits. *)
Lemma round_shifted s m e k :
bounded prec emax m e = true ->
binary_round_aux prec emax s (Z.pos (Pos.iter xO m k)) (e - Z.pos k) loc_Exact
= S754_finite s m e.
Proof.
intros Hb. unfold bounded, canonical_mantissa in Hb.
apply andb_prop in Hb. destruct Hb as [Hc He].
apply Z.eqb_eq in Hc. apply Z.leb_le in He.
unfold binary_round_aux, shr_fexp at 1.
cbn [Zdigits2 shr_record_of_loc].
rewrite digits2_iter_xO.
replace (Z.pos (digits2_pos m) + Z.pos k + (e - Z.pos k)) with (Z.pos (digits2_pos m) + e) by lia.
rewrite Hc.
replace (e - (e - Z.pos k)) with (Z.pos k) by lia.
cbn [shr]. rewrite shr_iter_xO.
cbn [shr_m loc_of_shr_record round_nearest_even].
unfold shr_fexp. cbn [Zdigits2 shr_record_of_loc].
replace (e - Z.pos k + Z.pos k) with e by lia.
rewrite Hc, Z.sub_diag. cbn [shr shr_m].
apply Z.leb_le in He. rewrite He. reflexivity.
Qed.

Lemma Prim2SF_one : Prim2SF 1%float = S754_finite false 4503599627370496 (-52).
Proof. reflexivity. Qed.

Lemma mul_one_r (x : float) : (x * 1)%float = x.
Proof.
apply Prim2SF_inj. rewrite mul_spec, Prim2SF_one.
pose proof (Prim2SF_valid x) as Hv.
destruct (Prim2SF x) as [s|s| |s m e]; try reflexivity.
- destruct s; reflexivity.
- destruct s; reflexivity.
- unfold SF64mul, SFmul. rewrite xorb_false_r.
  change 4503599627370496%positive with (Pos.iter xO 1%positive 52).
  rewrite mul_pow2. change (e + -52) with (e - Z.pos 52).
  apply round_shifted. exact Hv.
Qed.

Lemma round_canonical s m e :
bounded prec emax m e = true ->
binary_round_aux prec emax s (Z.pos m) e loc_Exact = S754_finite s m e.
Proof.
intros Hb. unfold bounded, canonical_mantissa in Hb.
apply andb_prop in Hb. destruct Hb as [Hc He].
apply Z.eqb_eq in Hc.
unfold binary_round_aux, shr_fexp. cbn [Zdigits2 shr_record_of_loc].
rewrite Hc, Z.sub_diag. cbn [shr shr_m loc_of_shr_record round_nearest_even Zdigits2].
rewrite Hc, Z.sub_diag. cbn [shr shr_m]. rewrite He. reflexivity.
Qed.

Lemma div_same (x : float) : finite_nonzero x = true -> (x / x)%float = 1%float.
Proof.
unfold finite_nonzero. intros Hx.
apply Prim2SF_inj. rewrite div_spec, Prim2SF_one.
destruct (Prim2SF x) as [s|s| |s m e]; try discriminate.
unfold SF64div, SFdiv, SFdiv_core_binary.
rewrite Z.sub_diag, Z.sub_diag.
change (Z.min (fexp prec emax 0) 0) with (-53).
change (0 - -53) with 53.
cbv beta iota zeta.
rewrite Z.shiftl_mul_pow2 by lia.
rewrite (Z.mul_comm (Z.pos m)).
assert (Z.div_eucl (2 ^ 53 * Z.pos m) (Z.pos m) = (2 ^ 53, 0)) as ->.
{ pose proof (Z.div_mul (2 ^ 53) (Z.pos m) ltac:(lia)) as Hq.
  pose proof (Z.mod_mul (2 ^ 53) (Z.pos m) ltac:(lia)) as Hr.
  unfold Z.div, Z.modulo in Hq, Hr.
  destruct (Z.div_eucl (2 ^ 53 * Z.pos m) (Z.pos m)). simpl in Hq, Hr. congruence. }
assert (new_location (Z.pos m) 0 = loc_Exact) as ->.
{ unfold new_location, new_location_even, new_location_odd.
  destruct (Z.even (Z.pos m)); reflexivity. }
destruct s; reflexivity.
Qed.

Lemma digits2_size p : digits2_pos p = Pos.size p.
Proof. induction p; simpl; congruence. Qed.

Lemma digits2_bound p k : Z.pos p < 2 ^ k -> 0 <= k -> Z.pos (digits2_pos p) <= k.
Proof.
intros Hp Hk. rewrite digits2_size.
destruct (Z.le_gt_cases (Z.pos (Pos.size p)) k) as [|Hgt]; [assumption|exfalso].
pose proof (Pos.size_le p) as Hle.
assert (Z.pos (2 ^ Pos.size p) <= Z.pos p~0) as Hle' by exact Hle.
rewrite Pos2Z.inj_pow in Hle'.
assert (2 ^ (k + 1) <= 2 ^ Z.pos (Pos.size p)) as Hpow by (apply Z.pow_le_mono_r; lia).
rewrite Z.pow_add_r, Z.pow_1_r in Hpow by lia.
rewrite Pos2Z.inj_xO in Hle'. lia.
Qed.

(** A positive integer below 2^53 converts to a finite positive double. *)
Lemma binary_normalize_pos p :
Z.pos p < 2 ^ 53 ->
exists m e, binary_normalize prec emax (Z.pos p) 0 false = S754_finite false m e.
Proof.
intros Hp. pose proof (digits2_bound p 53 Hp ltac:(lia)) as Hd.
cbn [binary_normalize]. unfold binary_round, shl_align.
assert (fexp prec emax (Z.pos (digits2_pos p) + 0) = Z.pos (digits2_pos p) - 53) as ->.
{ unfold fexp, emin, prec, emax. lia. }
destruct (Z.pos (digits2_pos p) - 53 - 0) as [|d|d] eqn:Hk; try lia.
- eexists _, _. apply round_canonical.
  unfold bounded, canonical_mantissa, fexp, emin, prec, emax.
  apply andb_true_intro. split; [apply Z.eqb_eq|apply Z.leb_le]; lia.
- eexists _, _. apply round_canonical.
  unfold bounded, canonical_mantissa. rewrite digits2_iter_xO.
  unfold fexp, emin, prec, emax.
  apply andb_true_intro. split; [apply Z.eqb_eq|apply Z.leb_le]; lia.
Qed.

Lemma number_of_Z_finite n :
1 <= n < 2 ^ 53 -> finite_nonzero (number_of_Z n) = true.
Proof.
intros Hn. unfold finite_nonzero, number_of_Z.
destruct (Z.ltb_spec n 0) as [|_]; [lia|].
rewrite of_uint63_spec, Uint63.of_Z_spec.
rewrite Z.mod_small by (change Uint63.wB with (2 ^ 63); lia).
destruct n as [|p|p]; try lia.
destruct (binary_normalize_pos p) as (m & e & ->); [lia|reflexivity].
Qed.

Lemma SFltb_false_leb x y :
x <> S754_nan -> y <> S754_nan -> SFltb x y = false -> SFleb y x = true.
Proof.
unfold SFltb, SFleb.
destruct x as [sx|sx| |sx mx ex], y as [sy|sy| |sy my ey]; try congruence;
  intros _ _; try destruct sx; try destruct sy; simpl; try congruence;
  cmp_cases; simpl; try congruence; intros _; subst; lia.
Qed.

Lemma SFltb_leb x y : SFltb x y = true -> SFleb x y = true.
Proof.
unfold SFltb, SFleb. destruct (SFcompare x y) as [[| |]|]; congruence.
Qed.

Lemma SFleb_refl x : x <> S754_nan -> SFleb x x = true.
Proof.
unfold SFleb.
destruct x as [sx|sx| |sx mx ex]; try congruence; intros _; destruct sx; simpl; try reflexivity.
- rewrite Z.compare_refl.
  change (Pos.compare_cont Eq mx mx) with (Pos.compare mx mx).
  rewrite Pos.compare_refl. reflexivity.
- rewrite Z.compare_refl.
  change (Pos.compare_cont Eq mx mx) with (Pos.compare mx mx).
  rewrite Pos.compare_refl. reflexivity.
Qed.

Lemma SFleb_trans x y z : SFleb x y = true -> SFleb y z = true -> SFleb x z = true.
Proof.
unfold SFleb.
destruct x as [sx|sx| |sx mx ex], y as [sy|sy| |sy my ey], z as [sz|sz| |sz mz ez];
  try destruct sx; try destruct sy; try destruct sz; simpl; try congruence;
  cmp_cases; simpl; try congruence; try lia.
Qed.

Lemma SFltb_trans x y z : SFltb x y = true -> SFltb y z = true -> SFltb x z = true.
Proof.
unfold SFltb.
destruct x as [sx|sx| |sx mx ex], y as [sy|sy| |sy my ey], z as [sz|sz| |sz mz ez];
  try destruct sx; try destruct sy; try destruct sz; simpl; try congruence;
  cmp_cases; simpl; try congruence; try lia.
Qed.

Lemma is_nan_false x : is_nan x = false -> Prim2SF x <> S754_nan.
Proof. unfold is_nan. destruct (Prim2SF x); congruence. Qed.

Lemma ltb_false_leb (x y : float) :
is_nan x = false -> is_nan y = false -> (x <? y)%float = false -> (y <=? x)%float = true.
Proof.
intros Hx Hy. rewrite ltb_spec, leb_spec.
apply SFltb_false_leb; apply is_nan_false; assumption.
Qed.

Lemma ltb_trans (x y z : float) :
(x <? y)%float = true -> (y <? z)%float = true -> (x <? z)%float = true.
Proof. rewrite !ltb_spec. apply SFltb_trans. Qed.

Lemma ltb_irrefl (x : float) : (x <? x)%float = false.
Proof.
rewrite ltb_spec. unfold SFltb.
destruct (Prim2SF x) as [s|s| |s m e]; try destruct s; simpl; try reflexivity.
- rewrite Z.compare_refl. change (Pos.compare_cont Eq m m) with (Pos.compare m m).
  rewrite Pos.compare_refl. reflexivity.
- rewrite Z.compare_refl. change (Pos.compare_cont Eq m m) with (Pos.compare m m).
  rewrite Pos.compare_refl. reflexivity.
Qed.

End FloatFacts.

(** ** [computeHighLow] *)

Section HighLow.
Import Gold.

Lemma bounds_of_step seen lo hi p :
  bounds_of seen lo hi ->
  bounds_of (seen ++ [p])
    (if (value p <? lo)%float then value p else lo)
    (if gtb (value p) hi then value p else hi).
Proof.
  intros (Hlo & Hhi & Hall). unfold gtb. split; [|split].
  - destruct (value p <? lo)%float.
    + exists p. split; [apply elem_of_app; right; apply list_elem_of_singleton; reflexivity|reflexivity].
    + destruct Hlo as (q & Hq & ->). exists q. split; [apply elem_of_app; left; exact Hq|reflexivity].
  - destruct (hi <? value p)%float.
    + exists p. split; [apply elem_of_app; right; apply list_elem_of_singleton; reflexivity|reflexivity].
    + destruct Hhi as (q & Hq & ->). exists q. split; [apply elem_of_app; left; exact Hq|reflexivity].
  - intros q Hin. apply elem_of_app in Hin as [Hq|Hq%list_elem_of_singleton]; split.
    + destruct (Hall _ Hq) as [Hl _].
      destruct (value p <? lo)%float eqn:Hp; [|exact Hl].
      destruct (value q <? value p)%float eqn:Hc; [|reflexivity].
      rewrite (ltb_trans _ _ _ Hc Hp) in Hl. discriminate.
    + destruct (Hall _ Hq) as [_ Hh].
      destruct (hi <? value p)%float eqn:Hp; [|exact Hh].
      destruct (value p <? value q)%float eqn:Hc; [|reflexivity].
      rewrite (ltb_trans _ _ _ Hp Hc) in Hh. discriminate.
    + subst q. destruct (value p <? lo)%float eqn:Hp; [apply ltb_irrefl|exact Hp].
    + subst q. destruct (hi <? value p)%float eqn:Hp; [apply ltb_irrefl|exact Hp].
Qed.

Lemma highLow_loop_bounds rest : forall seen lo hi,
  bounds_of seen lo hi ->
  bounds_of (seen ++ rest) (low (highLow_loop rest lo hi)) (high (highLow_loop rest lo hi)).
Proof.
  induction rest as [|p rest IH]; intros seen lo hi Hb; simpl.
  - rewrite app_nil_r. exact Hb.
  - replace (seen ++ p :: rest) with ((seen ++ [p]) ++ rest) by (rewrite <- app_assoc; reflexivity).
    apply IH, bounds_of_step, Hb.
Qed.

Lemma computeHighLow_bounds (points : list GoldPoint) :
  points <> [] ->
  exists stats, computeHighLow points = Some stats /\
                bounds_of points (low stats) (high stats).
Proof.
  intros Hne. destruct points as [|p0 rest]; [congruence|].
  eexists. split; [reflexivity|].
  cbn [highLow_loop]. unfold gtb. rewrite ltb_irrefl.
  apply (highLow_loop_bounds rest [p0]).
  split; [|split];
    try (exists p0; split; [apply list_elem_of_singleton; reflexivity|reflexivity]).
  intros q Hq. apply list_elem_of_singleton in Hq. subst q. split; apply ltb_irrefl.
Qed.

(** C9. [computeHighLow] is absent exactly for the empty list; for a
    non-empty list its [low] and [high] are values of points of the list,
    no value of the list is below [low] or above [high], and, when no
    value is NaN, [low <= v <= high] for every value [v] of the list: they
    are the minimum and the maximum. Over the values 100, 80, 120, 95 the
    result is low 80 and high 120. *)
Theorem computeHighLow_min_max (points : list GoldPoint) :
  (computeHighLow points = None <-> points = []) /\
  (points <> [] ->
   exists stats, computeHighLow points = Some stats /\
     (exists p, p ∈ points /\ low stats = value p) /\
     (exists p, p ∈ points /\ high stats = value p) /\
     (forall p, p ∈ points ->
        (value p <? low stats)%float = false /\ (high stats <? value p)%float = false) /\
     ((forall p, p ∈ points -> is_nan (value p) = false) ->
      forall p, p ∈ points ->
        (low stats <=? value p)%float = true /\ (value p <=? high stats)%float = true)) /\
  computeHighLow (map point_of [100; 80; 120; 95]%float)
    = Some {| low := 80%float; high := 120%float |}.
Proof.
  split; [|split].
  - destruct points; simpl; split; congruence.
  - intros Hne. destruct points as [|p0 rest]; [congruence|].
    eexists. split; [reflexivity|].
    assert (bounds_of [p0] (value p0) (value p0)) as Hb0.
    { split; [|split];
        try (exists p0; split; [apply list_elem_of_singleton; reflexivity|reflexivity]).
      intros q Hq. apply list_elem_of_singleton in Hq. subst q.
      split; apply ltb_irrefl. }
    assert (bounds_of (p0 :: rest)
              (low (highLow_loop (p0 :: rest) (value p0) (value p0)))
              (high (highLow_loop (p0 :: rest) (value p0) (value p0)))) as (Hlo & Hhi & Hall).
    { cbn [highLow_loop]. unfold gtb. rewrite ltb_irrefl.
      apply (highLow_loop_bounds rest [p0]), Hb0. }
    split; [exact Hlo|]. split; [exact Hhi|]. split; [exact Hall|].
    intros Hnan p Hp. destruct (Hall p Hp) as [Hl Hh].
    destruct Hlo as (pl & Hpl & Hel). destruct Hhi as (ph & Hph & Heh).
    split; apply ltb_false_leb; auto; rewrite ?Hel, ?Heh; auto.
  - reflexivity.
Qed.
End HighLow.

(** ** [resolveUnit] *)

Section ResolveUnit.
Import Gold.

(** C10. [resolveUnit] is total: whatever the input (absent, a string, an
    array, of which only the first element counts), the result is one of
    the two units; it is [g] exactly when the (first) value is the string
    "g", and [oz] in every other case, the fallback included. The copy in
    the dashboard component behaves the same. *)
Theorem resolveUnit_total (input : QueryParam) :
  resolveUnit input
    = (if bool_decide (first_value input = Some "g"%string) then g else oz) /\
  Dashboard.resolveUnit input = resolveUnit input /\
  (forall s rest, resolveUnit (QArray (s :: rest)) = resolveUnit (QString s)) /\
  resolveUnit QAbsent = oz /\ resolveUnit (QArray []) = oz /\
  resolveUnit (QString "oz") = oz /\ resolveUnit (QString "g") = g /\
  resolveUnit (QString "kg") = oz /\ resolveUnit (QString "G") = oz.
Proof.
  split; [|repeat split].
  unfold resolveUnit. cbn [goldUnits List.find unit_value unit_string].
  destruct (first_value input) as [s|]; [|reflexivity].
  repeat case_bool_decide; simplify_eq; try reflexivity; congruence.
Qed.
End ResolveUnit.

(** ** [sliceRange] *)

Section SliceRange.
Import Gold.

Lemma nonempty_or_nonempty {A} (sliced pts : list A) :
  pts <> [] -> nonempty_or sliced pts <> [].
Proof. destruct sliced; simpl; congruence. Qed.

Lemma nonempty_or_spec {A} (sliced pts : list A) :
  nonempty_or sliced pts = if bool_decide (sliced = []) then pts else sliced.
Proof. destruct sliced; reflexivity. Qed.

(** C4. On a non-empty list [sliceRange] never returns the empty list:
    it returns the points the range filter keeps, and the whole input
    when the filter keeps none. *)
Theorem sliceRange_nonempty (points : list GoldPoint) (range_ : GoldRangeConfig)
    (latest_ : GoldPoint) :
  points <> [] ->
  sliceRange points range_ latest_ <> [] /\
  sliceRange points range_ latest_
    = match range_filter range_ latest_ with
      | Some keep =>
          if bool_decide (List.filter keep points = []) then points
          else List.filter keep points
      | None => points
      end.
Proof.
  intros Hne. destruct points as [|p0 rest]; [congruence|].
  unfold sliceRange, range_filter.
  destruct (kind range_), (truthy (year range_)), (truthy (month range_));
    rewrite ?nonempty_or_spec; split;
    try reflexivity; try exact Hne; try case_bool_decide; congruence.
Qed.

Lemma sliceRange_nonempty_witness :
  january <> [] /\
  sliceRange january march_2024 (jan "2024-01-02" 1704153600000) <> [] /\
  sliceRange january march_2024 (jan "2024-01-02" 1704153600000) = january.
Proof.
  assert (january <> []) as Hne by discriminate.
  split; [exact Hne|].
  exact (sliceRange_nonempty january march_2024 (jan "2024-01-02" 1704153600000) Hne).
Defined.
End SliceRange.

(** ** [computeChange] *)

Section ComputeChange.
Import Gold.

(** The backward scan finds the point of greatest index at or before the
    target, or nothing when no point is. *)
Lemma find_prior_spec (target : msec) (points : list GoldPoint) :
  match find_prior target (rev points) with
  | Some prior =>
      exists i, points !! i = Some prior /\ msec_leb (time prior) target = true /\
        forall j q, (i < j)%nat -> points !! j = Some q -> msec_leb (time q) target = false
  | None => forall q, q ∈ points -> msec_leb (time q) target = false
  end.
Proof.
  induction points as [|x l IH] using rev_ind.
  - simpl. intros q Hq. apply elem_of_nil in Hq. contradiction.
  - rewrite rev_unit. cbn [find_prior].
    destruct (msec_leb (time x) target) eqn:Hx.
    + exists (length l). split; [|split].
      * rewrite lookup_app_r, Nat.sub_diag by lia. reflexivity.
      * exact Hx.
      * intros j q Hj Hq. apply lookup_lt_Some in Hq.
        rewrite length_app in Hq. simpl in Hq. lia.
    + destruct (find_prior target (rev l)) as [prior|].
      * destruct IH as (i & Hi & Hle & Hmax).
        pose proof (lookup_lt_Some _ _ _ Hi) as Hlt.
        exists i. split; [|split].
        -- rewrite lookup_app_l by exact Hlt. exact Hi.
        -- exact Hle.
        -- intros j q Hj Hq.
           destruct (decide (j < length l)%nat) as [Hjl|Hjl].
           ++ rewrite lookup_app_l in Hq by exact Hjl. eapply Hmax; eauto.
           ++ rewrite lookup_app_r in Hq by lia.
              destruct (j - length l)%nat; simpl in Hq; [|discriminate].
              congruence.
      * intros q Hq. apply elem_of_app in Hq as [Hq|Hq].
        -- apply IH, Hq.
        -- apply list_elem_of_singleton in Hq. subst q. exact Hx.
Qed.

(** C3. For a non-empty list with last point [latest] and a lag of [N]
    days, [computeChange] returns [(latest.value - prior.value) /
    prior.value] where [prior] is the point of greatest index whose time
    is at most [latest.time - N * DAY_MS] (in a list ascending in time,
    the latest such point), and it returns nothing (not zero, and no
    exception) when no point qualifies. So it returns nothing on a dense
    daily series of fewer than [N + 1] points, as on three points with
    [N = 30]. *)
Theorem computeChange_prior (points : list GoldPoint) (N : Z) (latest_ : GoldPoint) :
  last points = Some latest_ ->
  let target := msec_sub (time latest_) (Some (N * DAY_MS)) in
  ((exists i prior,
      points !! i = Some prior /\ msec_leb (time prior) target = true /\
      (forall j q, (i < j)%nat -> points !! j = Some q -> msec_leb (time q) target = false) /\
      ((forall j k p q, (j <= k)%nat -> points !! j = Some p -> points !! k = Some q ->
                        msec_leb (time p) (time q) = true) ->
       forall q, q ∈ points -> msec_leb (time q) target = true ->
                 msec_leb (time q) (time prior) = true) /\
      computeChange points N = Some ((value latest_ - value prior) / value prior)%float)
   \/ ((forall q, q ∈ points -> msec_leb (time q) target = false) /\
       computeChange points N = None)) /\
  (forall t0, dense_daily t0 points -> Z.of_nat (length points) < N + 1 ->
              computeChange points N = None) /\
  computeChange three_days 30 = None.
Proof.
  intros Hlast target.
  assert (computeChange points N
          = match find_prior target (rev points) with
            | Some prior => Some ((value latest_ - value prior) / value prior)%float
            | None => None
            end) as Hcc.
  { unfold computeChange. rewrite Hlast. reflexivity. }
  pose proof (find_prior_spec target points) as Hspec.
  split; [|split].
  - destruct (find_prior target (rev points)) as [prior|].
    + left. destruct Hspec as (i & Hi & Hle & Hmax).
      exists i, prior. repeat split; try assumption.
      intros Hsorted q Hq Hqle.
      apply list_elem_of_lookup in Hq as [j Hj].
      destruct (decide (i < j)%nat) as [Hij|Hij].
      * rewrite (Hmax j q Hij Hj) in Hqle. discriminate.
      * apply (Hsorted j i q prior); [lia|assumption|assumption].
    + right. split; assumption.
  - intros t0 Hdense Hlen. rewrite Hcc.
    destruct (find_prior target (rev points)) as [prior|]; [exfalso|reflexivity].
    destruct Hspec as (i & Hi & Hle & _).
    rewrite last_lookup in Hlast.
    pose proof (lookup_lt_Some _ _ _ Hi) as Hilt.
    apply Hdense in Hlast. apply Hdense in Hi.
    unfold target in Hle. rewrite Hlast, Hi in Hle. simpl in Hle.
    apply Z.leb_le in Hle. unfold DAY_MS in Hle. lia.
  - reflexivity.
Qed.

Lemma computeChange_prior_witness :
  last three_days = Some {| date := "2024-01-03"; value := 2020%float;
                            time := Some 1704240000000 |} /\
  computeChange three_days 30 = None.
Proof.
  split; [reflexivity|].
  destruct (computeChange_prior three_days 30 _ eq_refl) as (_ & Hdense & _).
  apply (Hdense 1704067200000).
  - intros i p Hi. destruct i as [|[|[|i]]]; simpl in Hi; inversion Hi; reflexivity.
  - simpl. lia.
Defined.
End ComputeChange.

(** ** Unit conversion *)

Section UnitConversion.
Import Gold.

(** C6, as the specification states it, fails on the snapshot library:
    a price of 1900 USD/oz converted to grams by [getGoldData]'s
    multiplication is not the double [1900 / 31.1034768]. *)
Lemma to_unit_gram_not_quotient :
  value (to_unit g (price_point 1900%float)) <> (1900 / 31.1034768)%float.
Proof.
  intros H. apply (f_equal Prim2SF) in H. vm_compute in H. discriminate.
Qed.

(** C6, amended. For every double [x]: the live library's [convertPrice]
    is the identity for ounces and the quotient [x / 31.1034768] for
    grams; the snapshot library's conversion multiplies by a factor,
    which leaves [x] unchanged for ounces and gives
    [x * (1 / 31.1034768)] for grams, the product with the double nearest
    to the reciprocal. *)
Theorem unit_conversion (x : float) (p : GoldPoint) :
  Live.convertPrice x oz = x /\
  Live.convertPrice x g = (x / 31.1034768)%float /\
  to_unit oz p = p /\
  value (to_unit g p) = (value p * (1 / 31.1034768))%float /\
  (1 / 31.1034768)%float = 0.032150746568627979%float.
Proof.
  repeat split. destruct p as [d v t]. unfold to_unit. simpl.
  rewrite mul_one_r. reflexivity.
Qed.
End UnitConversion.

(** ** Dates *)

Section Dates.

Lemma span_digits_bound (s : string) : forall acc count v count',
  span_digits 10 s acc count = (v, count', EmptyString) ->
  0 <= acc ->
  acc * 10 ^ Z.of_nat (String.length s) <= v
    < (acc + 1) * 10 ^ Z.of_nat (String.length s).
Proof.
  induction s as [|c s IH]; intros acc count v count' Hs Hacc.
  - simpl in Hs. inversion Hs; subst. simpl. lia.
  - cbn [span_digits] in Hs.
    assert (10 ^ Z.of_nat (String.length (String c s))
            = 10 * 10 ^ Z.of_nat (String.length s)) as Hpow.
    { cbn [String.length]. rewrite Nat2Z.inj_succ, Z.pow_succ_r by lia. reflexivity. }
    rewrite Hpow.
    assert (0 < 10 ^ Z.of_nat (String.length s)) as Hpos by (apply Z.pow_pos_nonneg; lia).
    destruct (digit_value 10 c) as [d|] eqn:Hd.
    + assert (0 <= d < 10) as Hdr.
      { unfold digit_value in Hd.
        repeat match type of Hd with
               | context [if ?b then _ else _] => destruct b eqn:?
               end; inversion Hd; subst; lia. }
      apply IH in Hs; [|lia]. nia.
    + inversion Hs.
Qed.

Lemma digits_value_bound (s : string) v :
  digits_value s = Some v -> 0 <= v < 10 ^ Z.of_nat (String.length s).
Proof.
  unfold digits_value. intros H.
  destruct (span_digits 10 s 0 0) as [[v' n] r] eqn:Hs.
  destruct n; [discriminate|]. destruct r; [|discriminate].
  apply span_digits_bound in Hs; [|lia].
  inversion H; subst. lia.
Qed.

Lemma length_substring (s : string) : forall n m,
  (String.length (substring n m s) <= m)%nat.
Proof.
  induction s as [|c s IH]; intros n m.
  - destruct n, m; simpl; lia.
  - destruct n as [|n]; [destruct m as [|m]|]; simpl; [lia| |apply IH].
    specialize (IH 0%nat m). lia.
Qed.

(** A parsed date is UTC midnight of a day between the years 0 and 9999. *)
Lemma Date_parse_day (s : string) (t : Z) :
  Date_parse s = Some t ->
  exists d, t = d * msPerDay /\ -720000 <= d <= 2940000.
Proof.
  unfold Date_parse. intros H.
  destruct (negb _); [discriminate|].
  destruct (digits_value (substring 0 4 s)) as [y|] eqn:Hy; [|discriminate].
  destruct (get 4 s) as [c1|]; [|discriminate].
  destruct (Ascii.eqb_spec c1 "-"); [subst|
    destruct c1 as [[] [] [] [] [] [] [] []]; try discriminate; congruence].
  destruct (digits_value (substring 5 2 s)) as [m|] eqn:Hm; [|discriminate].
  destruct (get 7 s) as [c2|]; [|discriminate].
  destruct (Ascii.eqb_spec c2 "-"); [subst|
    destruct c2 as [[] [] [] [] [] [] [] []]; try discriminate; congruence].
  destruct (digits_value (substring 8 2 s)) as [d|] eqn:Hd; [|discriminate].
  destruct ((1 <=? m) && (m <=? 12) && (1 <=? d) && (d <=? days_in_month y m)) eqn:Hv;
    [|discriminate].
  inversion H; subst t. eexists. split; [reflexivity|].
  apply digits_value_bound in Hy.
  pose proof (length_substring s 0 4) as Hl.
  assert (10 ^ Z.of_nat (String.length (substring 0 4 s)) <= 10 ^ 4) as Hp
    by (apply Z.pow_le_mono_r; lia).
  assert (d <= 31).
  { unfold days_in_month in Hv.
    repeat match type of Hv with
           | context [if ?b then _ else _] => destruct b
           end; lia. }
  unfold days_from_civil.
  destruct (m <=? 2) eqn:?, (2 <? m) eqn:?; try lia;
    Z.div_mod_to_equations; lia.
Qed.

Lemma round_div_exact (k d : Z) : 0 < d -> round_div (k * d) d = k.
Proof.
  intros Hd. unfold round_div.
  symmetry. apply Z.div_unique with (r := d); lia.
Qed.

End Dates.

(** ** [buildSeriesFromAnchors] *)

Section Densifier.
Import Gold.

Lemma day_loop_ok index start end_ startTime daySpan (days_ : list Z) :
  forall pts,
  (forall day, day ∈ days_ -> Z.abs (startTime + day * DAY_MS) <= maxTime) ->
  foldl (fun acc day =>
           bind acc (fun pts => day_step index start end_ startTime daySpan pts day))
        (Ok pts) days_
  = Ok (pts ++ map (interpolated start end_ startTime daySpan)
                   (List.filter (fun day => negb ((0 <? index)%nat && (day =? 0))) days_)).
Proof.
  induction days_ as [|day rest IH]; intros pts Hrange.
  - simpl. rewrite app_nil_r. reflexivity.
  - cbn [foldl List.filter bind]. unfold day_step at 2.
    destruct ((0 <? index)%nat && (day =? 0)) eqn:Hskip; cbn [negb].
    + apply IH. intros d Hd. apply Hrange. apply elem_of_cons. right. exact Hd.
    + unfold toISOString.
      assert ((Z.abs (startTime + day * DAY_MS) <=? maxTime) = true) as ->.
      { apply Z.leb_le, Hrange. apply elem_of_cons. left. reflexivity. }
      cbn [bind]. rewrite IH.
      * cbn [map]. rewrite <- app_assoc. reflexivity.
      * intros d Hd. apply Hrange. apply elem_of_cons. right. exact Hd.
Qed.

Lemma pair_loop_cons index start end_ rest pts :
  pair_loop index (start :: end_ :: rest) pts
  = bind match Date_parse (anchor_date start), Date_parse (anchor_date end_) with
         | Some startTime, Some endTime =>
             day_loop index start end_ startTime
               (Z.max 1 (round_div (endTime - startTime) DAY_MS)) pts
         | _, _ => Ok pts
         end
         (fun pts' => pair_loop (S index) (end_ :: rest) pts').
Proof. reflexivity. Qed.

Lemma segments_cons index start end_ rest :
  segments index (start :: end_ :: rest)
  = segment index start end_ ++ segments (S index) (end_ :: rest).
Proof. reflexivity. Qed.

Lemma pair_loop_ok (sorted : list GoldAnchor) :
  forall index pts, pair_loop index sorted pts = Ok (pts ++ segments index sorted).
Proof.
  induction sorted as [|start rest IH]; intros index pts.
  - simpl. rewrite app_nil_r. reflexivity.
  - destruct rest as [|end_ rest].
    + simpl. rewrite app_nil_r. reflexivity.
    + rewrite pair_loop_cons, segments_cons. unfold segment.
      destruct (Date_parse (anchor_date start)) as [s|] eqn:Hs;
        [destruct (Date_parse (anchor_date end_)) as [e|] eqn:He|].
      * unfold day_loop. rewrite day_loop_ok.
        -- cbn [bind]. rewrite IH, <- app_assoc. reflexivity.
        -- intros day Hday.
           apply Date_parse_day in Hs as (ds & -> & Hds).
           apply Date_parse_day in He as (de & -> & Hde).
           apply elem_of_seqZ in Hday.
           replace (de * msPerDay - ds * msPerDay) with ((de - ds) * DAY_MS) in Hday
             by (unfold msPerDay, DAY_MS; lia).
           rewrite round_div_exact in Hday by (unfold DAY_MS; lia).
           unfold msPerDay, DAY_MS, maxTime. lia.
      * cbn [bind]. rewrite IH. reflexivity.
      * cbn [bind]. rewrite IH. reflexivity.
Qed.

(** The densifier never throws: it returns the anchor itself for one
    anchor and the interpolated segments otherwise. *)
Lemma buildSeriesFromAnchors_ok (anchors_ : list GoldAnchor) :
  buildSeriesFromAnchors anchors_
  = Ok (match sort date_after anchors_ with
        | [a] => [{| date := anchor_date a; value := anchor_value a;
                     time := Date_parse (anchor_date a) |}]
        | sorted => segments 0 sorted
        end).
Proof.
  unfold buildSeriesFromAnchors.
  destruct (sort date_after anchors_) as [|a [|b rest]]; try reflexivity.
  rewrite pair_loop_ok. reflexivity.
Qed.

End Densifier.

(** ** Distinct dates are distinct days *)

Section Calendar.

Lemma days_from_civil_linear (y m d : Z) :
  days_from_civil y m d
  = days_before (march_year y m) + (153 * march_month m + 2) / 5 + d - 719469.
Proof.
  unfold days_from_civil, days_before, march_year, march_month.
  generalize (if m <=? 2 then y - 1 else y). intros y'.
  generalize ((153 * (if 2 <? m then m - 3 else m + 9) + 2) / 5). intros mm.
  Z.div_mod_to_equations. lia.
Qed.

Lemma days_before_succ (y : Z) :
  days_before (y + 1) = days_before y + 365 + (if is_leap (y + 1) then 1 else 0).
Proof.
  unfold days_before, is_leap.
  destruct (Z.eqb_spec ((y + 1) mod 4) 0), (Z.eqb_spec ((y + 1) mod 100) 0),
    (Z.eqb_spec ((y + 1) mod 400) 0); simpl; Z.div_mod_to_equations; lia.
Qed.

Lemma days_before_mono (a b : Z) : a <= b -> days_before a <= days_before b.
Proof.
  intros Hab. replace b with (a + Z.of_nat (Z.to_nat (b - a))) by lia.
  induction (Z.to_nat (b - a)) as [|n IH].
  - rewrite Z.add_0_r. lia.
  - replace (a + Z.of_nat (S n)) with (a + Z.of_nat n + 1) by lia.
    rewrite days_before_succ. destruct (is_leap _); lia.
Qed.

(** The day of the year, counted from March 1st, of a date of the calendar. *)
Lemma day_of_year_bounds (y m d : Z) :
  1 <= m <= 12 -> 1 <= d <= days_in_month y m ->
  1 <= (153 * march_month m + 2) / 5 + d
    <= 365 + (if is_leap (march_year y m + 1) then 1 else 0).
Proof.
  intros Hm Hd. unfold days_in_month in Hd. unfold march_month, march_year.
  assert (m = 1 \/ m = 2 \/ m = 3 \/ m = 4 \/ m = 5 \/ m = 6 \/ m = 7 \/ m = 8 \/ m = 9
          \/ m = 10 \/ m = 11 \/ m = 12) as Hcases by lia.
  repeat destruct Hcases as [->|Hcases]; try subst m;
    cbn [Z.eqb Z.ltb Z.leb Z.compare Pos.compare Pos.compare_cont orb Pos.eqb] in *;
    try replace (y - 1 + 1) with y by lia;
    repeat match goal with
           | |- context [is_leap ?x] => destruct (is_leap x)
           | H : context [is_leap ?x] |- _ => destruct (is_leap x)
           end;
    Z.div_mod_to_equations; lia.
Qed.

Lemma days_from_civil_window (y m d : Z) :
  1 <= m <= 12 -> 1 <= d <= days_in_month y m ->
  days_before (march_year y m) - 719468 <= days_from_civil y m d
    < days_before (march_year y m + 1) - 719468.
Proof.
  intros Hm Hd. rewrite days_from_civil_linear, days_before_succ.
  pose proof (day_of_year_bounds y m d Hm Hd). lia.
Qed.

(** A month is no longer than the step of the month offset. *)
Lemma month_offset_step (y m d : Z) :
  1 <= m <= 12 -> 1 <= d <= days_in_month y m ->
  (153 * march_month m + 2) / 5 + d <= (153 * (march_month m + 1) + 2) / 5.
Proof.
  intros Hm Hd. unfold days_in_month in Hd. unfold march_month.
  assert (m = 1 \/ m = 2 \/ m = 3 \/ m = 4 \/ m = 5 \/ m = 6 \/ m = 7 \/ m = 8 \/ m = 9
          \/ m = 10 \/ m = 11 \/ m = 12) as Hcases by lia.
  repeat destruct Hcases as [->|Hcases]; try subst m;
    cbn [Z.eqb Z.ltb Z.leb Z.compare Pos.compare Pos.compare_cont orb Pos.eqb] in *;
    repeat match goal with
           | H : context [is_leap ?x] |- _ => destruct (is_leap x)
           end;
    Z.div_mod_to_equations; lia.
Qed.

Lemma days_from_civil_inj (y1 m1 d1 y2 m2 d2 : Z) :
  1 <= m1 <= 12 -> 1 <= d1 <= days_in_month y1 m1 ->
  1 <= m2 <= 12 -> 1 <= d2 <= days_in_month y2 m2 ->
  days_from_civil y1 m1 d1 = days_from_civil y2 m2 d2 ->
  y1 = y2 /\ m1 = m2 /\ d1 = d2.
Proof.
  intros Hm1 Hd1 Hm2 Hd2 Heq.
  pose proof (days_from_civil_window y1 m1 d1 Hm1 Hd1) as Hw1.
  pose proof (days_from_civil_window y2 m2 d2 Hm2 Hd2) as Hw2.
  assert (march_year y1 m1 = march_year y2 m2) as Hy.
  { destruct (Z.lt_trichotomy (march_year y1 m1) (march_year y2 m2)) as [Hlt|[Heq'|Hgt]];
      [|exact Heq'|].
    - pose proof (days_before_mono (march_year y1 m1 + 1) (march_year y2 m2) ltac:(lia)). lia.
    - pose proof (days_before_mono (march_year y2 m2 + 1) (march_year y1 m1) ltac:(lia)). lia. }
  rewrite !days_from_civil_linear, Hy in Heq.
  pose proof (month_offset_step y1 m1 d1 Hm1 Hd1) as Hs1.
  pose proof (month_offset_step y2 m2 d2 Hm2 Hd2) as Hs2.
  assert (march_month m1 = march_month m2) as Hmm.
  { destruct (Z.lt_trichotomy (march_month m1) (march_month m2)) as [Hlt|[Heq'|Hgt]];
      [|exact Heq'|].
    - assert ((153 * (march_month m1 + 1) + 2) / 5 <= (153 * march_month m2 + 2) / 5)
        by (apply Z.div_le_mono; lia). lia.
    - assert ((153 * (march_month m2 + 1) + 2) / 5 <= (153 * march_month m1 + 2) / 5)
        by (apply Z.div_le_mono; lia). lia. }
  rewrite Hmm in Heq.
  assert (m1 = m2) as ->.
  { unfold march_month in Hmm. destruct (Z.ltb_spec 2 m1), (Z.ltb_spec 2 m2); lia. }
  split; [|split; [reflexivity|lia]].
  unfold march_year in Hy. destruct (m2 <=? 2); lia.
Qed.

Lemma digit_value_bounds (c : ascii) (d : Z) :
  digit_value 10 c = Some d -> 0 <= d < 10.
Proof.
  unfold digit_value. intros H.
  repeat match type of H with
         | context [if ?b then _ else _] => destruct b eqn:?
         end; inversion H; subst; lia.
Qed.

Lemma digit_value_inj (c1 c2 : ascii) (d : Z) :
  digit_value 10 c1 = Some d -> digit_value 10 c2 = Some d -> c1 = c2.
Proof.
  intros H1 H2.
  assert (forall c, digit_value 10 c = Some d -> nat_of_ascii c = Z.to_nat (d + 48)) as Hn.
  { intros c H. unfold digit_value in H.
    repeat match type of H with
           | context [if ?b then _ else _] => destruct b eqn:?
           end; inversion H; subst; lia. }
  rewrite <- (ascii_nat_embedding c1), <- (ascii_nat_embedding c2).
  rewrite (Hn c1 H1), (Hn c2 H2). reflexivity.
Qed.

Lemma span_digits_inj (s1 : string) : forall s2 acc1 acc2 n1 n2 v k1 k2,
  String.length s1 = String.length s2 -> 0 <= acc1 -> 0 <= acc2 ->
  span_digits 10 s1 acc1 n1 = (v, k1, EmptyString) ->
  span_digits 10 s2 acc2 n2 = (v, k2, EmptyString) ->
  acc1 = acc2 /\ s1 = s2.
Proof.
  induction s1 as [|c1 s1 IH]; intros [|c2 s2] acc1 acc2 n1 n2 v k1 k2 Hlen Ha1 Ha2 H1 H2;
    try discriminate.
  - simpl in H1, H2. inversion H1. inversion H2. split; [lia|reflexivity].
  - cbn [span_digits] in H1, H2.
    destruct (digit_value 10 c1) as [d1|] eqn:Hd1; [|discriminate].
    destruct (digit_value 10 c2) as [d2|] eqn:Hd2; [|discriminate].
    pose proof (digit_value_bounds c1 d1 Hd1). pose proof (digit_value_bounds c2 d2 Hd2).
    simpl in Hlen. injection Hlen as Hlen.
    assert (0 <= acc1 * 10 + d1) as Hn1 by lia.
    assert (0 <= acc2 * 10 + d2) as Hn2 by lia.
    destruct (IH s2 _ _ _ _ _ _ _ Hlen Hn1 Hn2 H1 H2) as [Hacc ->].
    assert (acc1 = acc2 /\ d1 = d2) as [-> ->] by lia.
    split; [reflexivity|]. f_equal. exact (digit_value_inj c1 c2 d2 Hd1 Hd2).
Qed.

Lemma digits_value_inj (s1 s2 : string) (v : Z) :
  String.length s1 = String.length s2 ->
  digits_value s1 = Some v -> digits_value s2 = Some v -> s1 = s2.
Proof.
  unfold digits_value. intros Hlen H1 H2.
  destruct (span_digits 10 s1 0 0) as [[v1 k1] r1] eqn:Hs1.
  destruct (span_digits 10 s2 0 0) as [[v2 k2] r2] eqn:Hs2.
  destruct k1; [discriminate|]. destruct r1; [|discriminate].
  destruct k2; [discriminate|]. destruct r2; [|discriminate].
  inversion H1; subst v1. inversion H2; subst v2.
  apply (span_digits_inj s1 s2 0 0 0%nat 0%nat v _ _ Hlen ltac:(lia) ltac:(lia) Hs1 Hs2).
Qed.

(** The parts of a date that parses: four digits, two digits, two digits,
    a month and a day of the calendar. *)
Lemma Date_parse_shape (s : string) (t : Z) :
  Date_parse s = Some t ->
  exists ys ms ds y m d,
    s = (ys ++ "-" ++ ms ++ "-" ++ ds)%string /\
    String.length ys = 4%nat /\ String.length ms = 2%nat /\ String.length ds = 2%nat /\
    digits_value ys = Some y /\ digits_value ms = Some m /\ digits_value ds = Some d /\
    1 <= m <= 12 /\ 1 <= d <= days_in_month y m /\
    t = days_from_civil y m d * msPerDay.
Proof.
  intros H.
  destruct s as [|c0 [|c1 [|c2 [|c3 [|c4 [|c5 [|c6 [|c7 [|c8 [|c9 [|c10 s]]]]]]]]]]];
    try discriminate H.
  unfold Date_parse in H.
  cbn [String.length Nat.eqb negb substring String.get] in H.
  destruct (digits_value (String c0 (String c1 (String c2 (String c3 EmptyString)))))
    as [y|] eqn:Hy; [|discriminate].
  destruct (Ascii.eqb_spec c4 "-"); [subst c4|
    destruct c4 as [[] [] [] [] [] [] [] []]; try discriminate; congruence].
  destruct (digits_value (String c5 (String c6 EmptyString))) as [m|] eqn:Hm; [|discriminate].
  destruct (Ascii.eqb_spec c7 "-"); [subst c7|
    destruct c7 as [[] [] [] [] [] [] [] []]; try discriminate; congruence].
  destruct (digits_value (String c8 (String c9 EmptyString))) as [d|] eqn:Hd; [|discriminate].
  destruct ((1 <=? m) && (m <=? 12) && (1 <=? d) && (d <=? days_in_month y m)) eqn:Hv;
    [|discriminate].
  inversion H; subst t.
  exists (String c0 (String c1 (String c2 (String c3 EmptyString)))),
         (String c5 (String c6 EmptyString)), (String c8 (String c9 EmptyString)), y, m, d.
  repeat (apply andb_prop in Hv as [Hv ?]).
  repeat split; try reflexivity; try assumption; lia.
Qed.

(** Two dates that parse to the same time are the same string. *)
Lemma Date_parse_inj (s1 s2 : string) (t : Z) :
  Date_parse s1 = Some t -> Date_parse s2 = Some t -> s1 = s2.
Proof.
  intros H1 H2.
  apply Date_parse_shape in H1
    as (ys1 & ms1 & ds1 & y1 & m1 & d1 & -> & Hly1 & Hlm1 & Hld1 & Hy1 & Hm1 & Hd1 & Hvm1 & Hvd1 & Ht1).
  apply Date_parse_shape in H2
    as (ys2 & ms2 & ds2 & y2 & m2 & d2 & -> & Hly2 & Hlm2 & Hld2 & Hy2 & Hm2 & Hd2 & Hvm2 & Hvd2 & Ht2).
  assert (days_from_civil y1 m1 d1 = days_from_civil y2 m2 d2) as Heq
    by (unfold msPerDay in *; lia).
  destruct (days_from_civil_inj _ _ _ _ _ _ Hvm1 Hvd1 Hvm2 Hvd2 Heq) as (-> & -> & ->).
  rewrite (digits_value_inj ys1 ys2 y2), (digits_value_inj ms1 ms2 m2),
    (digits_value_inj ds1 ds2 d2); try assumption; try congruence.
Qed.

(** The year of the era that [civil_from_days] computes is the year the
    day falls in, counted from March. *)
Lemma year_of_era (doe : Z) :
  0 <= doe <= 146096 ->
  let yoe := (doe - doe / 1460 + doe / 36524 - doe / 146096) / 365 in
  0 <= yoe <= 399 /\
  0 <= doe - (365 * yoe + yoe / 4 - yoe / 100)
    <= 364 + (if is_leap (yoe + 1) then 1 else 0).
Proof.
  intros H yoe. subst yoe. unfold is_leap.
  set (yoe := (doe - doe / 1460 + doe / 36524 - doe / 146096) / 365).
  assert (0 <= yoe <= 399 /\ 0 <= doe - (365 * yoe + yoe / 4 - yoe / 100) <= 365) as [Hy Hd]
    by (subst yoe; Z.div_mod_to_equations; lia).
  split; [exact Hy|].
  destruct (Z.eqb_spec ((yoe + 1) mod 4) 0), (Z.eqb_spec ((yoe + 1) mod 100) 0),
    (Z.eqb_spec ((yoe + 1) mod 400) 0); cbn [negb andb orb];
    subst yoe; Z.div_mod_to_equations; lia.
Qed.

Lemma is_leap_shift (y k : Z) : is_leap (y + k * 400) = is_leap y.
Proof.
  unfold is_leap.
  replace ((y + k * 400) mod 4) with (y mod 4)
    by (replace (k * 400) with (k * 100 * 4) by lia; rewrite Z.mod_add by lia; reflexivity).
  replace ((y + k * 400) mod 100) with (y mod 100)
    by (replace (k * 400) with (k * 4 * 100) by lia; rewrite Z.mod_add by lia; reflexivity).
  rewrite Z.mod_add by lia. reflexivity.
Qed.

(** Evaluates the comparisons of literals in the goal. *)
Ltac eval_comparisons :=
  repeat match goal with
         | |- context [Z.ltb (Zpos ?a) (Zpos ?b)] =>
             let r := eval vm_compute in (Z.ltb (Zpos a) (Zpos b)) in
             change (Z.ltb (Zpos a) (Zpos b)) with r; cbv iota
         | |- context [Z.ltb Z0 (Zpos ?b)] => change (Z.ltb Z0 (Zpos b)) with true; cbv iota
         | |- context [Z.add ?a (Zpos ?b) <=? 2] =>
             let r := eval vm_compute in (Z.add a (Zpos b) <=? 2) in
             change (Z.add a (Zpos b) <=? 2) with r; cbv iota
         | |- context [Z.sub ?a (Zpos ?b) <=? 2] =>
             let r := eval vm_compute in (Z.sub a (Zpos b) <=? 2) in
             change (Z.sub a (Zpos b) <=? 2) with r; cbv iota
         | |- context [Z.add ?a (Zpos ?b) =? ?c] =>
             let r := eval vm_compute in (Z.add a (Zpos b) =? c) in
             change (Z.add a (Zpos b) =? c) with r; cbv iota
         | |- context [Z.sub ?a (Zpos ?b) =? ?c] =>
             let r := eval vm_compute in (Z.sub a (Zpos b) =? c) in
             change (Z.sub a (Zpos b) =? c) with r; cbv iota
         end.

(** The day of the month that [civil_from_days] computes from the day of
    the year (counted from the first of March) is a day of its month. *)
Lemma day_of_month_bounds (my doy : Z) :
  0 <= doy <= 364 + (if is_leap (my + 1) then 1 else 0) ->
  let mp := (5 * doy + 2) / 153 in
  let m := if mp <? 10 then mp + 3 else mp - 9 in
  1 <= doy - (153 * mp + 2) / 5 + 1 <= days_in_month (my + (if m <=? 2 then 1 else 0)) m.
Proof.
  intros Hdoy mp m.
  assert (0 <= mp <= 11) as Hmp
    by (subst mp; destruct (is_leap (my + 1)); Z.div_mod_to_equations; lia).
  assert (mp = 0 \/ mp = 1 \/ mp = 2 \/ mp = 3 \/ mp = 4 \/ mp = 5 \/ mp = 6 \/ mp = 7
          \/ mp = 8 \/ mp = 9 \/ mp = 10 \/ mp = 11) as Hcases by lia.
  subst m. unfold days_in_month. clear Hmp. unfold mp in Hcases |- *. clear mp.
  repeat destruct Hcases as [Hc|Hcases]; try pose proof Hcases as Hc;
    rewrite Hc; eval_comparisons; cbn [orb];
    repeat match goal with
           | |- context [is_leap ?x] => destruct (is_leap x)
           | H : context [is_leap ?x] |- _ => destruct (is_leap x)
           end;
    Z.div_mod_to_equations; lia.
Qed.

(** [civil_from_days] gives a date of the calendar, and that date has the
    day number it was computed from. *)
Lemma days_from_civil_from_days (z : Z) :
  let '(y, m, d) := civil_from_days z in
  1 <= m <= 12 /\ 1 <= d <= days_in_month y m /\ days_from_civil y m d = z.
Proof.
  unfold civil_from_days.
  set (era := (z + 719468) / 146097).
  set (doe := z + 719468 - era * 146097).
  assert (0 <= doe <= 146096) as Hdoe by (subst doe era; Z.div_mod_to_equations; lia).
  pose proof (year_of_era doe Hdoe) as [Hyoe Hdoy]. cbv zeta in Hyoe, Hdoy.
  set (yoe := (doe - doe / 1460 + doe / 36524 - doe / 146096) / 365) in *.
  set (doy := doe - (365 * yoe + yoe / 4 - yoe / 100)) in *.
  assert (is_leap (yoe + era * 400 + 1) = is_leap (yoe + 1)) as Hleap
    by (replace (yoe + era * 400 + 1) with (yoe + 1 + era * 400) by lia; apply is_leap_shift).
  rewrite <- Hleap in Hdoy.
  pose proof (day_of_month_bounds (yoe + era * 400) doy Hdoy) as Hdom. cbv zeta in Hdom.
  set (mp := (5 * doy + 2) / 153) in *.
  set (m := if mp <? 10 then mp + 3 else mp - 9) in *.
  set (y := if m <=? 2 then yoe + era * 400 + 1 else yoe + era * 400).
  assert (0 <= mp <= 11) as Hmp
    by (subst mp; destruct (is_leap (yoe + era * 400 + 1)); Z.div_mod_to_equations; lia).
  assert (march_month m = mp) as Hmm
    by (unfold march_month; subst m; destruct (Z.ltb_spec mp 10);
        match goal with |- context [2 <? ?a] => destruct (Z.ltb_spec 2 a) end; lia).
  assert (march_year y m = yoe + era * 400) as Hmy
    by (unfold march_year; subst y; destruct (Z.leb_spec m 2); lia).
  assert (z = era * 146097 + doe - 719468) as Hz by (subst doe; lia).
  assert (doe = yoe * 365 + yoe / 4 - yoe / 100 + doy) as Hdoe' by (subst doy; lia).
  split; [subst m; destruct (Z.ltb_spec mp 10); lia|].
  split.
  - replace y with (yoe + era * 400 + (if m <=? 2 then 1 else 0))
      by (subst y; destruct (m <=? 2); lia).
    exact Hdom.
  - rewrite days_from_civil_linear, Hmm, Hmy. unfold days_before.
    rewrite Hz, Hdoe'. clear - Hyoe. Z.div_mod_to_equations. lia.
Qed.

End Calendar.

(** ** Dates and their ISO text *)

Section IsoDates.

Lemma days_from_civil_year_lt (y1 m1 d1 y2 m2 d2 : Z) :
  1 <= m1 <= 12 -> 1 <= d1 <= days_in_month y1 m1 ->
  1 <= m2 <= 12 -> 1 <= d2 <= days_in_month y2 m2 ->
  y1 < y2 -> days_from_civil y1 m1 d1 < days_from_civil y2 m2 d2.
Proof.
  intros Hm1 Hd1 Hm2 Hd2 Hy.
  destruct (Z.lt_ge_cases (march_year y1 m1) (march_year y2 m2)) as [Hlt|Hge].
  - pose proof (days_from_civil_window y1 m1 d1 Hm1 Hd1) as [_ H1].
    pose proof (days_from_civil_window y2 m2 d2 Hm2 Hd2) as [H2 _].
    pose proof (days_before_mono (march_year y1 m1 + 1) (march_year y2 m2) ltac:(lia)).
    lia.
  - pose proof (month_offset_step y1 m1 d1 Hm1 Hd1) as Hstep.
    rewrite !days_from_civil_linear.
    unfold march_year, march_month in *.
    destruct (Z.leb_spec m1 2), (Z.leb_spec m2 2), (Z.ltb_spec 2 m1), (Z.ltb_spec 2 m2);
      try lia.
    replace (y2 - 1) with y1 by lia.
    assert ((153 * (m1 - 3 + 1) + 2) / 5 <= (153 * 10 + 2) / 5) as Hmono
      by (apply Z.div_le_mono; lia).
    assert ((153 * 10 + 2) / 5 <= (153 * (m2 + 9) + 2) / 5) as Hmono'
      by (apply Z.div_le_mono; lia).
    lia.
Qed.

(** The years of the days a four-digit year can name. *)
Lemma civil_from_days_year (z : Z) :
  -719528 <= z <= 2932896 ->
  let '(y, m, d) := civil_from_days z in 0 <= y <= 9999.
Proof.
  intros Hz. pose proof (days_from_civil_from_days z) as H.
  destruct (civil_from_days z) as [[y m] d]. destruct H as (Hm & Hd & Heq).
  split.
  - destruct (Z.lt_ge_cases y 0) as [Hlt|]; [|lia].
    pose proof (days_from_civil_year_lt y m d 0 1 1 Hm Hd ltac:(lia) ltac:(vm_compute; split; discriminate) Hlt) as H.
    change (days_from_civil 0 1 1) with (-719528) in H. lia.
  - destruct (Z.lt_ge_cases 9999 y) as [Hlt|]; [|lia].
    pose proof (days_from_civil_year_lt 9999 12 31 y m d ltac:(lia) ltac:(vm_compute; split; discriminate) Hm Hd Hlt) as H.
    change (days_from_civil 9999 12 31) with 2932896 in H. lia.
Qed.

(** The day a date of the form [YYYY-MM-DD] names. *)
Lemma Date_parse_range (s : string) (t : Z) :
  Date_parse s = Some t ->
  exists d, t = d * msPerDay /\ -719528 <= d <= 2932896.
Proof.
  intros H.
  apply Date_parse_shape in H
    as (ys & ms & ds & y & m & d & _ & Hly & _ & _ & Hy & _ & _ & Hm & Hd & ->).
  exists (days_from_civil y m d). split; [reflexivity|].
  assert (0 <= y < 10000) as Hyr.
  { unfold digits_value in Hy.
    destruct (span_digits 10 ys 0 0) as [[v n] r] eqn:Hs.
    destruct n; [discriminate|]. destruct r; [|discriminate].
    inversion Hy; subst v.
    pose proof (span_digits_bound ys 0 0%nat y (S n) Hs ltac:(lia)) as Hb.
    rewrite Hly in Hb. simpl in Hb. lia. }
  pose proof (days_from_civil_year_lt (-1) 12 31 y m d ltac:(lia)
                ltac:(vm_compute; split; discriminate) Hm Hd ltac:(lia)) as H1.
  pose proof (days_from_civil_year_lt y m d 10000 1 1 Hm Hd ltac:(lia)
                ltac:(vm_compute; split; discriminate) ltac:(lia)) as H2.
  change (days_from_civil (-1) 12 31) with (-719529) in H1.
  change (days_from_civil 10000 1 1) with 2932897 in H2. lia.
Qed.

Lemma digit_value_digit (k : Z) :
  0 <= k < 10 -> digit_value 10 (ascii_of_nat (48 + Z.to_nat k)) = Some k.
Proof.
  intros Hk.
  assert (k = 0 \/ k = 1 \/ k = 2 \/ k = 3 \/ k = 4 \/ k = 5 \/ k = 6 \/ k = 7
          \/ k = 8 \/ k = 9) as Hcases by lia.
  repeat destruct Hcases as [->|Hcases]; try subst k; reflexivity.
Qed.

Lemma digits_value_zero_pad_2 (z : Z) :
  0 <= z < 100 -> digits_value (zero_pad 2 z) = Some z.
Proof.
  intros Hz. unfold digits_value.
  cbv beta iota fix delta [zero_pad String.append]. cbn [span_digits].
  rewrite !digit_value_digit by (Z.div_mod_to_equations; lia).
  f_equal. Z.div_mod_to_equations. lia.
Qed.

Lemma digits_value_zero_pad_4 (z : Z) :
  0 <= z < 10000 -> digits_value (zero_pad 4 z) = Some z.
Proof.
  intros Hz. unfold digits_value.
  cbv beta iota fix delta [zero_pad String.append]. cbn [span_digits].
  rewrite !digit_value_digit by (Z.div_mod_to_equations; lia).
  f_equal. Z.div_mod_to_equations. lia.
Qed.

(** The ISO date of the midnight of a day parses back to that midnight. *)
Lemma Date_parse_iso_date (d : Z) :
  -719528 <= d <= 2932896 -> Date_parse (iso_date (d * msPerDay)) = Some (d * msPerDay).
Proof.
  intros Hd. unfold iso_date, iso_string.
  rewrite Z.div_mul, Z.mod_mul by (unfold msPerDay; lia).
  pose proof (civil_from_days_year d Hd) as Hy.
  pose proof (days_from_civil_from_days d) as Hv.
  destruct (civil_from_days d) as [[y m] dd]. destruct Hv as (Hm & Hdd & Heq).
  assert (dd <= 31) as Hdd'
    by (unfold days_in_month in Hdd;
        repeat match type of Hdd with context [if ?b then _ else _] => destruct b end; lia).
  unfold iso_year.
  destruct (Z.leb_spec 0 y); [|lia]. destruct (Z.leb_spec y 9999); [|lia].
  cbn [andb].
  pose proof (digits_value_zero_pad_4 y ltac:(lia)) as Hpy.
  pose proof (digits_value_zero_pad_2 m ltac:(lia)) as Hpm.
  pose proof (digits_value_zero_pad_2 dd ltac:(lia)) as Hpd.
  cbv beta iota fix delta [zero_pad String.append] in Hpy, Hpm, Hpd |- *.
  unfold Date_parse.
  cbn [substring String.length Nat.eqb negb String.get].
  rewrite Hpy, Hpm, Hpd.
  replace ((1 <=? m) && (m <=? 12) && (1 <=? dd) && (dd <=? days_in_month y m)) with true
    by (symmetry; rewrite !andb_true_iff, !Z.leb_le; lia).
  rewrite Heq. reflexivity.
Qed.

(** The ISO date of a time is that of the midnight of its day. *)
Lemma iso_date_midnight (t : Z) :
  -719528 <= t / msPerDay <= 2932896 -> iso_date t = iso_date (t / msPerDay * msPerDay).
Proof.
  intros Hd. unfold iso_date, iso_string.
  rewrite Z.div_mul, Z.mod_mul by (unfold msPerDay; lia).
  pose proof (civil_from_days_year _ Hd) as Hy.
  destruct (civil_from_days (t / msPerDay)) as [[y m] d].
  unfold iso_year.
  destruct (Z.leb_spec 0 y); [|lia]. destruct (Z.leb_spec y 9999); [|lia].
  cbn [andb]. cbv beta iota fix delta [zero_pad String.append]. reflexivity.
Qed.

End IsoDates.

(** ** Sorted anchors *)

Section SortedAnchors.
Import Gold.

Lemma valid_date_parse (a : GoldAnchor) :
  valid_date a -> Date_parse (anchor_date a) = Some (day_of a * DAY_MS).
Proof.
  intros [t Ht]. unfold day_of. rewrite Ht. simpl.
  apply Date_parse_day in Ht as (d & -> & _).
  unfold msPerDay, DAY_MS. rewrite Z.div_mul by lia. reflexivity.
Qed.

Lemma day_of_bounds (a : GoldAnchor) :
  valid_date a -> -720000 <= day_of a <= 2940000.
Proof.
  intros [t Ht]. unfold day_of. rewrite Ht. simpl.
  apply Date_parse_day in Ht as (d & -> & Hd).
  unfold msPerDay. rewrite Z.div_mul by lia. exact Hd.
Qed.

Lemma day_of_range (a : GoldAnchor) :
  valid_date a -> -719528 <= day_of a <= 2932896.
Proof.
  intros [t Ht]. unfold day_of. rewrite Ht. simpl.
  apply Date_parse_range in Ht as (d & -> & Hd).
  unfold msPerDay. rewrite Z.div_mul by lia. exact Hd.
Qed.

(** Anchors with the same day have the same date. *)
Lemma day_of_inj (a b : GoldAnchor) :
  valid_date a -> valid_date b -> day_of a = day_of b -> anchor_date a = anchor_date b.
Proof.
  intros Ha Hb Heq.
  apply (Date_parse_inj _ _ (day_of a * DAY_MS)); [apply valid_date_parse, Ha|].
  rewrite Heq. apply valid_date_parse, Hb.
Qed.

(** Anchors with pairwise distinct dates have pairwise distinct days. *)
Lemma distinct_dates_days (l : list GoldAnchor) :
  Forall valid_date l -> NoDup (anchor_date <$> l) -> NoDup (day_of <$> l).
Proof.
  induction l as [|a l IH]; intros Hv Hnd; [constructor|].
  apply Forall_cons in Hv as [Ha Hl]. rewrite !fmap_cons.
  apply NoDup_cons in Hnd as [Hnotin Hnd]. apply NoDup_cons. split; [|apply IH; assumption].
  intros Hin. apply list_elem_of_fmap in Hin as (b & Heq & Hb). apply Hnotin.
  rewrite Forall_forall in Hl.
  rewrite (day_of_inj a b Ha (Hl b Hb) Heq). apply list_elem_of_fmap_2. exact Hb.
Qed.

Lemma date_after_spec (a b : GoldAnchor) :
  valid_date a -> valid_date b -> date_after a b = (day_of b <? day_of a).
Proof.
  intros Ha Hb. unfold date_after.
  rewrite (valid_date_parse a Ha), (valid_date_parse b Hb). simpl.
  unfold DAY_MS. destruct (Z.ltb_spec (day_of b) (day_of a)), (Z.ltb_spec 0
    (day_of a * (24 * 60 * 60 * 1000) - day_of b * (24 * 60 * 60 * 1000))); lia.
Qed.

Lemma sort_insert_perm {A} (after : A -> A -> bool) (a : A) (l : list A) :
  sort_insert after a l ≡ₚ a :: l.
Proof.
  induction l as [|b l IH]; simpl; [reflexivity|].
  destruct (after a b); [|reflexivity].
  rewrite IH. apply Permutation_swap.
Qed.

Lemma sort_perm {A} (after : A -> A -> bool) (l : list A) : sort after l ≡ₚ l.
Proof.
  induction l as [|a l IH]; simpl; [reflexivity|].
  rewrite sort_insert_perm, IH. reflexivity.
Qed.

Lemma sort_insert_ascending (a : GoldAnchor) (l : list GoldAnchor) :
  valid_date a -> Forall valid_date l -> ascending l ->
  (forall b, b ∈ l -> day_of b <> day_of a) ->
  ascending (sort_insert date_after a l).
Proof.
  intros Ha Hl Hs Hne. induction Hs as [|b l Hs IH Hb]; simpl.
  - repeat constructor.
  - apply Forall_cons in Hl as [Hvb Hl].
    rewrite (date_after_spec a b Ha Hvb).
    assert (day_of b <> day_of a) by (apply Hne; apply elem_of_cons; left; reflexivity).
    destruct (Z.ltb_spec (day_of b) (day_of a)).
    + constructor.
      * apply IH; [exact Hl|]. intros c Hc. apply Hne. apply elem_of_cons. right. exact Hc.
      * rewrite sort_insert_perm. constructor; assumption.
    + constructor; [constructor; assumption|].
      constructor; [lia|].
      eapply Forall_impl; [exact Hb|]. simpl. intros c Hc. lia.
Qed.

(** With calendar days as dates, no day twice, the sort of
    [buildSeriesFromAnchors] puts the anchors in ascending order. *)
Lemma sort_ascending (l : list GoldAnchor) :
  Forall valid_date l -> NoDup (day_of <$> l) -> ascending (sort date_after l).
Proof.
  induction l as [|a l IH]; intros Hv Hnd; simpl.
  - constructor.
  - apply Forall_cons in Hv as [Ha Hl]. rewrite fmap_cons in Hnd.
    apply NoDup_cons in Hnd as [Hnotin Hnd].
    apply sort_insert_ascending; [exact Ha| |apply IH; assumption|].
    + rewrite sort_perm. exact Hl.
    + intros b Hb Heq. rewrite sort_perm in Hb. apply Hnotin.
      rewrite <- Heq. apply list_elem_of_fmap_2. exact Hb.
Qed.

(** Sorting anchors that are in ascending order changes nothing. *)
Lemma sort_of_ascending (l : list GoldAnchor) :
  Forall valid_date l -> ascending l -> sort date_after l = l.
Proof.
  intros Hv Hs. induction Hs as [|a l Hs IH Ha]; simpl; [reflexivity|].
  apply Forall_cons in Hv as [Hva Hl]. rewrite (IH Hl).
  destruct l as [|b l]; simpl; [reflexivity|].
  apply Forall_cons in Ha as [Hab _]. apply Forall_cons in Hl as [Hvb _].
  rewrite (date_after_spec a b Hva Hvb).
  destruct (Z.ltb_spec (day_of b) (day_of a)); [lia|reflexivity].
Qed.

Lemma ascending_lookup (l : list GoldAnchor) (i j : nat) (a b : GoldAnchor) :
  ascending l -> l !! i = Some a -> l !! j = Some b -> (i < j)%nat -> day_of a < day_of b.
Proof.
  intros Hs. revert i j. induction Hs as [|c l Hs IH Hc]; intros i j Hi Hj Hij.
  - discriminate.
  - destruct j as [|j]; [lia|]. destruct i as [|i]; simpl in Hi, Hj.
    + inversion Hi; subst c. rewrite Forall_forall in Hc. apply Hc.
      apply list_elem_of_lookup. exists j. exact Hj.
    + apply (IH i j); [assumption|assumption|lia].
Qed.

End SortedAnchors.

(** ** The segments of ascending anchors *)

Section Segments.
Import Gold.

Lemma filter_all {A} (f : A -> bool) (l : list A) :
  (forall x, x ∈ l -> f x = true) -> List.filter f l = l.
Proof.
  induction l as [|x l IH]; intros H; simpl; [reflexivity|].
  rewrite (H x) by (apply elem_of_cons; left; reflexivity).
  f_equal. apply IH. intros y Hy. apply H. apply elem_of_cons. right. exact Hy.
Qed.

Lemma emitted_days_first (daySpan : Z) : emitted_days 0 daySpan = seqZ 0 (daySpan + 1).
Proof. unfold emitted_days. apply filter_all. reflexivity. Qed.

Lemma emitted_days_next (i : nat) (daySpan : Z) :
  0 <= daySpan -> emitted_days (S i) daySpan = seqZ 1 daySpan.
Proof.
  intros Hn. unfold emitted_days. rewrite seqZ_cons by lia.
  cbn [List.filter]. change ((0 <? S i)%nat && (0 =? 0)) with true. cbn [negb].
  replace (Z.pred (daySpan + 1)) with daySpan by lia.
  apply filter_all. intros d Hd. apply elem_of_seqZ in Hd.
  destruct (Z.eqb_spec d 0); [lia|]. rewrite andb_false_r. reflexivity.
Qed.

Lemma segment_ascending (index : nat) (a b : GoldAnchor) :
  valid_date a -> valid_date b -> day_of a < day_of b ->
  segment index a b
  = map (interpolated a b (day_of a * DAY_MS) (day_of b - day_of a))
        (emitted_days index (day_of b - day_of a)).
Proof.
  intros Ha Hb Hlt. unfold segment.
  rewrite (valid_date_parse a Ha), (valid_date_parse b Hb).
  replace (day_of b * DAY_MS - day_of a * DAY_MS) with ((day_of b - day_of a) * DAY_MS) by lia.
  rewrite round_div_exact by (unfold DAY_MS; lia).
  rewrite Z.max_r by lia. reflexivity.
Qed.

Lemma segment_times (index : nat) (a b : GoldAnchor) :
  valid_date a -> valid_date b -> day_of a < day_of b ->
  time <$> segment index a b
  = (fun d => Some (d * DAY_MS))
      <$> match index with
          | O => seqZ (day_of a) (day_of b - day_of a + 1)
          | S _ => seqZ (day_of a + 1) (day_of b - day_of a)
          end.
Proof.
  intros Ha Hb Hlt. rewrite (segment_ascending index a b Ha Hb Hlt).
  change (map ?f ?l) with (f <$> l). rewrite <- list_fmap_compose.
  destruct index as [|i].
  - rewrite emitted_days_first.
    replace (seqZ (day_of a) (day_of b - day_of a + 1))
      with (Z.add (day_of a) <$> seqZ 0 (day_of b - day_of a + 1))
      by (rewrite fmap_add_seqZ; f_equal; lia).
    rewrite <- list_fmap_compose.
    apply list_fmap_ext. intros _ d _. simpl. f_equal. lia.
  - rewrite emitted_days_next by lia.
    rewrite <- fmap_add_seqZ, <- list_fmap_compose.
    apply list_fmap_ext. intros _ d _. simpl. f_equal. lia.
Qed.

Lemma ascending_tail (a : GoldAnchor) (l : list GoldAnchor) :
  ascending (a :: l) -> ascending l.
Proof. intros H. apply StronglySorted_inv in H as [H _]. exact H. Qed.

Lemma ascending_head (a b : GoldAnchor) (l : list GoldAnchor) :
  ascending (a :: b :: l) -> day_of a < day_of b.
Proof.
  intros H. apply StronglySorted_inv in H as [_ H].
  apply Forall_cons in H as [H _]. exact H.
Qed.

Lemma ascending_last (b z : GoldAnchor) (rest : list GoldAnchor) :
  ascending (b :: rest) -> last (b :: rest) = Some z -> day_of b <= day_of z.
Proof.
  intros Hs Hz. destruct rest as [|c rest].
  - inversion Hz; subst. lia.
  - rewrite last_cons_cons in Hz. apply last_Some_elem_of in Hz.
    apply StronglySorted_inv in Hs as [_ Hs]. rewrite Forall_forall in Hs.
    specialize (Hs z Hz). lia.
Qed.

Lemma seqZ_join (m n1 m' n2 : Z) :
  0 <= n1 -> 0 <= n2 -> m' = m + n1 -> seqZ m n1 ++ seqZ m' n2 = seqZ m (n1 + n2).
Proof. intros H1 H2 ->. rewrite seqZ_app by assumption. reflexivity. Qed.

(** The times of the points pushed after the first pair: one for every day
    after the first anchor, up to the last anchor. *)
Lemma segments_times_next (rest : list GoldAnchor) :
  forall (i : nat) (a z : GoldAnchor),
  Forall valid_date (a :: rest) -> ascending (a :: rest) -> last (a :: rest) = Some z ->
  time <$> segments (S i) (a :: rest)
  = (fun d => Some (d * DAY_MS)) <$> seqZ (day_of a + 1) (day_of z - day_of a).
Proof.
  induction rest as [|b rest IH]; intros i a z Hv Hs Hz.
  - simpl in Hz. inversion Hz; subst z. rewrite Z.sub_diag. reflexivity.
  - rewrite segments_cons, fmap_app.
    apply Forall_cons in Hv as [Ha Hv]. pose proof Hv as Hv'.
    apply Forall_cons in Hv' as [Hb _].
    pose proof (ascending_head _ _ _ Hs) as Hab.
    rewrite (segment_times (S i) a b Ha Hb Hab).
    rewrite last_cons_cons in Hz.
    rewrite (IH (S i) b z Hv (ascending_tail _ _ Hs) Hz).
    pose proof (ascending_last _ _ _ (ascending_tail _ _ Hs) Hz) as Hbz.
    rewrite <- fmap_app. f_equal.
    rewrite seqZ_join by lia. f_equal. lia.
Qed.

Lemma segments_times_first (a b z : GoldAnchor) (rest : list GoldAnchor) :
  Forall valid_date (a :: b :: rest) -> ascending (a :: b :: rest) ->
  last (a :: b :: rest) = Some z ->
  time <$> segments 0 (a :: b :: rest)
  = (fun d => Some (d * DAY_MS)) <$> seqZ (day_of a) (day_of z - day_of a + 1).
Proof.
  intros Hv Hs Hz. rewrite segments_cons, fmap_app.
  apply Forall_cons in Hv as [Ha Hv]. pose proof Hv as Hv'.
  apply Forall_cons in Hv' as [Hb _].
  pose proof (ascending_head _ _ _ Hs) as Hab.
  rewrite (segment_times 0 a b Ha Hb Hab).
  rewrite last_cons_cons in Hz.
  rewrite (segments_times_next rest 0 b z Hv (ascending_tail _ _ Hs) Hz).
  pose proof (ascending_last _ _ _ (ascending_tail _ _ Hs) Hz) as Hbz.
  rewrite <- fmap_app. f_equal.
  rewrite seqZ_join by lia. f_equal. lia.
Qed.

(** Every pushed point carries the ISO date of its time. *)
Lemma segments_dates (sorted : list GoldAnchor) :
  forall index p, p ∈ segments index sorted ->
  exists t, time p = Some t /\ date p = iso_date t.
Proof.
  induction sorted as [|a rest IH]; intros index p Hp.
  - apply elem_of_nil in Hp. contradiction.
  - destruct rest as [|b rest]; [apply elem_of_nil in Hp; contradiction|].
    rewrite segments_cons in Hp. apply elem_of_app in Hp as [Hp|Hp].
    + unfold segment in Hp.
      destruct (Date_parse (anchor_date a)); [|apply elem_of_nil in Hp; contradiction].
      destruct (Date_parse (anchor_date b)); [|apply elem_of_nil in Hp; contradiction].
      apply list_elem_of_fmap in Hp as (d & -> & _). eexists. split; reflexivity.
    + apply (IH (S index)). exact Hp.
Qed.

(** Where a pushed point comes from: a pair of consecutive anchors and a
    day of their span; day 0 only for the first pair. *)
Lemma segments_elem (sorted : list GoldAnchor) :
  forall index p,
  Forall valid_date sorted -> ascending sorted -> p ∈ segments index sorted ->
  exists j a b day,
    sorted !! j = Some a /\ sorted !! S j = Some b /\
    p = interpolated a b (day_of a * DAY_MS) (day_of b - day_of a) day /\
    (if (index + j)%nat is O then 0 <= day else 1 <= day) /\
    day <= day_of b - day_of a.
Proof.
  induction sorted as [|a rest IH]; intros index p Hv Hs Hp.
  - apply elem_of_nil in Hp. contradiction.
  - destruct rest as [|b rest]; [apply elem_of_nil in Hp; contradiction|].
    rewrite segments_cons in Hp.
    apply Forall_cons in Hv as [Ha Hv]. pose proof Hv as Hv'.
    apply Forall_cons in Hv' as [Hb _].
    pose proof (ascending_head _ _ _ Hs) as Hab.
    apply elem_of_app in Hp as [Hp|Hp].
    + rewrite (segment_ascending index a b Ha Hb Hab) in Hp.
      apply list_elem_of_fmap in Hp as (d & -> & Hd).
      exists 0%nat, a, b, d. repeat split; rewrite ?Nat.add_0_r.
      * destruct index as [|i].
        -- rewrite emitted_days_first in Hd. apply elem_of_seqZ in Hd. lia.
        -- rewrite emitted_days_next in Hd by lia. apply elem_of_seqZ in Hd. lia.
      * destruct index as [|i].
        -- rewrite emitted_days_first in Hd. apply elem_of_seqZ in Hd. lia.
        -- rewrite emitted_days_next in Hd by lia. apply elem_of_seqZ in Hd. lia.
    + destruct (IH (S index) p Hv (ascending_tail _ _ Hs) Hp)
        as (j & a' & b' & d & Hj & Hj' & -> & Hd & Hd').
      exists (S j), a', b', d. repeat split; try assumption.
      replace (index + S j)%nat with (S index + j)%nat by lia. exact Hd.
Qed.

(** Two anchors with calendar days as dates give at least one point. *)
Lemma segments_nonempty (a b : GoldAnchor) (rest : list GoldAnchor) :
  valid_date a -> valid_date b -> segments 0 (a :: b :: rest) <> [].
Proof.
  intros [ta Ha] [tb Hb]. rewrite segments_cons. unfold segment. rewrite Ha, Hb.
  rewrite emitted_days_first, seqZ_cons by lia. discriminate.
Qed.

(** The date of a pushed point is the calendar day of its time. *)
Lemma segments_parse (sorted : list GoldAnchor) (p : GoldPoint) :
  Forall valid_date sorted -> ascending sorted -> p ∈ segments 0 sorted ->
  Date_parse (date p) = time p.
Proof.
  intros Hv Hs Hp.
  destruct (segments_elem _ 0 p Hv Hs Hp)
    as (j & a & b & day & Hj & Hj' & -> & Hday & Hday').
  assert (valid_date a /\ valid_date b) as [Hva Hvb].
  { rewrite Forall_forall in Hv. split; apply Hv; apply list_elem_of_lookup; eauto. }
  pose proof (day_of_range a Hva) as Hba. pose proof (day_of_range b Hvb) as Hbb.
  assert (0 <= day) as Hday0 by (simpl in Hday; destruct j; lia).
  unfold interpolated. cbn [date time].
  replace (day_of a * DAY_MS + day * DAY_MS) with ((day_of a + day) * msPerDay)
    by (unfold DAY_MS, msPerDay; lia).
  apply Date_parse_iso_date. lia.
Qed.

End Segments.

(** ** The densifier on calendar-day anchors *)

Section DensifierTheorems.
Import Gold.

Lemma ascending_le_last (l : list GoldAnchor) (x z : GoldAnchor) :
  ascending l -> last l = Some z -> x ∈ l -> day_of x <= day_of z.
Proof.
  intros Hs Hz Hx. apply last_Some in Hz as [l' ->].
  apply elem_of_app in Hx as [Hx|Hx].
  - apply StronglySorted_app_1_elem_of with (x1 := x) (x2 := z) in Hs;
      [lia|exact Hx|apply list_elem_of_singleton; reflexivity].
  - apply list_elem_of_singleton in Hx. subst. lia.
Qed.

Lemma ascending_ge_head (a x : GoldAnchor) (l : list GoldAnchor) :
  ascending (a :: l) -> x ∈ a :: l -> day_of a <= day_of x.
Proof.
  intros Hs Hx. apply StronglySorted_inv in Hs as [_ Hs].
  apply elem_of_cons in Hx as [->|Hx]; [lia|].
  rewrite Forall_forall in Hs. specialize (Hs x Hx). lia.
Qed.

(** C2. For a non-empty list of anchors whose dates are calendar days, no
    date twice, [buildSeriesFromAnchors] returns (it does not throw) a list
    with exactly one point for every day from the earliest to the latest
    anchor day, in order: the times are UTC midnight of those days, so two
    consecutive times differ by exactly 86,400,000, and the date of every
    point is the calendar day of its time. For a single anchor the result is
    the one point with the anchor's own date and value, at the time of its
    date. *)
Theorem densifier_one_point_per_day (anchors_ : list GoldAnchor) :
  anchors_ <> [] -> Forall valid_date anchors_ -> NoDup (anchor_date <$> anchors_) ->
  exists points first last_,
    buildSeriesFromAnchors anchors_ = Ok points /\
    first ∈ anchors_ /\ last_ ∈ anchors_ /\
    (forall a, a ∈ anchors_ -> day_of first <= day_of a <= day_of last_) /\
    time <$> points
      = (fun d => Some (d * 86400000))
          <$> seqZ (day_of first) (day_of last_ - day_of first + 1) /\
    (forall i p q, points !! i = Some p -> points !! S i = Some q ->
       exists t, time p = Some t /\ time q = Some (t + 86400000)) /\
    (forall p, p ∈ points -> is_Some (time p) /\ Date_parse (date p) = time p) /\
    (anchors_ = [first] ->
     points = [{| date := anchor_date first; value := anchor_value first;
                  time := Date_parse (anchor_date first) |}]).
Proof.
  intros Hne Hv Hnd.
  pose proof (sort_ascending anchors_ Hv (distinct_dates_days anchors_ Hv Hnd)) as Hs.
  pose proof (sort_perm date_after anchors_) as Hperm.
  assert (Forall valid_date (sort date_after anchors_)) as Hvs by (rewrite Hperm; exact Hv).
  rewrite buildSeriesFromAnchors_ok.
  assert (forall points first last_,
            first ∈ anchors_ ->
            time <$> points
              = (fun d => Some (d * 86400000))
                  <$> seqZ (day_of first) (day_of last_ - day_of first + 1) ->
            forall i p q, points !! i = Some p -> points !! S i = Some q ->
              exists t, time p = Some t /\ time q = Some (t + 86400000)) as Hconsec.
  { intros points first last_ _ Ht i p q Hp Hq.
    assert ((time <$> points) !! i = Some (time p)) as Hp'
      by (rewrite list_lookup_fmap, Hp; reflexivity).
    assert ((time <$> points) !! S i = Some (time q)) as Hq'
      by (rewrite list_lookup_fmap, Hq; reflexivity).
    rewrite Ht, list_lookup_fmap in Hp', Hq'.
    destruct (seqZ _ _ !! i) as [d|] eqn:Hd; [|discriminate].
    destruct (seqZ _ _ !! S i) as [d'|] eqn:Hd'; [|discriminate].
    apply lookup_seqZ in Hd as [-> _]. apply lookup_seqZ in Hd' as [-> _].
    simpl in Hp', Hq'. inversion Hp'. inversion Hq'.
    eexists. split; [reflexivity|]. f_equal. lia. }
  destruct (sort date_after anchors_) as [|a [|b rest]] eqn:Hsorted.
  - apply Permutation_nil_l in Hperm. congruence.
  - apply Permutation_singleton_l in Hperm. subst anchors_.
    apply Forall_cons_1 in Hv as [Hv _].
    assert (time <$> [{| date := anchor_date a; value := anchor_value a;
                         time := Date_parse (anchor_date a) |}]
            = (fun d => Some (d * 86400000)) <$> seqZ (day_of a) (day_of a - day_of a + 1)) as Ht.
    { rewrite Z.sub_diag. simpl. rewrite (valid_date_parse a Hv). reflexivity. }
    eexists _, a, a. split; [reflexivity|].
    assert (a ∈ [a]) as Hin by (apply list_elem_of_singleton; reflexivity).
    split; [exact Hin|]. split; [exact Hin|].
    split; [intros x Hx; apply list_elem_of_singleton in Hx; subst; lia|].
    split; [exact Ht|].
    split; [apply (Hconsec _ a a Hin Ht)|].
    split; [|reflexivity].
    intros p Hp. apply list_elem_of_singleton in Hp. subst p. split; [exact Hv|reflexivity].
  - destruct (last (a :: b :: rest)) as [z|] eqn:Hz;
      [|apply last_None in Hz; discriminate].
    assert (a ∈ anchors_) as Ha by (rewrite <- Hperm; apply elem_of_cons; left; reflexivity).
    assert (z ∈ anchors_) as Hzin by (rewrite <- Hperm; apply last_Some_elem_of, Hz).
    pose proof (segments_times_first a b z rest Hvs Hs Hz) as Ht.
    eexists _, a, z. split; [reflexivity|].
    split; [exact Ha|]. split; [exact Hzin|].
    split.
    { intros x Hx. rewrite <- Hperm in Hx. split.
      - apply (ascending_ge_head a x _ Hs Hx).
      - apply (ascending_le_last _ x z Hs Hz Hx). }
    split; [exact Ht|].
    split; [apply (Hconsec _ a z Ha Ht)|].
    split.
    { intros p Hp. split; [|apply (segments_parse _ p Hvs Hs Hp)].
      destruct (segments_dates _ _ _ Hp) as (t & -> & _). eexists. reflexivity. }
    intros Heq. rewrite Heq in Hperm. apply Permutation_singleton_r in Hperm. discriminate.
Qed.

Lemma densifier_one_point_per_day_witness :
  exists points,
    buildSeriesFromAnchors two_anchors = Ok points /\
    time <$> points = (fun d => Some (d * 86400000)) <$> seqZ 19723 11.
Proof.
  assert (two_anchors <> []) as Hne by discriminate.
  assert (Forall valid_date two_anchors) as Hv.
  { repeat constructor; eexists; vm_compute; reflexivity. }
  assert (NoDup (anchor_date <$> two_anchors)) as Hnd.
  { vm_compute. repeat constructor; intros H; repeat (apply elem_of_cons in H as [H|H]; [discriminate|]);
      apply elem_of_nil in H; exact H. }
  destruct (densifier_one_point_per_day two_anchors Hne Hv Hnd)
    as (points & first & last_ & Hb & _).
  exists points. split; [exact Hb|].
  vm_compute in Hb. inversion Hb. reflexivity.
Defined.

End DensifierTheorems.

(** ** Interpolation at the anchors *)

Section AnchorValues.
Import Gold.

Lemma number_of_Z_positive (n : Z) :
  1 <= n < 2 ^ 53 -> exists m e, Prim2SF (number_of_Z n) = S754_finite false m e.
Proof.
  intros Hn. unfold number_of_Z.
  destruct (Z.ltb_spec n 0) as [|_]; [lia|].
  rewrite of_uint63_spec, Uint63.of_Z_spec.
  rewrite Z.mod_small by (change Uint63.wB with (2 ^ 63); lia).
  destruct n as [|p|p]; try lia.
  apply binary_normalize_pos. lia.
Qed.

(** The ratio of the last day of a span is 1, that of day 0 is 0. *)
Lemma ratio_last (n : Z) :
  1 <= n < 2 ^ 53 -> (number_of_Z n / number_of_Z n)%float = 1%float.
Proof. intros Hn. apply div_same, number_of_Z_finite, Hn. Qed.

Lemma ratio_first (n : Z) :
  1 <= n < 2 ^ 53 -> (number_of_Z 0 / number_of_Z n)%float = 0%float.
Proof.
  intros Hn. apply Prim2SF_inj. rewrite div_spec.
  destruct (number_of_Z_positive n Hn) as (m & e & ->). reflexivity.
Qed.

(** [x + d * 0] is [x] when [x] is finite and not zero and [d] is finite. *)
Lemma add_mul_zero (x d : float) :
  finite_nonzero x = true -> isFinite d = true -> (x + d * 0)%float = x.
Proof.
  unfold finite_nonzero, isFinite. intros Hx Hd.
  apply Prim2SF_inj. rewrite add_spec, mul_spec.
  change (Prim2SF 0%float) with (S754_zero false).
  destruct (Prim2SF x) as [| | |sx mx ex]; try discriminate.
  destruct (Prim2SF d) as [sd| | |sd md ed]; try discriminate; reflexivity.
Qed.

(** C7, as the specification states it, fails: between an anchor of
    2650.7 and an anchor of 1000.1 one day later, the point for the second
    anchor's date has the value [2650.7 + (1000.1 - 2650.7) * 1], which is
    not the double 1000.1. *)
Lemma densifier_boundary_not_exact :
  exists points p,
    buildSeriesFromAnchors drop_anchors = Ok points /\
    p ∈ points /\ date p = "2024-01-02"%string /\
    value p <> 1000.1%float.
Proof.
  eexists _, {| date := "2024-01-02"; value := (2650.7 + (1000.1 - 2650.7) * 1)%float;
                time := Some 1704153600000 |}.
  split; [vm_compute; reflexivity|].
  split; [apply elem_of_cons; right; apply elem_of_cons; left; reflexivity|].
  split; [reflexivity|].
  simpl. intros H. apply (f_equal Prim2SF) in H. vm_compute in H. discriminate.
Qed.

(** C7, amended. For anchors in ascending order of their days (dates that
    are calendar days, no day twice) the densifier returns a list in which
    every anchor's date has a point, and the value of that point is: for the
    first anchor, the anchor's value when it is the only anchor, and else
    [first.value + (second.value - first.value) * 0], which is exactly
    [first.value] when it is finite and not zero and the difference is
    finite; for every later anchor,
    [previous.value + (anchor.value - previous.value)], the interpolation at
    ratio 1 in double arithmetic. *)
Theorem densifier_anchor_values (anchors_ : list GoldAnchor) :
  Forall valid_date anchors_ -> ascending anchors_ ->
  exists points,
    buildSeriesFromAnchors anchors_ = Ok points /\
    (forall a, a ∈ anchors_ -> exists p, p ∈ points /\ date p = anchor_date a) /\
    (forall k a p,
       anchors_ !! k = Some a -> p ∈ points -> date p = anchor_date a ->
       match k with
       | O =>
           match anchors_ !! 1%nat with
           | None => value p = anchor_value a
           | Some b =>
               value p = (anchor_value a + (anchor_value b - anchor_value a) * 0)%float /\
               (finite_nonzero (anchor_value a) = true ->
                isFinite (anchor_value b - anchor_value a) = true ->
                value p = anchor_value a)
           end
       | S j =>
           forall prev, anchors_ !! j = Some prev ->
             value p = (anchor_value prev + (anchor_value a - anchor_value prev))%float
       end).
Proof.
  intros Hv Hs. rewrite buildSeriesFromAnchors_ok, (sort_of_ascending _ Hv Hs).
  destruct anchors_ as [|a0 [|a1 rest]].
  - eexists. split; [reflexivity|]. split.
    + intros a Ha. apply elem_of_nil in Ha. contradiction.
    + intros k a p Hk. discriminate.
  - eexists. split; [reflexivity|]. split.
    + intros a Ha. apply list_elem_of_singleton in Ha. subst a.
      eexists. split; [apply list_elem_of_singleton; reflexivity|reflexivity].
    + intros k a p Hk Hp _. apply list_elem_of_singleton in Hp. subst p.
      destruct k as [|k]; simpl in Hk; [|discriminate].
      inversion Hk; subst a. reflexivity.
  - eexists. split; [reflexivity|].
    destruct (last (a0 :: a1 :: rest)) as [z|] eqn:Hz;
      [|apply last_None in Hz; discriminate].
    pose proof (segments_times_first a0 a1 z rest Hv Hs Hz) as Ht.
    split.
    + intros a Ha.
      pose proof (ascending_ge_head a0 a _ Hs Ha) as Hlo.
      pose proof (ascending_le_last _ a z Hs Hz Ha) as Hhi.
      assert (Some (day_of a * DAY_MS) ∈ time <$> segments 0 (a0 :: a1 :: rest)) as Hin.
      { rewrite Ht. apply list_elem_of_fmap. exists (day_of a). split; [reflexivity|].
        apply elem_of_seqZ. lia. }
      apply list_elem_of_fmap in Hin as (p & Hp & Hin). exists p. split; [exact Hin|].
      apply (Date_parse_inj _ _ (day_of a * DAY_MS)).
      * rewrite (segments_parse _ p Hv Hs Hin). auto.
      * rewrite Forall_forall in Hv. apply (valid_date_parse a (Hv a Ha)).
    + intros k a p Hk Hp Hdate.
      assert (valid_date a) as Hva.
      { rewrite Forall_forall in Hv. apply Hv. apply list_elem_of_lookup. eauto. }
      assert (time p = Date_parse (anchor_date a)) as Htime
        by (rewrite <- Hdate; symmetry; apply (segments_parse _ p Hv Hs Hp)).
      destruct (segments_elem _ 0 p Hv Hs Hp)
        as (j & a' & b' & day & Hj & Hj' & -> & Hday & Hday').
      rewrite (valid_date_parse a Hva) in Htime. simpl in Htime.
      assert (day_of a = day_of a' + day) as Hd by (inversion Htime; unfold DAY_MS in *; lia).
      assert (valid_date a' /\ valid_date b') as [Hva' Hvb'].
      { rewrite Forall_forall in Hv. split; apply Hv; apply list_elem_of_lookup; eauto. }
      pose proof (day_of_bounds a' Hva') as Hba. pose proof (day_of_bounds b' Hvb') as Hbb.
      pose proof (ascending_lookup _ j (S j) a' b' Hs Hj Hj' ltac:(lia)) as Hab.
      assert (k = j /\ day = 0 \/ k = S j /\ day = day_of b' - day_of a') as Hcase.
      { destruct (lt_eq_lt_dec k j) as [[Hlt|Heq]|Hgt].
        - pose proof (ascending_lookup _ k j a a' Hs Hk Hj Hlt). simpl in Hday.
          destruct j; lia.
        - subst k. rewrite Hk in Hj. inversion Hj; subst a'. left. split; [reflexivity|lia].
        - destruct (decide (k = S j)) as [->|Hne].
          + rewrite Hk in Hj'. inversion Hj'; subst b'. right. split; [reflexivity|lia].
          + pose proof (ascending_lookup _ (S j) k b' a Hs Hj' Hk ltac:(lia)). lia. }
      unfold interpolated. cbn [value].
      assert ((day_of b' - day_of a' =? 0) = false) as -> by (apply Z.eqb_neq; lia).
      destruct Hcase as [[-> ->]|[-> ->]].
      * rewrite Hk in Hj. inversion Hj; subst a'.
        simpl in Hday. destruct j as [|j]; [|lia].
        change ((a0 :: a1 :: rest) !! 1%nat) with (Some a1).
        simpl in Hj'. inversion Hj'; subst b'.
        rewrite ratio_first by lia.
        split; [reflexivity|]. intros Hfa Hfd. apply add_mul_zero; assumption.
      * intros prev Hprev. rewrite Hprev in Hj. inversion Hj; subst a'.
        rewrite Hk in Hj'. inversion Hj'; subst b'.
        rewrite ratio_last by lia. rewrite mul_one_r. reflexivity.
Qed.

Lemma densifier_anchor_values_witness :
  exists points p,
    buildSeriesFromAnchors drop_anchors = Ok points /\
    p ∈ points /\ date p = "2024-01-02"%string /\
    forall q, q ∈ points -> date q = "2024-01-02"%string ->
              value q = (2650.7 + (1000.1 - 2650.7))%float.
Proof.
  assert (Forall valid_date drop_anchors) as Hv.
  { repeat constructor; eexists; vm_compute; reflexivity. }
  assert (ascending drop_anchors) as Hs.
  { repeat constructor. }
  destruct (densifier_anchor_values drop_anchors Hv Hs) as (points & Hb & Hex & Hval).
  destruct (Hex {| anchor_date := "2024-01-02"; anchor_value := 1000.1%float |})
    as (p & Hp & Htp).
  { apply elem_of_cons. right. apply elem_of_cons. left. reflexivity. }
  exists points, p. split; [exact Hb|]. split; [exact Hp|]. split; [exact Htp|].
  intros q Hq Htq.
  apply (Hval 1%nat {| anchor_date := "2024-01-02"; anchor_value := 1000.1%float |} q
           eq_refl Hq Htq {| anchor_date := "2024-01-01"; anchor_value := 2650.7%float |} eq_refl).
Defined.

End AnchorValues.

(** ** [getGoldData] *)

Section Assembler.
Import Gold.

Lemma nonempty_or_elem {A} (f : A -> bool) (pts : list A) (x : A) :
  x ∈ nonempty_or (List.filter f pts) pts -> x ∈ pts.
Proof.
  rewrite nonempty_or_spec. case_bool_decide; [tauto|].
  intros Hx. apply list_elem_of_In, filter_In in Hx as [Hx _]. apply list_elem_of_In, Hx.
Qed.

(** A slice of a non-empty list is not empty and is made of its points. *)
Lemma sliceRange_of_points (points : list GoldPoint) (range_ : GoldRangeConfig)
    (latest_ : GoldPoint) :
  points <> [] ->
  sliceRange points range_ latest_ <> [] /\
  forall p, p ∈ sliceRange points range_ latest_ -> p ∈ points.
Proof.
  intros Hne. destruct points as [|p0 rest]; [congruence|].
  unfold sliceRange.
  destruct (kind range_), (truthy (year range_)), (truthy (month range_));
    split; try exact Hne; try (intros p Hp; exact Hp);
    try (apply nonempty_or_nonempty, Hne); apply nonempty_or_elem.
Qed.

(** The statistics of a slice of converted points: they exist, and each
    bound is the converted price of a point of the series. *)
Lemma stats_of_slice (unit_ : GoldUnit) (series : list GoldPoint)
    (range_ : GoldRangeConfig) (latest_ : GoldPoint) :
  series <> [] ->
  exists stats,
    computeHighLow (sliceRange (map (to_unit unit_) series) range_ latest_) = Some stats /\
    (exists q, q ∈ series /\ low stats = price_in unit_ (value q)) /\
    (exists q, q ∈ series /\ high stats = price_in unit_ (value q)).
Proof.
  intros Hne.
  assert (map (to_unit unit_) series <> []) as Hpts.
  { intros H. apply map_eq_nil in H. contradiction. }
  destruct (sliceRange_of_points _ range_ latest_ Hpts) as [Hslice Hin].
  destruct (computeHighLow_bounds _ Hslice) as (stats & Hs & (pl & Hpl & Hl) & (ph & Hph & Hh) & _).
  assert (forall p, p ∈ sliceRange (map (to_unit unit_) series) range_ latest_ ->
            exists q, q ∈ series /\ value p = price_in unit_ (value q)) as Hconv.
  { intros p Hp. apply Hin, list_elem_of_In, in_map_iff in Hp as (q & <- & Hq).
    exists q. split; [apply list_elem_of_In, Hq|].
    destruct unit_; cbn [to_unit value unitMultiplier price_in].
    - apply mul_one_r.
    - reflexivity. }
  exists stats. split; [exact Hs|]. rewrite Hl, Hh. split; apply Hconv; assumption.
Qed.

(** C5. [getGoldData] returns on every snapshot with at least one anchor
    whose anchors' dates are calendar days. Whenever it returns, the
    densified series converted to the requested unit, [points], is what
    everything else is computed from. Every point of [points] is the point
    of the series of the same date and time with its price in the unit:
    unchanged for ounces, multiplied by the double nearest to
    1 / 31.1034768 for grams. The three changes are [computeChange] over
    all of [points], not over the slice of the range. The range and year
    statistics are [computeHighLow] of the range slice and of the
    trailing-year slice of [points] (the fallbacks of the code are never
    taken), so each low and each high is the price in the unit of a point
    of the series. *)
Theorem getGoldData_full_series (goldSeries : GoldSeriesFile) (range_ : GoldRangeConfig)
    (unit_ : GoldUnit) :
  (anchors goldSeries <> [] -> Forall valid_date (anchors goldSeries) ->
   exists data, getGoldData goldSeries range_ unit_ = Ok data) /\
  forall data, getGoldData goldSeries range_ unit_ = Ok data ->
  exists series latest_,
    buildSeriesFromAnchors (anchors goldSeries) = Ok series /\
    let points := map (to_unit unit_) series in
    Forall2 (fun p q => date p = date q /\ time p = time q /\
                        value p = price_in unit_ (value q)) points series /\
    last points = Some latest_ /\
    latest data = latest_ /\
    changes data = {| day1 := computeChange points 1;
                      day7 := computeChange points 7;
                      day30 := computeChange points 30 |} /\
    rangePoints data = sliceRange points range_ latest_ /\
    computeHighLow (rangePoints data) = Some (rangeStats data) /\
    computeHighLow (sliceRange points year_range latest_) = Some (yearStats data) /\
    forall stats, stats = rangeStats data \/ stats = yearStats data ->
      (exists q, q ∈ series /\ low stats = price_in unit_ (value q)) /\
      (exists q, q ∈ series /\ high stats = price_in unit_ (value q)).
Proof.
  split.
  { intros Hne Hv. unfold getGoldData, loadSeriesFile.
    destruct (anchors goldSeries) as [|a0 rest] eqn:Ha; [contradiction|].
    cbn [bind anchors]. rewrite buildSeriesFromAnchors_ok. cbn [bind].
    pose proof (sort_perm date_after (a0 :: rest)) as Hperm.
    assert (Forall valid_date (sort date_after (a0 :: rest))) as Hvs
      by (rewrite Hperm; exact Hv).
    set (series := match sort date_after (a0 :: rest) with
                   | [a] => _
                   | _ => _
                   end).
    assert (series <> []) as Hseries.
    { subst series. destruct (sort date_after (a0 :: rest)) as [|a [|b l]].
      - apply Permutation_nil_l in Hperm. discriminate.
      - discriminate.
      - apply Forall_cons in Hvs as [Hva Hvs]. apply Forall_cons in Hvs as [Hvb _].
        apply segments_nonempty; assumption. }
    destruct (last (map (to_unit unit_) series)) as [latest_|] eqn:Hl;
      [eexists; reflexivity|].
    apply last_None in Hl. apply map_eq_nil in Hl. contradiction. }
  unfold getGoldData, loadSeriesFile. intros data H.
  destruct (anchors goldSeries) as [|a0 rest] eqn:Ha; [discriminate|].
  cbn [bind anchors] in H.
  destruct (buildSeriesFromAnchors (a0 :: rest)) as [series|e] eqn:Hb; [|discriminate].
  cbn [bind] in H.
  destruct (last (map (to_unit unit_) series)) as [latest_|] eqn:Hl; [|discriminate].
  assert (series <> []) as Hne by (intros ->; discriminate Hl).
  destruct (stats_of_slice unit_ series range_ latest_ Hne) as (rs & Hrs & Hrl & Hrh).
  destruct (stats_of_slice unit_ series year_range latest_ Hne) as (ys & Hys & Hyl & Hyh).
  fold year_range in H. rewrite Hrs in H.
  change (sliceRange (map (to_unit unit_) series)
            {| key := key recentRange; label := label recentRange; kind := kind recentRange;
               days := Some 365; year := year recentRange; month := month recentRange |}
            latest_)
    with (sliceRange (map (to_unit unit_) series) year_range latest_) in H.
  rewrite Hys in H.
  inversion H; subst data; clear H. cbn.
  exists series, latest_. split; [reflexivity|].
  split.
  { clear. induction series as [|q series IH]; cbn [map]; constructor; [|exact IH].
    split; [reflexivity|]. split; [reflexivity|].
    destruct unit_; cbn [to_unit value unitMultiplier price_in];
      [apply mul_one_r|reflexivity]. }
  split; [exact Hl|]. split; [reflexivity|]. split; [reflexivity|].
  split; [reflexivity|]. split; [exact Hrs|]. split; [exact Hys|].
  intros stats [->| ->]; split; assumption.
Qed.

(** A one-month range in grams still reports a 30-day change: the slice of
    February has 29 points, too few for a 30-day change of its own. The
    change and both statistics are made of prices per gram. *)
Lemma getGoldData_full_series_witness :
  exists data,
    getGoldData winter february g = Ok data /\
    length (rangePoints data) = 29%nat /\
    computeChange (rangePoints data) 30 = None /\
    day30 (changes data)
      = Some ((2120 * (1 / 31.1034768) - 2060 * (1 / 31.1034768))
              / (2060 * (1 / 31.1034768)))%float /\
    rangeStats data
      = {| low := ((2000 + (2120 - 2000) * (31 / 60)) * (1 / 31.1034768))%float;
           high := ((2000 + (2120 - 2000) * (59 / 60)) * (1 / 31.1034768))%float |} /\
    yearStats data
      = {| low := (2000 * (1 / 31.1034768))%float;
           high := (2120 * (1 / 31.1034768))%float |}.
Proof.
  destruct (getGoldData_full_series winter february g) as [Hreturns Hdata].
  destruct Hreturns as [data Hg]; [discriminate| |].
  { repeat constructor; eexists; vm_compute; reflexivity. }
  exists data. split; [exact Hg|].
  destruct (Hdata data Hg) as (series & latest_ & Hb & _ & Hl & _ & Hc & Hr & Hrs & Hys & _).
  vm_compute in Hb. inversion Hb; subst series; clear Hb.
  vm_compute in Hl. inversion Hl; subst latest_; clear Hl.
  rewrite Hr in Hrs. rewrite Hc, Hr.
  split; [vm_compute; reflexivity|]. split; [vm_compute; reflexivity|].
  split; [vm_compute; reflexivity|].
  split.
  - set (stats := rangeStats data) in *. clearbody stats.
    vm_compute in Hrs. inversion Hrs. vm_compute. reflexivity.
  - set (stats := yearStats data) in *. clearbody stats.
    vm_compute in Hys. inversion Hys. vm_compute. reflexivity.
Defined.

End Assembler.

(** ** The forward fill of [fetchGoldSeries] *)

Section ForwardFill.
Import Gold Live.

Lemma fill_loop_app (rawValues : list (option float)) :
  forall lastKnown filled,
  fill_loop rawValues lastKnown filled = filled ++ fill_loop rawValues lastKnown [].
Proof.
  induction rawValues as [|[v|] rest IH]; intros lastKnown filled; simpl.
  - rewrite app_nil_r. reflexivity.
  - rewrite IH, (IH v [v]), <- app_assoc. reflexivity.
  - rewrite IH, (IH lastKnown [lastKnown]), <- app_assoc. reflexivity.
Qed.

Lemma fill_loop_length (rawValues : list (option float)) :
  forall lastKnown, length (fill_loop rawValues lastKnown []) = length rawValues.
Proof.
  induction rawValues as [|[v|] rest IH]; intros lastKnown; simpl; [reflexivity| |];
    rewrite fill_loop_app, length_app, IH; reflexivity.
Qed.

(** Before any observed value the fill carries [lastKnown]. *)
Lemma fill_loop_leading (rawValues : list (option float)) :
  forall lastKnown i,
  (i < length rawValues)%nat ->
  (forall k, (k <= i)%nat -> rawValues !! k = Some None) ->
  fill_loop rawValues lastKnown [] !! i = Some lastKnown.
Proof.
  induction rawValues as [|x rest IH]; intros lastKnown i Hi Hnone; simpl in Hi; [lia|].
  pose proof (Hnone 0%nat ltac:(lia)) as H0. simpl in H0. inversion H0; subst x.
  simpl. rewrite fill_loop_app. destruct i as [|i]; [reflexivity|]. simpl.
  apply IH; [lia|]. intros k Hk. apply (Hnone (S k)). lia.
Qed.

(** At and after an observed value, up to the next one, the fill carries
    that value. *)
Lemma fill_loop_observed (rawValues : list (option float)) :
  forall lastKnown j i v,
  (i < length rawValues)%nat -> (j <= i)%nat ->
  rawValues !! j = Some (Some v) ->
  (forall k, (j < k <= i)%nat -> rawValues !! k = Some None) ->
  fill_loop rawValues lastKnown [] !! i = Some v.
Proof.
  induction rawValues as [|x rest IH]; intros lastKnown j i v Hi Hji Hj Hnone;
    simpl in Hi; [lia|].
  destruct j as [|j].
  - simpl in Hj. inversion Hj; subst x. simpl. rewrite fill_loop_app.
    destruct i as [|i]; [reflexivity|]. simpl.
    apply fill_loop_leading; [lia|]. intros k Hk. apply (Hnone (S k)). lia.
  - destruct i as [|i]; [lia|]. simpl in Hj.
    assert (fill_loop (x :: rest) lastKnown [] !! S i
            = fill_loop rest (default lastKnown x) [] !! i) as ->.
    { destruct x; simpl; rewrite fill_loop_app; reflexivity. }
    apply (IH _ j i v); [lia|lia|exact Hj|].
    intros k Hk. apply (Hnone (S k)). lia.
Qed.

Lemma find_first {A} (f : A -> bool) (l : list A) :
  match List.find f l with
  | Some x => exists j, l !! j = Some x /\ f x = true /\
                        forall k y, (k < j)%nat -> l !! k = Some y -> f y = false
  | None => forall y, y ∈ l -> f y = false
  end.
Proof.
  induction l as [|a l IH]; simpl.
  - intros y Hy. apply elem_of_nil in Hy. contradiction.
  - destruct (f a) eqn:Hfa.
    + exists 0%nat. split; [reflexivity|]. split; [exact Hfa|]. intros k y Hk. lia.
    + destruct (List.find f l) as [x|].
      * destruct IH as (j & Hj & Hfx & Hmin). exists (S j).
        split; [exact Hj|]. split; [exact Hfx|].
        intros [|k] y Hk Hy; simpl in Hy; [congruence|]. apply (Hmin k y); [lia|exact Hy].
      * intros y Hy. apply elem_of_cons in Hy as [->|Hy]; [exact Hfa|apply IH, Hy].
Qed.

Lemma mapM_cons {A B} (f : A -> outcome B) (a : A) (l : list A) :
  mapM f (a :: l) = bind (f a) (fun b => bind (mapM f l) (fun bs => Ok (b :: bs))).
Proof. reflexivity. Qed.

Lemma window_ok (s : Z) (l : list Z) :
  (forall index, index ∈ l -> Z.abs (s + index * 86400000) <= maxTime) ->
  mapM (fun index =>
          let day := addDays (Some s) index in
          bind (formatIsoDate day) (fun d => Ok {| item_date := d; item_time := day |})) l
  = Ok ((fun index => {| item_date := iso_date (s + index * 86400000);
                         item_time := Some (s + index * 86400000) |}) <$> l).
Proof.
  induction l as [|index l IH]; intros Hrange; [reflexivity|].
  rewrite mapM_cons, IH by (intros i Hi; apply Hrange; apply elem_of_cons; right; exact Hi).
  pose proof (Hrange index ltac:(apply elem_of_cons; left; reflexivity)) as Hr.
  unfold addDays, TimeClip, formatIsoDate, toISOString.
  replace (s + index * 24 * 60 * 60 * 1000) with (s + index * 86400000) by lia.
  apply Z.leb_le in Hr. cbv zeta. rewrite Hr. cbn [bind]. rewrite Hr. reflexivity.
Qed.

End ForwardFill.

Section ForwardFillTheorem.
Import Gold Live.

(** Given the merged mapping [perDayUsd] and a window of [n + 1] days from
    [s] (inside the range of [Date]) with at least one observed day, the
    series builder returns one point per day of the window, and the price of
    day [i] is the conversion to the requested unit of the rate observed for
    the nearest day [j <= i] that has one, and, for the leading days before
    the first observation, of the first observed rate. *)
Lemma series_of_rates_filled (unit_ : GoldUnit) (safeDays : Z) (s n : Z)
    (perDayUsd : gmap string float) :
  0 <= n -> - maxTime <= s -> s + n * 86400000 <= maxTime ->
  (exists j v, Z.of_nat j <= n /\ observed perDayUsd s j = Some v) ->
  exists series first_rate j0,
    series_of_rates unit_ safeDays (Some s) (Some (s + n * 86400000)) perDayUsd = Ok series /\
    Z.of_nat (length (points series)) = n + 1 /\
    Z.of_nat j0 <= n /\ observed perDayUsd s j0 = Some first_rate /\
    (forall k, (k < j0)%nat -> observed perDayUsd s k = None) /\
    forall i, Z.of_nat i <= n ->
      exists pt,
        points series !! i = Some pt /\
        Live.time pt = Some (s + Z.of_nat i * 86400000) /\
        (forall j v, (j <= i)%nat -> observed perDayUsd s j = Some v ->
           (forall k, (j < k <= i)%nat -> observed perDayUsd s k = None) ->
           point_price pt = convertPrice v unit_) /\
        ((forall k, (k <= i)%nat -> observed perDayUsd s k = None) ->
         point_price pt = convertPrice first_rate unit_).
Proof.
  intros Hn Hlo Hhi (jobs & vobs & Hjobs & Hobs).
  unfold series_of_rates.
  assert (diffDaysInclusive (Some s) (Some (s + n * 86400000)) = n + 1) as ->.
  { unfold diffDaysInclusive.
    replace (s + n * 86400000 - s) with (n * (24 * 60 * 60 * 1000)) by lia.
    rewrite round_div_exact by lia. lia. }
  rewrite window_ok by (intros index Hi; apply elem_of_seqZ in Hi; unfold maxTime in *; lia).
  cbn [bind]. fold (window s (n + 1)).
  set (rawValues := map (fun item => perDayUsd !! item_date item) (window s (n + 1))).
  assert (length (window s (n + 1)) = Z.to_nat (n + 1)) as Hlenw
    by (unfold window; rewrite length_fmap, length_seqZ; reflexivity).
  assert (length rawValues = Z.to_nat (n + 1)) as Hlenr
    by (unfold rawValues; rewrite length_map; exact Hlenw).
  assert (forall i, Z.of_nat i <= n ->
            window s (n + 1) !! i
            = Some {| item_date := iso_date (s + Z.of_nat i * 86400000);
                      item_time := Some (s + Z.of_nat i * 86400000) |}) as Hwin.
  { intros i Hi. unfold window. rewrite list_lookup_fmap, lookup_seqZ_lt by lia. reflexivity. }
  assert (forall i, Z.of_nat i <= n -> rawValues !! i = Some (observed perDayUsd s i)) as Hraw.
  { intros i Hi. unfold rawValues. change (map ?f ?l) with (f <$> l).
    rewrite list_lookup_fmap, (Hwin i Hi). reflexivity. }
  assert (forall i x, rawValues !! i = Some x -> Z.of_nat i <= n) as Hrange.
  { intros i x Hx. apply lookup_lt_Some in Hx. lia. }
  pose proof (find_first (fun value_ : option float => bool_decide (is_Some value_)) rawValues)
    as Hfind.
  destruct (List.find _ rawValues) as [[firstKnown|]|].
  2: { destruct Hfind as (j & _ & Hf & _). apply bool_decide_eq_true in Hf.
       destruct Hf as [? Hf]. discriminate. }
  2: { specialize (Hfind (Some vobs)).
       rewrite bool_decide_eq_false in Hfind. exfalso. apply Hfind; [|eexists; reflexivity].
       apply list_elem_of_lookup. exists jobs. rewrite Hraw by exact Hjobs. rewrite Hobs.
       reflexivity. }
  destruct Hfind as (j0 & Hj0 & _ & Hmin).
  pose proof (Hrange _ _ Hj0) as Hj0n.
  rewrite Hraw in Hj0 by exact Hj0n. inversion Hj0 as [Hj0'].
  set (filledValues := fill_loop rawValues firstKnown []).
  assert (length filledValues = Z.to_nat (n + 1)) as Hlenf
    by (unfold filledValues; rewrite fill_loop_length; exact Hlenr).
  set (pointsOz := zip_with _ (window s (n + 1)) filledValues).
  assert (forall i, Z.of_nat i <= n ->
            exists filled, filledValues !! i = Some filled /\
              pointsOz !! i = Some {| oz_date := iso_date (s + Z.of_nat i * 86400000);
                                      oz_time := Some (s + Z.of_nat i * 86400000);
                                      pricePerOz := filled |}) as Hoz.
  { intros i Hi. destruct (lookup_lt_is_Some_2 filledValues i ltac:(lia)) as [filled Hf].
    exists filled. split; [exact Hf|]. unfold pointsOz.
    rewrite lookup_zip_with, (Hwin i Hi), Hf. reflexivity. }
  destruct (last pointsOz) as [lastPointOz|] eqn:Hlast.
  2: { apply last_None in Hlast. destruct (Hoz 0%nat ltac:(lia)) as (? & _ & H0).
       rewrite Hlast in H0. discriminate. }
  eexists _, firstKnown, j0. split; [reflexivity|]. cbn [points].
  split; [rewrite length_map; unfold pointsOz; rewrite length_zip_with; lia|].
  split; [exact Hj0n|]. split; [exact Hj0'|].
  split.
  { intros k Hk. destruct (lookup_lt_is_Some_2 rawValues k ltac:(lia)) as [x Hx].
    pose proof (Hmin k x Hk Hx) as Hfx. apply bool_decide_eq_false in Hfx.
    rewrite Hraw in Hx by lia. inversion Hx; subst x.
    destruct (observed perDayUsd s k); [exfalso; apply Hfx; eexists; reflexivity|reflexivity]. }
  intros i Hi. destruct (Hoz i Hi) as (filled & Hf & Hp).
  eexists. split; [change (map ?f ?l) with (f <$> l); rewrite list_lookup_fmap, Hp; reflexivity|].
  cbn [Live.time point_price oz_time pricePerOz].
  split; [reflexivity|]. split.
  - intros j v Hji Hj Hnone. f_equal.
    assert (filledValues !! i = Some v) as Hv.
    { apply (fill_loop_observed rawValues firstKnown j i v); [lia|exact Hji| |].
      - rewrite Hraw by lia. rewrite Hj. reflexivity.
      - intros k Hk. rewrite Hraw by lia. rewrite Hnone by exact Hk. reflexivity. }
    congruence.
  - intros Hnone. f_equal.
    assert (filledValues !! i = Some firstKnown) as Hv.
    { apply fill_loop_leading; [lia|].
      intros k Hk. rewrite Hraw by lia. rewrite Hnone by exact Hk. reflexivity. }
    congruence.
Qed.

(** The window of [fetchGoldSeries]: it ends at the midnight of the day of
    [now] and starts [safeDays - 1] days earlier. *)
Lemma fetchGoldSeries_window (unit_ : GoldUnit) (days_ now : Z)
    (perDayUsd : gmap string float) :
  0 <= now <= 253402300799999 -> days_ <= 100000000 ->
  let n := Z.max 2 days_ - 1 in
  let s := (now / 86400000 - n) * 86400000 in
  fetchGoldSeries unit_ days_ now perDayUsd
  = series_of_rates unit_ (Z.max 2 days_) (Some s) (Some (s + n * 86400000)) perDayUsd.
Proof.
  intros Hnow Hdays n s. unfold fetchGoldSeries, formatIsoDate, TimeClip, toISOString.
  assert ((Z.abs now <=? maxTime) = true) as Hle by (apply Z.leb_le; unfold maxTime; lia).
  rewrite Hle. cbv beta iota. rewrite Hle. cbn [bind].
  assert (0 <= now / msPerDay <= 2932896) as Hday.
  { unfold msPerDay. split; [apply Z.div_pos; lia|].
    apply Z.lt_succ_r. apply Z.div_lt_upper_bound; lia. }
  change (substring 0 10 (iso_string now)) with (iso_date now).
  rewrite iso_date_midnight by lia.
  unfold parseIsoDate. rewrite Date_parse_iso_date by lia.
  unfold addDays, TimeClip.
  replace (now / msPerDay * msPerDay + - (Z.max 2 days_ - 1) * 24 * 60 * 60 * 1000) with s
    by (subst s n; unfold msPerDay; lia).
  assert ((Z.abs s <=? maxTime) = true) as ->
    by (apply Z.leb_le; subst s n; unfold maxTime, msPerDay in *; lia).
  replace (s + n * 86400000) with (now / msPerDay * msPerDay)
    by (subst s n; unfold msPerDay; lia).
  reflexivity.
Qed.

(** C8. [fetchGoldSeries], called at the time [now] (of a year from 1970
    to 9999) for [days] days with the merged mapping [perDayUsd]: the window
    is the [n + 1 = max(2, days)] days that end with the day of [now]. When
    at least one day of the window has an observed rate, the call returns
    one point per day of the window, and the price of day [i] is the
    conversion to the requested unit (the identity for ounces) of: the rate
    observed for the nearest day [j <= i] that has one (the day itself when
    it is observed), and, for the leading days before the first
    observation, the first observed rate. *)
Theorem forward_fill (unit_ : GoldUnit) (days_ now : Z) (perDayUsd : gmap string float) :
  0 <= now <= 253402300799999 -> days_ <= 100000000 ->
  let n := Z.max 2 days_ - 1 in
  let s := (now / 86400000 - n) * 86400000 in
  (exists j v, Z.of_nat j <= n /\ observed perDayUsd s j = Some v) ->
  exists series first_rate j0,
    fetchGoldSeries unit_ days_ now perDayUsd = Ok series /\
    Z.of_nat (length (points series)) = n + 1 /\
    Z.of_nat j0 <= n /\ observed perDayUsd s j0 = Some first_rate /\
    (forall k, (k < j0)%nat -> observed perDayUsd s k = None) /\
    forall i, Z.of_nat i <= n ->
      exists pt,
        points series !! i = Some pt /\
        Live.time pt = Some (s + Z.of_nat i * 86400000) /\
        (forall j v, (j <= i)%nat -> observed perDayUsd s j = Some v ->
           (forall k, (j < k <= i)%nat -> observed perDayUsd s k = None) ->
           point_price pt = convertPrice v unit_) /\
        ((forall k, (k <= i)%nat -> observed perDayUsd s k = None) ->
         point_price pt = convertPrice first_rate unit_).
Proof.
  intros Hnow Hdays n s Hobs.
  rewrite fetchGoldSeries_window by assumption. fold n. fold s.
  assert (0 <= now / 86400000) as Hday by (apply Z.div_pos; lia).
  assert (now / 86400000 * 86400000 <= now) as Hfloor
    by (rewrite Z.mul_comm; apply Z.mul_div_le; lia).
  apply series_of_rates_filled.
  - subst n. lia.
  - subst s n. unfold maxTime. lia.
  - subst s n. unfold maxTime. lia.
  - exact Hobs.
Qed.

(** At noon of 2024-01-05, for five days, with rates for the 2nd and the
    4th of January: the 1st copies the first rate, the 3rd and the 5th the
    rate before. *)
Lemma forward_fill_witness :
  exists series,
    fetchGoldSeries oz 5 1704456000000 sample_rates = Ok series /\
    point_price <$> points series = [2040; 2040; 2040; 2060; 2060]%float.
Proof.
  destruct (forward_fill oz 5 1704456000000 sample_rates)
    as (series & first_rate & j0 & Hs & _); [lia|lia| |].
  - exists 1%nat, 2040%float. split; [lia|]. vm_compute. reflexivity.
  - exists series. split; [exact Hs|].
    vm_compute in Hs. inversion Hs. reflexivity.
Defined.

End ForwardFillTheorem.

(** ** [resolveRange] *)

Section ResolveRange.
Import Gold.

Lemma is_digit_chars (c : ascii) : is_digit c = true -> In c digit_chars.
Proof.
  destruct c as [[] [] [] [] [] [] [] []]; vm_compute; intros H;
    try discriminate; tauto.
Qed.

Lemma reads_as_spec (bound : Z) (s : string) :
  reads_as bound s = true -> exists v, Number s = SFin (inject_Z v) /\ 0 <= v <= bound.
Proof.
  unfold reads_as. destruct (Number s) as [| |[v d]]; try discriminate.
  cbn [Qnum Qden]. intros H. apply andb_prop in H as [H Hd]. apply andb_prop in H as [Hv Hb].
  apply Pos.eqb_eq in Hd. subst d. exists v. split; [reflexivity|]. lia.
Qed.

Lemma Number_four_digits (s : string) :
  String.length s = 4%nat -> all_digits s = true ->
  exists v, Number s = SFin (inject_Z v) /\ 0 <= v <= 9999.
Proof.
  intros Hlen Hd.
  destruct s as [|c1 [|c2 [|c3 [|c4 [|c5 s]]]]]; try discriminate.
  cbn [all_digits] in Hd. repeat (apply andb_prop in Hd as [?%is_digit_chars Hd]).
  apply reads_as_spec.
  assert (forallb (fun c1 => forallb (fun c2 => forallb (fun c3 => forallb (fun c4 =>
            reads_as 9999 (String c1 (String c2 (String c3 (String c4 EmptyString)))))
            digit_chars) digit_chars) digit_chars) digit_chars = true) as Hall
    by (vm_compute; reflexivity).
  rewrite forallb_forall in Hall. specialize (Hall c1 ltac:(assumption)).
  rewrite forallb_forall in Hall. specialize (Hall c2 ltac:(assumption)).
  rewrite forallb_forall in Hall. specialize (Hall c3 ltac:(assumption)).
  rewrite forallb_forall in Hall. exact (Hall c4 ltac:(assumption)).
Qed.

Lemma Number_two_digits (s : string) :
  String.length s = 2%nat -> all_digits s = true ->
  exists v, Number s = SFin (inject_Z v) /\ 0 <= v <= 99.
Proof.
  intros Hlen Hd.
  destruct s as [|c1 [|c2 [|c3 s]]]; try discriminate.
  cbn [all_digits] in Hd. repeat (apply andb_prop in Hd as [?%is_digit_chars Hd]).
  apply reads_as_spec.
  assert (forallb (fun c1 => forallb (fun c2 =>
            reads_as 99 (String c1 (String c2 EmptyString)))
            digit_chars) digit_chars = true) as Hall
    by (vm_compute; reflexivity).
  rewrite forallb_forall in Hall. specialize (Hall c1 ltac:(assumption)).
  rewrite forallb_forall in Hall. exact (Hall c2 ltac:(assumption)).
Qed.

Lemma days_from_civil_bounds (y m d : Z) :
  -2 <= y <= 10010 -> 1 <= m <= 12 -> 1 <= d <= 31 ->
  -730000 <= days_from_civil y m d <= 2950000.
Proof.
  intros Hy Hm Hd. unfold days_from_civil.
  set (y' := if m <=? 2 then y - 1 else y).
  assert (-3 <= y' <= 10010) as Hy' by (unfold y'; destruct (m <=? 2); lia).
  clearbody y'.
  set (mm := if 2 <? m then m - 3 else m + 9).
  assert (0 <= mm <= 11) as Hmm by (unfold mm; destruct (Z.ltb_spec 2 m); lia).
  clearbody mm.
  assert (-1 <= y' / 400 <= 25) by (Z.div_mod_to_equations; lia).
  assert (0 <= y' - y' / 400 * 400 < 400) by (Z.div_mod_to_equations; lia).
  set (yoe := y' - y' / 400 * 400) in *.
  assert (0 <= yoe / 4 <= 100) by (Z.div_mod_to_equations; lia).
  assert (0 <= yoe / 100 <= 4) by (Z.div_mod_to_equations; lia).
  assert (0 <= (153 * mm + 2) / 5 <= 400) by (Z.div_mod_to_equations; lia).
  lia.
Qed.

(** [Date.UTC] of a year from 0 to 9999 and a month number from 0 to 99
    (less 1) is a valid time. *)
Lemma Date_UTC_digits (vy vm : Z) :
  0 <= vy <= 9999 -> 0 <= vm <= 99 ->
  exists t, Date_UTC (SFin (inject_Z vy)) (strnum_pred (SFin (inject_Z vm))) = Some t.
Proof.
  intros Hy Hm. unfold Date_UTC, strnum_pred, truncate. simpl Qnum. simpl Qden.
  rewrite !Z.quot_1_r.
  match goal with
  | |- exists t, (if ?c then _ else _) = _ => assert (c = true) as ->; [|eexists; reflexivity]
  end.
  apply Z.leb_le.
  set (yr := if (0 <=? vy) && (vy <=? 99) then 1900 + vy else vy).
  assert (0 <= yr <= 9999) as Hyr.
  { unfold yr. destruct (Z.leb_spec 0 vy), (Z.leb_spec vy 99); simpl; lia. }
  clearbody yr.
  replace (vm * 1 + Z.opp 1 * 1) with (vm - 1) by lia.
  assert (-1 <= (vm - 1) / 12 <= 8 /\ 0 <= (vm - 1) mod 12 < 12) as [Hq Hmn]
    by (Z.div_mod_to_equations; lia).
  pose proof (days_from_civil_bounds (yr + (vm - 1) / 12) ((vm - 1) mod 12 + 1) 1
                ltac:(lia) ltac:(lia) ltac:(lia)) as Hb.
  unfold msPerDay, maxTime. lia.
Qed.

Lemma digit_not_dash (c : ascii) : is_digit c = true -> Ascii.eqb c "-" = false.
Proof.
  intros H. destruct (Ascii.eqb_spec c "-") as [->|]; [discriminate|reflexivity].
Qed.

Lemma split_digits (s : string) : all_digits s = true -> split "-" s = [s].
Proof.
  induction s as [|c s IH]; intros H; [reflexivity|].
  cbn [all_digits] in H. apply andb_prop in H as [Hc Hs].
  cbn [split]. rewrite (digit_not_dash c Hc), (IH Hs). reflexivity.
Qed.

Lemma split_digits_app (s r : string) :
  all_digits s = true -> split "-" (s ++ String "-" r) = s :: split "-" r.
Proof.
  induction s as [|c s IH]; intros H; [reflexivity|].
  cbn [all_digits] in H. apply andb_prop in H as [Hc Hs].
  change (String c s ++ String "-" r)%string with (String c (s ++ String "-" r)).
  cbn [split]. rewrite (digit_not_dash c Hc), (IH Hs). reflexivity.
Qed.

Lemma startsWith_app (p r : string) : startsWith (p ++ r) p = true.
Proof.
  unfold startsWith. induction p as [|a p IH]; simpl.
  - destruct r; reflexivity.
  - destruct (ascii_dec a a); [exact IH|congruence].
Qed.

(** C1, as the specification states it, fails: the key is lower-cased
    before it is matched, so a month key in capitals is not sent to the
    default range. *)
Lemma resolveRange_capitals_not_default :
  resolveRange (QString "MONTH-2024-03") <> Ok recentRange.
Proof. vm_compute. discriminate. Qed.

(** What the missing check of the digits lets through: a month key whose
    year is not a number makes the formatter of the label throw, and a year
    key whose year is not a number gives a year range. *)
Lemma resolveRange_month_not_a_number :
  resolveRange (QString "month-abcd-12") = Thrown (RangeError "Invalid time value").
Proof. reflexivity. Qed.

Lemma resolveRange_year_not_a_number :
  resolveRange (QString "year-abcd")
  = Ok {| key := "year-abcd"; label := LabelText "abcd"; kind := kind_year;
          days := None; year := Some "abcd"%string; month := None |}.
Proof. reflexivity. Qed.

(** C1, amended. [resolveRange] matches the lower-cased key (the first
    element of an array). It returns the default range [Recent{14}], without
    error, for an absent key, for the key "recent", and for every key that
    neither starts with "month-" followed by a segment of 4 and a segment of
    2 characters nor starts with "year-" followed by a segment of 4
    characters. It returns, without error, the month range for
    "month-YYYY-MM" with 4 and 2 digits, and the year range for "year-YYYY"
    with 4 digits. *)
Theorem resolveRange_lenient (input : QueryParam) :
  let normalized := option_map toLowerCase (first_value input) in
  (normalized = None -> resolveRange input = Ok recentRange) /\
  (normalized = Some "recent"%string -> resolveRange input = Ok recentRange) /\
  (forall k, normalized = Some k ->
     startsWith k "month-" && has_length 4 (split "-" k !! 1%nat)
       && has_length 2 (split "-" k !! 2%nat) = false ->
     startsWith k "year-" && has_length 4 (split "-" k !! 1%nat) = false ->
     resolveRange input = Ok recentRange) /\
  (forall y m,
     String.length y = 4%nat -> all_digits y = true ->
     String.length m = 2%nat -> all_digits m = true ->
     normalized = Some ("month-" ++ y ++ "-" ++ m)%string ->
     exists t,
       resolveRange input
       = Ok {| key := "month-" ++ y ++ "-" ++ m; label := LabelMonthYear t;
               kind := kind_month; days := None; year := Some y; month := Some m |}) /\
  (forall y,
     String.length y = 4%nat -> all_digits y = true ->
     normalized = Some ("year-" ++ y)%string ->
     resolveRange input
     = Ok {| key := "year-" ++ y; label := LabelText y; kind := kind_year;
             days := None; year := Some y; month := None |}).
Proof.
  intros normalized. unfold resolveRange. fold normalized.
  split; [intros ->; reflexivity|].
  split; [intros ->; reflexivity|].
  split; [|split].
  - intros k -> Hmonth Hyear. destruct k as [|c k]; [reflexivity|].
    destruct (String.eqb _ _); [reflexivity|].
    rewrite Hmonth, Hyear. reflexivity.
  - intros y m Hly Hdy Hlm Hdm ->.
    destruct (Number_four_digits y Hly Hdy) as (vy & Hvy & Hby).
    destruct (Number_two_digits m Hlm Hdm) as (vm & Hvm & Hbm).
    destruct (Date_UTC_digits vy vm Hby Hbm) as (t & Ht).
    exists t.
    assert (split "-" ("month-" ++ y ++ "-" ++ m) = ["month"; y; m]%string) as Hsplit.
    { change ("month-" ++ y ++ "-" ++ m)%string
        with (String "m" (String "o" (String "n" (String "t" (String "h"
                (String "-" (y ++ String "-" m))))))).
      pose proof (split_digits_app y m Hdy) as Hym. rewrite (split_digits m Hdm) in Hym.
      simpl. rewrite Hym. reflexivity. }
    rewrite Hsplit.
    remember ("month-" ++ y ++ "-" ++ m)%string as k eqn:Hk.
    assert (String.eqb k (key recentRange) = false) as -> by (rewrite Hk; vm_compute; reflexivity).
    assert (startsWith k "month-" = true) as -> by (rewrite Hk; apply startsWith_app).
    destruct k as [|c k]; [discriminate Hk|].
    cbn [lookup list_lookup has_length default from_option id].
    rewrite Hly, Hlm, Hvy, Hvm, Ht. reflexivity.
  - intros y Hly Hdy ->.
    assert (split "-" ("year-" ++ y) = ["year"; y]%string) as Hsplit.
    { change ("year-" ++ y)%string
        with (String "y" (String "e" (String "a" (String "r" (String "-" y))))).
      pose proof (split_digits y Hdy) as Hy. simpl. rewrite Hy. reflexivity. }
    rewrite Hsplit.
    remember ("year-" ++ y)%string as k eqn:Hk.
    assert (String.eqb k (key recentRange) = false) as -> by (rewrite Hk; vm_compute; reflexivity).
    assert (startsWith k "month-" = false) as -> by (rewrite Hk; vm_compute; reflexivity).
    assert (startsWith k "year-" = true) as -> by (rewrite Hk; apply startsWith_app).
    destruct k as [|c k]; [discriminate Hk|].
    cbn [lookup list_lookup has_length default from_option id andb].
    rewrite Hly. reflexivity.
Qed.

End ResolveRange.

(** * Further properties of the code *)

(** ** [resolveRange]: errors and the key of the result *)

Section ResolveRangeKeys.
Import Gold.

Lemma lower_char_idem (c : ascii) : lower_char (lower_char c) = lower_char c.
Proof. destruct c as [[] [] [] [] [] [] [] []]; reflexivity. Qed.

Lemma toLowerCase_idem (s : string) : toLowerCase (toLowerCase s) = toLowerCase s.
Proof.
  induction s as [|c s IH]; [reflexivity|].
  cbn [toLowerCase]. rewrite lower_char_idem, IH. reflexivity.
Qed.

(** [resolveRange] reads its input through the lower-cased first value
    only. *)
Lemma resolveRange_normalized (input : QueryParam) (k : string) :
  option_map toLowerCase (first_value input) = Some k ->
  resolveRange input = resolveRange (QString k).
Proof.
  intros Hk. unfold resolveRange. rewrite Hk. cbn [first_value option_map].
  destruct (first_value input) as [v|]; [|discriminate].
  inversion Hk. rewrite toLowerCase_idem. reflexivity.
Qed.

Lemma resolveRange_key (input : QueryParam) (r : GoldRangeConfig) :
  resolveRange input = Ok r ->
  r = recentRange \/ option_map toLowerCase (first_value input) = Some (key r).
Proof.
  unfold resolveRange.
  destruct (option_map toLowerCase (first_value input)) as [k|];
    [|intros H; inversion H; left; reflexivity].
  destruct k as [|c k]; [intros H; inversion H; left; reflexivity|].
  destruct (String.eqb _ (key recentRange)); [intros H; inversion H; left; reflexivity|].
  destruct (_ && _ && _).
  - destruct (format_month_year _); [|discriminate]. cbn [bind].
    intros H. inversion H. right. reflexivity.
  - destruct (_ && _); intros H; inversion H; [right|left]; reflexivity.
Qed.

(** X1. Resolving the key of a resolved range gives that range again: the
    links the dashboard builds from [range.key] lead back to the range. *)
Theorem resolveRange_key_round_trip (input : QueryParam) (r : GoldRangeConfig) :
  resolveRange input = Ok r -> resolveRange (QString (key r)) = Ok r.
Proof.
  intros H. destruct (resolveRange_key input r H) as [->|Hk]; [reflexivity|].
  rewrite <- (resolveRange_normalized input (key r) Hk). exact H.
Qed.

Lemma resolveRange_key_round_trip_witness :
  resolveRange (QArray ["Month-2024-03"; "year-2023"]%string) = Ok march_2024 /\
  resolveRange (QString (key march_2024)) = Ok march_2024.
Proof.
  split; [vm_compute; reflexivity|].
  apply (resolveRange_key_round_trip (QArray ["Month-2024-03"; "year-2023"]%string)).
  vm_compute. reflexivity.
Defined.

(** X2. The only error [resolveRange] raises is the RangeError of the label
    formatter, and it raises it exactly for the keys that start with
    "month-", have a second segment of 4 and a third of 2 characters, and
    whose year and month [Date.UTC] does not turn into a time. *)
Theorem resolveRange_throws (input : QueryParam) (e : error) :
  resolveRange input = Thrown e <->
  e = RangeError "Invalid time value" /\
  exists k y m,
    option_map toLowerCase (first_value input) = Some k /\
    startsWith k "month-" = true /\
    split "-" k !! 1%nat = Some y /\ String.length y = 4%nat /\
    split "-" k !! 2%nat = Some m /\ String.length m = 2%nat /\
    Date_UTC (Number y) (strnum_pred (Number m)) = None.
Proof.
  unfold resolveRange.
  destruct (option_map toLowerCase (first_value input)) as [k|].
  2: { split; [discriminate|]. intros (_ & k & y & m & Hk & _). discriminate. }
  split.
  - destruct k as [|c k]; [discriminate|].
    destruct (String.eqb _ (key recentRange)); [discriminate|].
    destruct (startsWith _ "month-") eqn:Hs; cbn [andb].
    2: { destruct (_ && _); discriminate. }
    destruct (split "-" (String c k) !! 1%nat) as [y|] eqn:Hy; cbn [has_length andb].
    2: { destruct (startsWith _ "year-"); discriminate. }
    destruct (Nat.eqb_spec (String.length y) 4); cbn [andb].
    2: { destruct (startsWith _ "year-"); discriminate. }
    destruct (split "-" (String c k) !! 2%nat) as [m|] eqn:Hm; cbn [has_length andb].
    2: { destruct (startsWith _ "year-"); cbn [andb]; discriminate. }
    destruct (Nat.eqb_spec (String.length m) 2).
    2: { destruct (startsWith _ "year-"); cbn [andb]; discriminate. }
    cbn [default]. unfold format_month_year.
    destruct (Date_UTC _ _) eqn:Hd; [discriminate|]. cbn [bind].
    intros H. inversion H. split; [reflexivity|].
    exists (String c k), y, m. repeat split; assumption.
  - intros (-> & k' & y & m & Hk & Hs & Hy & Hly & Hm & Hlm & Hd).
    inversion Hk; subst k'. clear Hk.
    destruct k as [|c k]; [discriminate|].
    assert (String.eqb (String c k) (key recentRange) = false) as ->.
    { apply String.eqb_neq. intros Heq. rewrite Heq in Hs. discriminate. }
    rewrite Hs, Hy, Hm. cbn [has_length default]. rewrite Hly, Hlm. cbn [Nat.eqb andb].
    unfold id. rewrite Hd. reflexivity.
Qed.

End ResolveRangeKeys.

(** ** [sliceRange]: what the slice is made of *)

Section SliceRangeSlices.
Import Gold.

Lemma filter_filter {A} (f : A -> bool) (l : list A) :
  List.filter f (List.filter f l) = List.filter f l.
Proof.
  induction l as [|a l IH]; [reflexivity|]. cbn [List.filter].
  destruct (f a) eqn:Hf; [|exact IH]. cbn [List.filter]. rewrite Hf, IH. reflexivity.
Qed.

Lemma nonempty_or_idem {A} (f : A -> bool) (pts : list A) :
  nonempty_or (List.filter f (nonempty_or (List.filter f pts) pts))
              (nonempty_or (List.filter f pts) pts)
  = nonempty_or (List.filter f pts) pts.
Proof.
  destruct (List.filter f pts) as [|a l] eqn:Hf; cbn [nonempty_or].
  - rewrite Hf. reflexivity.
  - rewrite <- Hf, filter_filter, Hf. reflexivity.
Qed.

Lemma filter_sublist {A} (f : A -> bool) (l : list A) : sublist (List.filter f l) l.
Proof.
  induction l as [|a l IH]; [constructor|]. cbn [List.filter].
  destruct (f a); [apply sublist_skip|apply sublist_cons]; exact IH.
Qed.

Lemma nonempty_or_sublist {A} (f : A -> bool) (pts : list A) :
  sublist (nonempty_or (List.filter f pts) pts) pts.
Proof.
  rewrite nonempty_or_spec. case_bool_decide; [reflexivity|apply filter_sublist].
Qed.

(** A range either selects by a filter or selects everything. *)
Lemma sliceRange_cases (range_ : GoldRangeConfig) (latest_ : GoldPoint) :
  (exists f, forall points, points <> [] ->
     sliceRange points range_ latest_ = nonempty_or (List.filter f points) points) \/
  (forall points, sliceRange points range_ latest_ = points).
Proof.
  unfold sliceRange.
  destruct (kind range_), (truthy (year range_)) as [y|], (truthy (month range_)) as [m|];
    try (right; intros [|p points]; reflexivity);
    left; eexists; intros [|p points] Hne; try contradiction; reflexivity.
Qed.

(** X3. Slicing is idempotent and keeps the order of the input: the slice of a
    slice (same range, same latest point) is that slice, and every slice is
    a subsequence of its input. *)
Theorem sliceRange_idempotent (points : list GoldPoint) (range_ : GoldRangeConfig)
    (latest_ : GoldPoint) :
  sliceRange (sliceRange points range_ latest_) range_ latest_
    = sliceRange points range_ latest_ /\
  sublist (sliceRange points range_ latest_) points.
Proof.
  destruct (sliceRange_cases range_ latest_) as [[f Hf]|Hall].
  - destruct points as [|p0 points]; [split; [reflexivity|constructor]|].
    assert (p0 :: points <> []) as Hne by discriminate.
    rewrite (Hf _ Hne).
    rewrite (Hf _ (nonempty_or_nonempty _ _ Hne)).
    split; [apply nonempty_or_idem|apply nonempty_or_sublist].
  - rewrite !Hall. split; reflexivity.
Qed.

(** A list where [f] is false up to index [k] and true from there on is
    filtered to its part from [k]. *)
Lemma filter_threshold {A} (f : A -> bool) (l : list A) : forall k,
  (forall i x, l !! i = Some x -> f x = bool_decide (k <= i)%nat) ->
  List.filter f l = drop k l.
Proof.
  induction l as [|a l IH]; intros k H; [destruct k; reflexivity|].
  destruct k as [|k].
  - apply filter_all. intros x Hx. apply list_elem_of_lookup in Hx as [i Hi].
    rewrite (H i x Hi). apply bool_decide_eq_true. lia.
  - cbn [List.filter drop]. rewrite (H 0%nat a eq_refl).
    rewrite bool_decide_eq_false_2 by lia.
    apply IH. intros i x Hi. rewrite (H (S i) x Hi).
    apply bool_decide_ext. lia.
Qed.

(** X4. On a series of one point per day, the recent range of [d >= 0] days
    (14 when the range gives none) ending at the last point is the last
    [d + 1] points, or the whole series when it is shorter. *)
Theorem sliceRange_recent_days (t0 : Z) (points : list GoldPoint) (range_ : GoldRangeConfig)
    (latest_ : GoldPoint) :
  dense_daily t0 points -> last points = Some latest_ ->
  kind range_ = kind_recent -> 0 <= default 14 (days range_) ->
  sliceRange points range_ latest_
  = drop (length points - Z.to_nat (default 14 (days range_) + 1)) points.
Proof.
  intros Hdense Hlast Hk Hd.
  destruct points as [|p0 points']; [discriminate|].
  set (points := p0 :: points') in *.
  unfold sliceRange. fold points. cbv iota. rewrite Hk.
  set (d := default 14 (days range_)) in *.
  set (n := length points).
  assert (1 <= n)%nat as Hn by (subst n points; simpl; lia).
  assert (time latest_ = Some (t0 + Z.of_nat (n - 1) * DAY_MS)) as Htl.
  { apply (Hdense (n - 1)%nat). rewrite <- Hlast, last_lookup. subst n.
    f_equal. simpl. lia. }
  rewrite (filter_threshold _ points (n - Z.to_nat (d + 1))).
  - rewrite nonempty_or_spec. case_bool_decide as Hnil; [|reflexivity].
    apply (f_equal length) in Hnil. rewrite length_drop in Hnil.
    change (length points) with n in Hnil. change (length (@nil GoldPoint)) with 0%nat in Hnil.
    lia.
  - intros i x Hi. rewrite (Hdense i x Hi), Htl.
    pose proof (lookup_lt_Some _ _ _ Hi) as Hlt. fold n in Hlt.
    unfold msec_geb, msec_leb, msec_sub, DAY_MS.
    destruct (Z.leb_spec (t0 + Z.of_nat (n - 1) * (24 * 60 * 60 * 1000)
                          - d * (24 * 60 * 60 * 1000))
                         (t0 + Z.of_nat i * (24 * 60 * 60 * 1000)));
      symmetry; [apply bool_decide_eq_true|apply bool_decide_eq_false]; lia.
Qed.

Lemma sliceRange_recent_days_witness :
  sliceRange three_days
    {| key := "recent"; label := LabelText "Recent"; kind := kind_recent;
       days := Some 1; year := None; month := None |}
    {| date := "2024-01-03"; value := 2020%float; time := Some 1704240000000 |}
  = drop 1 three_days.
Proof.
  assert (dense_daily 1704067200000 three_days) as Hdense.
  { intros i p Hi. destruct i as [|[|[|i]]]; inversion Hi; reflexivity. }
  apply (sliceRange_recent_days 1704067200000 three_days
           {| key := "recent"; label := LabelText "Recent"; kind := kind_recent;
              days := Some 1; year := None; month := None |}
           {| date := "2024-01-03"; value := 2020%float; time := Some 1704240000000 |}
           Hdense eq_refl eq_refl).
  simpl. lia.
Defined.

End SliceRangeSlices.

(** ** [computeChange] with enough history *)

Section ComputeChangeDense.
Import Gold.

(** On a series of one point per day, the backward scan for the point at
    most [N >= 0] days before the last one stops at the point exactly [N]
    days before it. *)
Lemma find_prior_dense (t0 : Z) (points : list GoldPoint) (N : Z)
    (latest_ prior : GoldPoint) :
  dense_daily t0 points -> 0 <= N -> N + 1 <= Z.of_nat (length points) ->
  last points = Some latest_ ->
  points !! (length points - 1 - Z.to_nat N)%nat = Some prior ->
  find_prior (msec_sub (time latest_) (Some (N * DAY_MS))) (rev points) = Some prior.
Proof.
  intros Hdense HN Hlen Hlast Hp.
  set (n := length points) in *.
  assert (points !! (n - 1)%nat = Some latest_) as Hl.
  { rewrite <- Hlast, last_lookup. f_equal. subst n. lia. }
  pose proof (Hdense _ _ Hl) as Htl. pose proof (Hdense _ _ Hp) as Htp.
  pose proof (find_prior_spec (msec_sub (time latest_) (Some (N * DAY_MS))) points) as Hf.
  destruct (find_prior _ (rev points)) as [q|].
  - destruct Hf as (i & Hi & Hle & Hafter).
    pose proof (Hdense _ _ Hi) as Hti.
    rewrite Hti, Htl in Hle. unfold msec_sub, msec_leb, DAY_MS in Hle.
    apply Z.leb_le in Hle.
    destruct (decide (i = n - 1 - Z.to_nat N)%nat) as [->|Hne].
    + rewrite Hp in Hi. inversion Hi. reflexivity.
    + specialize (Hafter (n - 1 - Z.to_nat N)%nat prior ltac:(lia) Hp).
      rewrite Htp, Htl in Hafter. unfold msec_sub, msec_leb, DAY_MS in Hafter.
      apply Z.leb_gt in Hafter. lia.
  - specialize (Hf prior ltac:(apply list_elem_of_lookup; eauto)).
    rewrite Htp, Htl in Hf. unfold msec_sub, msec_leb, DAY_MS in Hf.
    apply Z.leb_gt in Hf. lia.
Qed.

(** X5. On a series of one point per day with at least [N + 1] points, the
    change over [N >= 0] days compares the last point with the point
    exactly [N] days before it. *)
Theorem computeChange_days_back (t0 : Z) (points : list GoldPoint) (N : Z) :
  dense_daily t0 points -> 0 <= N -> N + 1 <= Z.of_nat (length points) ->
  exists latest_ prior,
    last points = Some latest_ /\
    points !! (length points - 1 - Z.to_nat N)%nat = Some prior /\
    time prior = msec_sub (time latest_) (Some (N * DAY_MS)) /\
    computeChange points N = Some ((value latest_ - value prior) / value prior)%float.
Proof.
  intros Hdense HN Hlen.
  destruct (last points) as [latest_|] eqn:Hlast.
  2: { apply last_None in Hlast. subst points. simpl in Hlen. lia. }
  destruct (lookup_lt_is_Some_2 points (length points - 1 - Z.to_nat N)%nat ltac:(lia))
    as [prior Hp].
  exists latest_, prior. split; [reflexivity|]. split; [exact Hp|].
  split.
  - assert (points !! (length points - 1)%nat = Some latest_) as Hl
      by (rewrite <- Hlast, last_lookup; f_equal; lia).
    rewrite (Hdense _ _ Hl), (Hdense _ _ Hp). unfold msec_sub, DAY_MS. f_equal. lia.
  - unfold computeChange. rewrite Hlast.
    rewrite (find_prior_dense t0 points N latest_ prior Hdense HN Hlen Hlast Hp).
    reflexivity.
Qed.

Lemma computeChange_days_back_witness :
  computeChange three_days 2 = Some ((2020 - 2000) / 2000)%float.
Proof.
  assert (dense_daily 1704067200000 three_days) as Hdense.
  { intros i p Hi. destruct i as [|[|[|i]]]; inversion Hi; reflexivity. }
  destruct (computeChange_days_back 1704067200000 three_days 2 Hdense ltac:(lia)
              ltac:(simpl; lia)) as (latest_ & prior & Hl & Hp & _ & Hc).
  inversion Hl; subst latest_. inversion Hp; subst prior. exact Hc.
Defined.

End ComputeChangeDense.

(** ** [getGoldData]: errors, the latest point, the two statistics *)

Section AssemblerMore.
Import Gold.

(** What [getGoldData] returns, when it returns. *)
Lemma getGoldData_inv (goldSeries : GoldSeriesFile) (range_ : GoldRangeConfig)
    (unit_ : GoldUnit) (data : GoldData) :
  getGoldData goldSeries range_ unit_ = Ok data ->
  exists series latest_,
    anchors goldSeries <> [] /\
    buildSeriesFromAnchors (anchors goldSeries) = Ok series /\
    last (map (to_unit unit_) series) = Some latest_ /\
    latest data = latest_ /\
    rangePoints data = sliceRange (map (to_unit unit_) series) range_ latest_ /\
    pointsCount data = length (rangePoints data) /\
    rangeStats data
      = default {| low := value latest_; high := value latest_ |}
                (computeHighLow (sliceRange (map (to_unit unit_) series) range_ latest_)) /\
    yearStats data
      = default (rangeStats data)
          (computeHighLow (sliceRange (map (to_unit unit_) series) year_range latest_)).
Proof.
  unfold getGoldData, loadSeriesFile. intros H.
  destruct (anchors goldSeries) as [|a0 rest] eqn:Ha; [discriminate|].
  cbn [bind anchors] in H.
  destruct (buildSeriesFromAnchors (a0 :: rest)) as [series|e] eqn:Hb; [|discriminate].
  cbn [bind] in H.
  destruct (last (map (to_unit unit_) series)) as [latest_|] eqn:Hl; [|discriminate].
  inversion H; subst data; clear H. cbn.
  exists series, latest_. repeat split; try reflexivity; try assumption. discriminate.
Qed.

(** X6. With no anchor in the snapshot, and only then, [getGoldData] fails with
    "Gold series file is empty", whatever the range and the unit. On a
    snapshot whose anchors' dates are all calendar days ([YYYY-MM-DD], a
    day that exists) this is its only failure: the densifier then returns
    at least one point, so "Gold data is empty" does not arise. *)
Theorem getGoldData_errors (goldSeries : GoldSeriesFile) (range_ : GoldRangeConfig)
    (unit_ : GoldUnit) :
  (getGoldData goldSeries range_ unit_ = Thrown (Error "Gold series file is empty")
   <-> anchors goldSeries = []) /\
  (Forall valid_date (anchors goldSeries) ->
   forall e, getGoldData goldSeries range_ unit_ = Thrown e ->
     anchors goldSeries = [] /\ e = Error "Gold series file is empty").
Proof.
  assert (anchors goldSeries <> [] ->
          forall e, getGoldData goldSeries range_ unit_ = Thrown e ->
            e = Error "Gold data is empty" /\
            exists a, a ∈ anchors goldSeries /\ ~ valid_date a) as Hcases.
  { intros Hne e. unfold getGoldData, loadSeriesFile.
    destruct (anchors goldSeries) as [|a0 rest] eqn:Ha; [contradiction|].
    cbn [bind anchors]. rewrite buildSeriesFromAnchors_ok. cbn [bind].
    pose proof (sort_perm date_after (a0 :: rest)) as Hperm.
    destruct (sort date_after (a0 :: rest)) as [|a [|b l]] eqn:Hsort.
    - apply Permutation_nil_l in Hperm. discriminate.
    - cbn. discriminate.
    - destruct (last (map (to_unit unit_) (segments 0 (a :: b :: l)))) eqn:Hl; [discriminate|].
      intros H. inversion H. split; [reflexivity|].
      apply last_None in Hl. apply map_eq_nil in Hl.
      destruct (Date_parse (anchor_date a)) as [ta|] eqn:Hta.
      + destruct (Date_parse (anchor_date b)) as [tb|] eqn:Htb.
        * exfalso. apply (segments_nonempty a b l); [eexists; eassumption..|exact Hl].
        * exists b. split.
          -- rewrite <- Hperm. apply elem_of_cons. right. apply elem_of_cons. left. reflexivity.
          -- unfold valid_date. rewrite Htb. intros [t Ht]. discriminate.
      + exists a. split.
        * rewrite <- Hperm. apply elem_of_cons. left. reflexivity.
        * unfold valid_date. rewrite Hta. intros [t Ht]. discriminate. }
  split.
  - split.
    + intros H. destruct (anchors goldSeries) as [|a0 rest] eqn:Ha; [reflexivity|].
      destruct (Hcases ltac:(discriminate) _ H) as [He _]. discriminate.
    + intros Ha. unfold getGoldData, loadSeriesFile. rewrite Ha. reflexivity.
  - intros Hv e H. destruct (anchors goldSeries) as [|a0 rest] eqn:Ha.
    + split; [reflexivity|]. unfold getGoldData, loadSeriesFile in H. rewrite Ha in H.
      inversion H. reflexivity.
    + exfalso. destruct (Hcases ltac:(discriminate) _ H) as (_ & a & Hin & Hnv).
      apply Hnv. rewrite Forall_forall in Hv. apply Hv. exact Hin.
Qed.

(** The empty snapshot fails; the snapshot of two anchors does not. *)
Lemma getGoldData_errors_witness :
  getGoldData {| source := "snapshot"; updatedAt := "2024-03-01"; anchors := [] |} february g
    = Thrown (Error "Gold series file is empty") /\
  forall e, getGoldData winter february g <> Thrown e.
Proof.
  split.
  - apply (getGoldData_errors
             {| source := "snapshot"; updatedAt := "2024-03-01"; anchors := [] |} february g).
    reflexivity.
  - intros e H.
    destruct (getGoldData_errors winter february g) as [_ Hvalid].
    destruct (Hvalid ltac:(repeat constructor; eexists; vm_compute; reflexivity) e H) as [Hnil _].
    discriminate Hnil.
Defined.

End AssemblerMore.

Section AssemblerLatest.
Import Gold.

Lemma last_filter {A} (f : A -> bool) (l : list A) (x : A) :
  last l = Some x -> f x = true -> last (List.filter f l) = Some x.
Proof.
  intros Hl Hf. apply last_Some in Hl as [l' ->].
  rewrite List.filter_app. cbn [List.filter]. rewrite Hf. apply last_snoc.
Qed.

Lemma last_fmap_Some {A B} (f : A -> B) (l : list A) (x : A) :
  last l = Some x -> last (f <$> l) = Some (f x).
Proof. intros Hl. apply last_Some in Hl as [l' ->]. rewrite fmap_app. apply last_snoc. Qed.

(** The last point the densifier returns is the point of the latest
    anchor's day. *)
Lemma segments_last (a b z : GoldAnchor) (rest : list GoldAnchor) :
  Forall valid_date (a :: b :: rest) -> ascending (a :: b :: rest) ->
  last (a :: b :: rest) = Some z ->
  exists p, last (segments 0 (a :: b :: rest)) = Some p /\
            time p = Some (day_of z * DAY_MS) /\ date p = anchor_date z.
Proof.
  intros Hv Hs Hz.
  pose proof (segments_times_first a b z rest Hv Hs Hz) as Ht.
  destruct (last (segments 0 (a :: b :: rest))) as [p|] eqn:Hl.
  2: { apply last_None in Hl. exfalso.
       apply Forall_cons in Hv as [Ha Hv]. apply Forall_cons in Hv as [Hb _].
       apply (segments_nonempty a b rest Ha Hb Hl). }
  exists p. split; [reflexivity|].
  assert (day_of a <= day_of z) as Haz.
  { pose proof (ascending_head _ _ _ Hs). pose proof (ascending_last b z rest
      (ascending_tail _ _ Hs) ltac:(rewrite <- Hz; reflexivity)). lia. }
  assert (time p = Some (day_of z * DAY_MS)) as Htp.
  { pose proof (last_fmap_Some time _ p Hl) as Hlt. rewrite Ht in Hlt.
    rewrite seqZ_app, fmap_app in Hlt by lia.
    rewrite (seqZ_cons _ 1), (seqZ_nil _ (Z.pred 1)) in Hlt by lia. cbn [fmap list_fmap] in Hlt.
    rewrite last_snoc in Hlt. inversion Hlt as [Heq]. f_equal. lia. }
  split; [exact Htp|].
  assert (valid_date z) as Hvz.
  { rewrite Forall_forall in Hv. apply Hv. apply last_Some_elem_of. exact Hz. }
  apply (Date_parse_inj _ _ (day_of z * DAY_MS)).
  - rewrite (segments_parse (a :: b :: rest) p Hv Hs); [exact Htp|].
    apply last_Some_elem_of. exact Hl.
  - apply valid_date_parse. exact Hvz.
Qed.

(** The last point of the densified series is the point of the anchor
    with the latest date. *)
Lemma latest_point_anchor (anchors_ : list GoldAnchor) (series : list GoldPoint) :
  anchors_ <> [] -> Forall valid_date anchors_ -> NoDup (anchor_date <$> anchors_) ->
  buildSeriesFromAnchors anchors_ = Ok series ->
  exists z p,
    z ∈ anchors_ /\ (forall a, a ∈ anchors_ -> day_of a <= day_of z) /\
    last series = Some p /\ time p = Some (day_of z * DAY_MS) /\ date p = anchor_date z.
Proof.
  intros Hne Hv Hnd Hb.
  rewrite buildSeriesFromAnchors_ok in Hb. inversion Hb as [Hseries]. clear Hb.
  pose proof (sort_ascending _ Hv (distinct_dates_days _ Hv Hnd)) as Hs.
  pose proof (sort_perm date_after anchors_) as Hperm.
  assert (Forall valid_date (sort date_after anchors_)) as Hvs by (rewrite Hperm; exact Hv).
  destruct (sort date_after anchors_) as [|a [|b rest]] eqn:Hsort.
  - apply Permutation_nil_l in Hperm. congruence.
  - exists a, {| date := anchor_date a; value := anchor_value a;
                 time := Date_parse (anchor_date a) |}.
    apply Forall_cons in Hvs as [Ha _].
    split; [rewrite <- Hperm; apply list_elem_of_singleton; reflexivity|].
    split; [intros x Hx; rewrite <- Hperm in Hx;
            apply list_elem_of_singleton in Hx; subst; lia|].
    split; [reflexivity|]. split; [apply (valid_date_parse a Ha)|reflexivity].
  - destruct (last (a :: b :: rest)) as [z|] eqn:Hz; [|apply last_None in Hz; discriminate].
    destruct (segments_last a b z rest Hvs Hs Hz) as (p & Hp & Htp & Hdp).
    exists z, p.
    split; [rewrite <- Hperm; apply last_Some_elem_of; exact Hz|].
    split; [intros x Hx; rewrite <- Hperm in Hx;
            apply (ascending_le_last _ x z Hs Hz Hx)|].
    auto.
Qed.

(** X7. With anchors (in any order) whose dates are pairwise distinct calendar
    days, the latest point of the view is the point of the latest anchor
    date, at UTC midnight of that date; and a recent range of [d >= 0] days
    ends with the latest point. *)
Theorem getGoldData_latest (goldSeries : GoldSeriesFile) (range_ : GoldRangeConfig)
    (unit_ : GoldUnit) (data : GoldData) :
  Forall valid_date (anchors goldSeries) -> NoDup (anchor_date <$> anchors goldSeries) ->
  getGoldData goldSeries range_ unit_ = Ok data ->
  exists z,
    z ∈ anchors goldSeries /\
    (forall a, a ∈ anchors goldSeries -> day_of a <= day_of z) /\
    date (latest data) = anchor_date z /\
    time (latest data) = Date_parse (anchor_date z) /\
    (kind range_ = kind_recent -> 0 <= default 14 (days range_) ->
     last (rangePoints data) = Some (latest data)).
Proof.
  intros Hv Hnd Hg.
  destruct (getGoldData_inv _ _ _ _ Hg)
    as (series & latest_ & Hne & Hb & Hl & Hlat & Hrp & _).
  destruct (latest_point_anchor _ _ Hne Hv Hnd Hb) as (z & p & Hz & Hmax & Hp & Htp & Hdp).
  assert (latest_ = to_unit unit_ p) as Hlp.
  { change (map (to_unit unit_) series) with (to_unit unit_ <$> series) in Hl.
    rewrite (last_fmap_Some _ _ _ Hp) in Hl. congruence. }
  assert (valid_date z) as Hvz by (rewrite Forall_forall in Hv; apply Hv, Hz).
  exists z. split; [exact Hz|]. split; [exact Hmax|].
  rewrite Hlat, Hlp. cbn [to_unit date time].
  split; [exact Hdp|]. split; [rewrite Htp, (valid_date_parse z Hvz); reflexivity|].
  intros Hk Hd. rewrite Hrp, <- Hlp.
  destruct (map (to_unit unit_) series) as [|q0 pts] eqn:Hpts; [discriminate|].
  unfold sliceRange. rewrite Hk.
  set (f := fun point : GoldPoint => _).
  assert (f latest_ = true) as Hf.
  { subst f. cbv beta. rewrite Hlp. cbn [to_unit time]. rewrite Htp.
    unfold msec_geb, msec_sub, msec_leb, DAY_MS. apply Z.leb_le. lia. }
  pose proof (last_filter f _ _ Hl Hf) as Hlast.
  rewrite nonempty_or_spec. case_bool_decide as Hnil; [|exact Hlast].
  rewrite Hnil in Hlast. discriminate.
Qed.

Lemma getGoldData_latest_witness :
  exists data,
    getGoldData winter february g = Ok data /\
    date (latest data) = "2024-03-01"%string /\
    time (latest data) = Some 1709251200000.
Proof.
  assert (Forall valid_date (anchors winter)) as Hv
    by (repeat constructor; eexists; vm_compute; reflexivity).
  assert (NoDup (anchor_date <$> anchors winter)) as Hnd.
  { vm_compute. repeat constructor; intros H;
      repeat (apply elem_of_cons in H as [H|H]; [discriminate|]);
      apply elem_of_nil in H; exact H. }
  destruct (getGoldData winter february g) as [data|e] eqn:Hg;
    [|vm_compute in Hg; discriminate].
  exists data. split; [reflexivity|].
  destruct (getGoldData_latest winter february g data Hv Hnd Hg)
    as (z & Hz & Hmax & Hd & Ht & _).
  assert (z = {| anchor_date := "2024-03-01"; anchor_value := 2120%float |}) as ->.
  { apply elem_of_cons in Hz as [->|Hz].
    - specialize (Hmax {| anchor_date := "2024-03-01"; anchor_value := 2120%float |}
                    ltac:(apply elem_of_cons; right; apply elem_of_cons; left; reflexivity)).
      vm_compute in Hmax. exfalso. apply Hmax. reflexivity.
    - apply list_elem_of_singleton in Hz. exact Hz. }
  split; [exact Hd|exact Ht].
Defined.

End AssemblerLatest.

Section AssemblerStats.
Import Gold.

Lemma elem_of_nonempty_or_filter {A} (f : A -> bool) (pts : list A) (x : A) :
  x ∈ nonempty_or (List.filter f pts) pts ->
  x ∈ pts /\ (List.filter f pts <> [] -> f x = true).
Proof.
  rewrite nonempty_or_spec. case_bool_decide as Hnil; intros Hx.
  - split; [exact Hx|]. contradiction.
  - apply list_elem_of_In, filter_In in Hx as [Hx Hf].
    split; [apply list_elem_of_In; exact Hx|]. intros _. exact Hf.
Qed.

(** The slice of a recent range. *)
Lemma sliceRange_recent (points : list GoldPoint) (range_ : GoldRangeConfig)
    (latest_ : GoldPoint) :
  kind range_ = kind_recent ->
  sliceRange points range_ latest_
  = nonempty_or
      (List.filter (fun point => msec_geb (time point)
                      (msec_sub (time latest_) (Some (default 14 (days range_) * DAY_MS))))
                   points) points.
Proof. intros Hk. destruct points; unfold sliceRange; rewrite ?Hk; reflexivity. Qed.

(** X8. For a recent range of at most 365 days, the statistics of the trailing
    year enclose those of the range: the range low is not below the
    52-week low and the range high is not above the 52-week high. *)
Theorem getGoldData_year_encloses_range (goldSeries : GoldSeriesFile)
    (range_ : GoldRangeConfig) (unit_ : GoldUnit) (data : GoldData) :
  getGoldData goldSeries range_ unit_ = Ok data ->
  kind range_ = kind_recent -> 0 <= default 14 (days range_) <= 365 ->
  (low (rangeStats data) <? low (yearStats data))%float = false /\
  (high (yearStats data) <? high (rangeStats data))%float = false.
Proof.
  intros Hg Hk Hd.
  destruct (getGoldData_inv _ _ _ _ Hg)
    as (series & latest_ & _ & _ & Hl & _ & _ & _ & Hrs & Hys).
  set (points := map (to_unit unit_) series) in *. clearbody points.
  assert (points <> []) as Hne by (intros Hnil; rewrite Hnil in Hl; discriminate).
  assert (latest_ ∈ points) as Hin by (apply last_Some_elem_of; exact Hl).
  rewrite (sliceRange_recent points range_ latest_ Hk) in Hrs.
  rewrite (sliceRange_recent points year_range latest_ eq_refl) in Hys.
  cbn [days year_range] in Hys.
  set (f := fun point : GoldPoint => msec_geb (time point)
              (msec_sub (time latest_) (Some (default 14 (days range_) * DAY_MS)))) in *.
  set (fy := fun point : GoldPoint => msec_geb (time point)
              (msec_sub (time latest_) (Some (default 14 (Some 365) * DAY_MS)))) in *.
  assert (forall p, p ∈ nonempty_or (List.filter f points) points ->
                    p ∈ nonempty_or (List.filter fy points) points) as Hsub.
  { intros p Hp. apply elem_of_nonempty_or_filter in Hp as [Hp Hf].
    rewrite nonempty_or_spec. case_bool_decide as Hnil; [exact Hp|].
    apply list_elem_of_In, filter_In. split; [apply list_elem_of_In; exact Hp|].
    destruct (time latest_) as [t|] eqn:Ht.
    - assert (f latest_ = true) as Hfl
        by (subst f; cbv beta; rewrite Ht; unfold msec_geb, msec_sub, msec_leb, DAY_MS;
            apply Z.leb_le; lia).
      assert (List.filter f points <> []) as Hfne.
      { intros Hfnil. apply list_elem_of_In in Hin.
        pose proof (proj2 (filter_In f latest_ points) (conj Hin Hfl)) as Hc.
        rewrite Hfnil in Hc. exact Hc. }
      specialize (Hf Hfne). subst f fy. cbv beta in *.
      unfold msec_geb, msec_sub, msec_leb, DAY_MS in *.
      destruct (time p) as [tp|]; [|discriminate].
      apply Z.leb_le in Hf. apply Z.leb_le. cbn [default from_option]. unfold id. lia.
    - exfalso. apply Hnil. clear. induction points as [|q l IH]; [reflexivity|].
      cbn [List.filter]. unfold fy, msec_geb, msec_sub, msec_leb in *.
      destruct (time q); exact IH. }
  destruct (computeHighLow_bounds (nonempty_or (List.filter f points) points))
    as (sr & Hsr & (pl & Hpl & Hel) & (ph & Hph & Heh) & _);
    [apply nonempty_or_nonempty; exact Hne|].
  destruct (computeHighLow_bounds (nonempty_or (List.filter fy points) points))
    as (sy & Hsy & _ & _ & Hall); [apply nonempty_or_nonempty; exact Hne|].
  rewrite Hys, Hrs, Hsr, Hsy. cbn [default from_option]. unfold id.
  rewrite Hel, Heh.
  split; [apply (Hall pl (Hsub pl Hpl))|apply (Hall ph (Hsub ph Hph))].
Qed.

Lemma getGoldData_year_encloses_range_witness :
  exists data,
    getGoldData winter recentRange oz = Ok data /\
    (low (rangeStats data) <? low (yearStats data))%float = false /\
    (high (yearStats data) <? high (rangeStats data))%float = false.
Proof.
  destruct (getGoldData winter recentRange oz) as [data|e] eqn:Hg;
    [|vm_compute in Hg; discriminate].
  exists data. split; [reflexivity|].
  apply (getGoldData_year_encloses_range winter recentRange oz data Hg eq_refl).
  simpl. lia.
Defined.

End AssemblerStats.

(** ** The densifier: order of the input, and a date given twice *)

Section DensifierOrder.
Import Gold.

(** X9. The order of the anchors in the snapshot does not matter: two
    arrangements of the same anchors (dates that are pairwise distinct
    calendar days) densify to the same series. *)
Theorem buildSeriesFromAnchors_any_order (anchors1 anchors2 : list GoldAnchor) :
  anchors1 ≡ₚ anchors2 ->
  Forall valid_date anchors1 -> NoDup (anchor_date <$> anchors1) ->
  buildSeriesFromAnchors anchors1 = buildSeriesFromAnchors anchors2.
Proof.
  intros Hperm Hv1 Hnd1.
  assert (Forall valid_date anchors2) as Hv2 by (rewrite <- Hperm; exact Hv1).
  assert (NoDup (anchor_date <$> anchors2)) as Hnd2 by (rewrite <- Hperm; exact Hnd1).
  pose proof (sort_ascending _ Hv1 (distinct_dates_days _ Hv1 Hnd1)) as Hs1.
  pose proof (sort_ascending _ Hv2 (distinct_dates_days _ Hv2 Hnd2)) as Hs2.
  assert (sort date_after anchors1 = sort date_after anchors2) as Heq.
  { apply (StronglySorted_unique_strong (fun a b => day_of a < day_of b));
      [intros x1 x2 _ _ H12 H21; lia|exact Hs1|exact Hs2|].
    rewrite !sort_perm. exact Hperm. }
  rewrite !buildSeriesFromAnchors_ok, Heq. reflexivity.
Qed.

Lemma buildSeriesFromAnchors_any_order_witness :
  buildSeriesFromAnchors two_anchors = buildSeriesFromAnchors (rev two_anchors).
Proof.
  apply buildSeriesFromAnchors_any_order.
  - apply Permutation_swap.
  - repeat constructor; eexists; vm_compute; reflexivity.
  - vm_compute. repeat constructor; intros H;
      repeat (apply elem_of_cons in H as [H|H]; [discriminate|]);
      apply elem_of_nil in H; exact H.
Defined.

(** X10. Two anchors with the same date: the span is taken as one day, so the
    series has a point for the date, with the first anchor's value at
    ratio 0, and a point for the day after, which no anchor names, with
    the value at ratio 1. *)
Theorem buildSeriesFromAnchors_same_date (a b : GoldAnchor) (t : Z) :
  Date_parse (anchor_date a) = Some t -> anchor_date b = anchor_date a ->
  buildSeriesFromAnchors [a; b]
  = Ok [ {| date := iso_date t;
            value := (anchor_value a + (anchor_value b - anchor_value a) * 0)%float;
            time := Some t |};
         {| date := iso_date (t + 86400000);
            value := (anchor_value a + (anchor_value b - anchor_value a))%float;
            time := Some (t + 86400000) |} ].
Proof.
  intros Ht Hb. rewrite buildSeriesFromAnchors_ok.
  assert (date_after a b = false) as Hab.
  { unfold date_after. rewrite Hb, Ht. cbn [msec_sub]. rewrite Z.sub_diag. reflexivity. }
  cbn [sort sort_insert]. rewrite Hab.
  rewrite segments_cons. cbn [segments]. rewrite app_nil_r.
  unfold segment. rewrite Hb, Ht.
  rewrite Z.sub_diag. change (round_div 0 DAY_MS) with 0. change (Z.max 1 0) with 1.
  rewrite emitted_days_first. change (seqZ 0 (1 + 1)) with [0; 1].
  cbn [map]. unfold interpolated.
  change ((1 =? 0)%Z) with false. cbv iota.
  change (t + 0 * DAY_MS) with (t + 0). change (t + 1 * DAY_MS) with (t + 86400000).
  rewrite Z.add_0_r.
  assert ((number_of_Z 0 / number_of_Z 1)%float = 0%float) as -> by reflexivity.
  assert ((number_of_Z 1 / number_of_Z 1)%float = 1%float) as -> by reflexivity.
  rewrite mul_one_r. reflexivity.
Qed.

Lemma buildSeriesFromAnchors_same_date_witness :
  exists p q,
    buildSeriesFromAnchors
      [ {| anchor_date := "2024-02-29"; anchor_value := 2000%float |};
        {| anchor_date := "2024-02-29"; anchor_value := 2100%float |} ] = Ok [p; q] /\
    date p = "2024-02-29"%string /\ date q = "2024-03-01"%string /\
    value q = 2100%float.
Proof.
  eexists _, _. split.
  - apply (buildSeriesFromAnchors_same_date
             {| anchor_date := "2024-02-29"; anchor_value := 2000%float |}
             {| anchor_date := "2024-02-29"; anchor_value := 2100%float |}
             1709164800000); reflexivity.
  - split; [vm_compute; reflexivity|]. split; vm_compute; reflexivity.
Defined.

End DensifierOrder.

(** ** The date helpers of the live library *)

Section LiveDates.
Import Gold Live.

(** X11. Formatting a time as an ISO date and parsing the date back gives UTC
    midnight of the day of that time, for every time of the years 0 to
    9999. *)
Theorem parseIsoDate_formatIsoDate (t : Z) :
  -62167219200000 <= t <= 253402300799999 ->
  bind (formatIsoDate (Some t)) (fun value_ => Ok (parseIsoDate value_))
  = Ok (Some (t / 86400000 * 86400000)).
Proof.
  intros Ht. unfold formatIsoDate, toISOString, parseIsoDate.
  assert ((Z.abs t <=? maxTime) = true) as -> by (apply Z.leb_le; unfold maxTime; lia).
  cbn [bind]. change (substring 0 10 (iso_string t)) with (iso_date t).
  assert (-719528 <= t / msPerDay <= 2932896) as Hday.
  { unfold msPerDay. split.
    - apply Z.div_le_lower_bound; lia.
    - apply Z.lt_succ_r. apply Z.div_lt_upper_bound; lia. }
  rewrite iso_date_midnight, Date_parse_iso_date by exact Hday. reflexivity.
Qed.

Lemma parseIsoDate_formatIsoDate_witness :
  bind (formatIsoDate (Some 1704456000000)) (fun value_ => Ok (parseIsoDate value_))
  = Ok (Some 1704412800000).
Proof. apply (parseIsoDate_formatIsoDate 1704456000000). lia. Defined.

(** X12. [diffDaysInclusive] counts the days [addDays] moves by: from a date to
    the date [k] days later there are [k + 1] days, both ends counted, and
    1 day when [k] is negative; with an invalid date on either side the
    count is 0. Moving by [a] and then by [b] days is moving by [a + b]. *)
Theorem diffDaysInclusive_addDays (t a b : Z) :
  Z.abs t <= maxTime -> Z.abs (t + a * 86400000) <= maxTime ->
  Z.abs (t + (a + b) * 86400000) <= maxTime ->
  diffDaysInclusive (Some t) (addDays (Some t) a) = Z.max 0 a + 1 /\
  addDays (addDays (Some t) a) b = addDays (Some t) (a + b) /\
  addDays (Some t) (a + b) = Some (t + (a + b) * 86400000) /\
  (forall d, diffDaysInclusive None d = 0 /\ diffDaysInclusive d None = 0).
Proof.
  intros Ht Ha Hab.
  assert (forall k, Z.abs (t + k * 86400000) <= maxTime ->
                    addDays (Some t) k = Some (t + k * 86400000)) as Hadd.
  { intros k Hk. unfold addDays, TimeClip.
    replace (t + k * 24 * 60 * 60 * 1000) with (t + k * 86400000) by lia.
    apply Z.leb_le in Hk. rewrite Hk. reflexivity. }
  rewrite (Hadd a Ha), (Hadd (a + b) Hab).
  split; [|split; [|split]].
  - unfold diffDaysInclusive.
    replace (t + a * 86400000 - t) with (a * (24 * 60 * 60 * 1000)) by lia.
    rewrite round_div_exact by lia. reflexivity.
  - unfold addDays, TimeClip.
    replace (t + a * 86400000 + b * 24 * 60 * 60 * 1000)
      with (t + (a + b) * 86400000) by lia.
    apply Z.leb_le in Hab. rewrite Hab. reflexivity.
  - reflexivity.
  - intros d. split; [reflexivity|]. destruct d; reflexivity.
Qed.

Lemma diffDaysInclusive_addDays_witness :
  diffDaysInclusive (Some 1704067200000) (addDays (Some 1704067200000) 13) = 14.
Proof.
  destruct (diffDaysInclusive_addDays 1704067200000 13 (-13)) as [H _];
    [unfold maxTime; lia..|exact H].
Defined.

End LiveDates.

(** ** The request windows of the live library *)

Section Chunks.
Import Gold Live.

Lemma formatIsoDate_ok (t : Z) :
  Z.abs t <= maxTime -> formatIsoDate (Some t) = Ok (iso_date t).
Proof.
  intros Ht. unfold formatIsoDate, toISOString. apply Z.leb_le in Ht. rewrite Ht. reflexivity.
Qed.

Lemma addDays_ok (t k : Z) :
  Z.abs (t + k * 86400000) <= maxTime -> addDays (Some t) k = Some (t + k * 86400000).
Proof.
  intros Hk. unfold addDays, TimeClip.
  replace (t + k * 24 * 60 * 60 * 1000) with (t + k * 86400000) by lia.
  apply Z.leb_le in Hk. rewrite Hk. reflexivity.
Qed.

Lemma chunk_loop_spec (s n maxDaysInclusive : Z) :
  0 <= n -> 1 <= maxDaysInclusive ->
  - maxTime <= s -> s + (n + maxDaysInclusive) * 86400000 <= maxTime ->
  forall (k : nat) (c : Z) (chunks : list Chunk) (fuel : nat),
  0 <= c <= n + 1 ->
  Z.of_nat k = (if c <=? n then (n - c) / maxDaysInclusive + 1 else 0) ->
  (k < fuel)%nat ->
  chunk_loop fuel (Some (s + c * 86400000)) (Some (s + n * 86400000)) maxDaysInclusive chunks
  = Some (Ok (chunks ++ chunks_from s n maxDaysInclusive c (Z.of_nat k))).
Proof.
  intros Hn Hmax Hlo Hhi k.
  induction k as [|k IH]; intros c chunks fuel Hc Hk Hfuel;
    (destruct fuel as [|fuel]; [lia|]); cbn [chunk_loop msec_leb].
  - destruct (Z.leb_spec c n) as [Hcn|Hcn].
    { assert (0 <= (n - c) / maxDaysInclusive) by (apply Z.div_pos; lia). lia. }
    destruct (Z.leb_spec (s + c * 86400000) (s + n * 86400000)); [lia|].
    unfold chunks_from. cbn. rewrite app_nil_r. reflexivity.
  - destruct (Z.leb_spec c n) as [Hcn|Hcn]; [|lia].
    destruct (Z.leb_spec (s + c * 86400000) (s + n * 86400000)); [|lia].
    unfold maxTime in *.
    rewrite (addDays_ok (s + c * 86400000) (maxDaysInclusive - 1)) by (unfold maxTime; lia).
    cbn [msec_gtb].
    rewrite (formatIsoDate_ok (s + c * 86400000)) by (unfold maxTime; lia).
    match goal with
    | |- context [formatIsoDate ?be] =>
        assert (be
                = Some (s + Z.min n (c + maxDaysInclusive - 1) * 86400000)) as ->
          by (destruct (Z.ltb_spec (s + n * 86400000)
                          (s + c * 86400000 + (maxDaysInclusive - 1) * 86400000));
              f_equal; lia)
    end.
    rewrite (formatIsoDate_ok (s + Z.min n (c + maxDaysInclusive - 1) * 86400000))
      by (unfold maxTime; lia).
    rewrite (addDays_ok _ 1) by (unfold maxTime; lia).
    replace (s + Z.min n (c + maxDaysInclusive - 1) * 86400000 + 1 * 86400000)
      with (s + (Z.min n (c + maxDaysInclusive - 1) + 1) * 86400000) by lia.
    assert ((n - c) / maxDaysInclusive = Z.of_nat k) as Hq by lia.
    rewrite (IH (Z.min n (c + maxDaysInclusive - 1) + 1)); [| | |lia].
    + rewrite <- app_assoc. f_equal. f_equal. unfold chunks_from.
      replace (Z.of_nat (S k)) with (Z.succ (Z.of_nat k)) by lia.
      rewrite (seqZ_cons 0 (Z.succ (Z.of_nat k))) by lia.
      cbn [fmap list_fmap app]. cbv beta. f_equal. f_equal.
      * replace (c + 0 * maxDaysInclusive) with c by lia. reflexivity.
      * replace (Z.pred (Z.succ (Z.of_nat k))) with (Z.of_nat k) by lia.
        change (Z.succ 0) with (1 + 0).
        rewrite <- (fmap_add_seqZ 1 0). rewrite <- list_fmap_compose.
        destruct k as [|k]; [reflexivity|].
        assert (c + maxDaysInclusive <= n) as Hle.
        { destruct (Z.le_gt_cases (c + maxDaysInclusive) n) as [|Hgt]; [assumption|].
          rewrite Z.div_small in Hq by lia. lia. }
        rewrite Z.min_r by lia.
        apply list_fmap_ext. intros _ i _. unfold compose. cbv beta. f_equal; f_equal; lia.
    + lia.
    + destruct (Z.le_gt_cases (c + maxDaysInclusive) n) as [Hle|Hgt].
      * rewrite Z.min_r by lia.
        destruct (Z.leb_spec (c + maxDaysInclusive - 1 + 1) n); [|lia].
        replace (n - (c + maxDaysInclusive - 1 + 1)) with (n - c + (-1) * maxDaysInclusive) by lia.
        rewrite Z.div_add by lia. lia.
      * rewrite Z.min_l by lia. destruct (Z.leb_spec (n + 1) n); [lia|].
        rewrite Z.div_small in Hq by lia. lia.
Qed.

(** X13. [buildTimeframeChunks] with a limit of at least one day terminates
    and cuts the window into consecutive chunks that cover it: chunk [i]
    starts [i * maxDaysInclusive] days after the start and ends
    [maxDaysInclusive - 1] days later, the last one with the window; there
    are [(n + maxDaysInclusive) / maxDaysInclusive] chunks, the least
    number that covers [n + 1] days. *)
Theorem buildTimeframeChunks_covers (s n maxDaysInclusive : Z) :
  0 <= n -> 1 <= maxDaysInclusive ->
  - maxTime <= s -> s + (n + maxDaysInclusive) * 86400000 <= maxTime ->
  exists fuel0, forall fuel, (fuel0 <= fuel)%nat ->
    buildTimeframeChunks fuel (Some s) (Some (s + n * 86400000)) maxDaysInclusive
    = Some (Ok (chunks_of s n maxDaysInclusive)).
Proof.
  intros Hn Hmax Hlo Hhi.
  assert (0 <= n / maxDaysInclusive) as Hq by (apply Z.div_pos; lia).
  exists (S (Z.to_nat (n / maxDaysInclusive + 1))). intros fuel Hfuel.
  unfold buildTimeframeChunks, chunks_of.
  pose proof (chunk_loop_spec s n maxDaysInclusive Hn Hmax Hlo Hhi
                (Z.to_nat (n / maxDaysInclusive + 1)) 0 [] fuel) as H.
  rewrite Z.mul_0_l, Z.add_0_r in H. rewrite H.
  - cbn [app]. do 3 f_equal.
    replace (n + maxDaysInclusive) with (n + 1 * maxDaysInclusive) by lia.
    rewrite Z.div_add by lia. lia.
  - lia.
  - destruct (Z.leb_spec 0 n); [|lia]. rewrite Z.sub_0_r. lia.
  - lia.
Qed.

(** The fourteen days the dashboard asks for, in chunks of five. *)
Lemma buildTimeframeChunks_covers_witness :
  exists fuel0, forall fuel, (fuel0 <= fuel)%nat ->
    buildTimeframeChunks fuel (Some 1703289600000) (Some (1703289600000 + 13 * 86400000)) 5
    = Some (Ok [ {| chunk_start := "2023-12-23"; chunk_end := "2023-12-27" |};
                 {| chunk_start := "2023-12-28"; chunk_end := "2024-01-01" |};
                 {| chunk_start := "2024-01-02"; chunk_end := "2024-01-05" |} ]).
Proof.
  destruct (buildTimeframeChunks_covers 1703289600000 13 5) as [fuel0 H];
    [lia|lia|unfold maxTime; lia|unfold maxTime; lia|].
  exists fuel0. intros fuel Hfuel. rewrite (H fuel Hfuel). vm_compute. reflexivity.
Defined.

(** X14. With a limit of zero days the loop never ends: every turn pushes a
    chunk that ends the day before it starts and leaves the cursor where
    it was. *)
Theorem buildTimeframeChunks_zero_diverges (s e : Z) (fuel : nat) :
  s <= e -> - maxTime + 86400000 <= s -> e <= maxTime ->
  buildTimeframeChunks fuel (Some s) (Some e) 0 = None.
Proof.
  intros Hse Hlo Hhi. unfold buildTimeframeChunks. generalize (@nil Chunk).
  induction fuel as [|fuel IH]; intros chunks; [reflexivity|].
  cbn [chunk_loop msec_leb]. destruct (Z.leb_spec s e); [|lia].
  rewrite (addDays_ok s (0 - 1)) by (unfold maxTime in *; lia). cbn [msec_gtb].
  destruct (Z.ltb_spec e (s + (0 - 1) * 86400000)); [lia|].
  rewrite !formatIsoDate_ok by (unfold maxTime in *; lia).
  rewrite (addDays_ok _ 1) by (unfold maxTime in *; lia).
  replace (s + (0 - 1) * 86400000 + 1 * 86400000) with s by lia.
  apply IH.
Qed.

Lemma buildTimeframeChunks_zero_diverges_witness :
  buildTimeframeChunks 1000 (Some 1704067200000) (Some 1704412800000) 0 = None.
Proof.
  apply buildTimeframeChunks_zero_diverges; unfold maxTime; lia.
Defined.

End Chunks.

(** ** [fetchGoldSeries]: the error and the headline figures *)

Section FetchMore.
Import Gold Live.

(** The raw values of the window, and what the search for the first known
    value finds among them. *)
Lemma window_lookup (s n : Z) (i : nat) :
  Z.of_nat i <= n ->
  window s (n + 1) !! i
  = Some {| item_date := iso_date (s + Z.of_nat i * 86400000);
            item_time := Some (s + Z.of_nat i * 86400000) |}.
Proof.
  intros Hi. unfold window. rewrite list_lookup_fmap, lookup_seqZ_lt by lia. reflexivity.
Qed.

Lemma window_length (s n : Z) : length (window s (n + 1)) = Z.to_nat (n + 1).
Proof. unfold window. rewrite length_fmap, length_seqZ. reflexivity. Qed.

Lemma series_of_rates_dates (unit_ : GoldUnit) (safeDays s n : Z)
    (perDayUsd : gmap string float) :
  0 <= n -> - maxTime <= s -> s + n * 86400000 <= maxTime ->
  mapM (fun index =>
          let day := addDays (Some s) index in
          bind (formatIsoDate day) (fun d => Ok {| item_date := d; item_time := day |}))
       (seqZ 0 (diffDaysInclusive (Some s) (Some (s + n * 86400000))))
  = Ok (window s (n + 1)).
Proof.
  intros Hn Hlo Hhi.
  assert (diffDaysInclusive (Some s) (Some (s + n * 86400000)) = n + 1) as ->.
  { unfold diffDaysInclusive.
    replace (s + n * 86400000 - s) with (n * (24 * 60 * 60 * 1000)) by lia.
    rewrite round_div_exact by lia. lia. }
  rewrite window_ok by (intros index Hi; apply elem_of_seqZ in Hi; unfold maxTime in *; lia).
  reflexivity.
Qed.

(** X15. [fetchGoldSeries] fails exactly when no day of the window has an
    observed rate, and then with the error "MetalpriceAPI returned no
    points for selected range"; it raises no other error. *)
Theorem fetchGoldSeries_no_points (unit_ : GoldUnit) (days_ now : Z)
    (perDayUsd : gmap string float) :
  0 <= now <= 253402300799999 -> days_ <= 100000000 ->
  let n := Z.max 2 days_ - 1 in
  let s := (now / 86400000 - n) * 86400000 in
  forall e,
    fetchGoldSeries unit_ days_ now perDayUsd = Thrown e <->
    e = Error "MetalpriceAPI returned no points for selected range" /\
    forall j, Z.of_nat j <= n -> observed perDayUsd s j = None.
Proof.
  intros Hnow Hdays n s e.
  rewrite fetchGoldSeries_window by assumption. fold n. fold s.
  assert (0 <= now / 86400000) as Hday by (apply Z.div_pos; lia).
  assert (now / 86400000 * 86400000 <= now) as Hfloor
    by (rewrite Z.mul_comm; apply Z.mul_div_le; lia).
  assert (0 <= n) as Hn by (subst n; lia).
  assert (- maxTime <= s) as Hlo by (subst s n; unfold maxTime; lia).
  assert (s + n * 86400000 <= maxTime) as Hhi by (subst s n; unfold maxTime; lia).
  clearbody s n.
  set (rawValues := map (fun item => perDayUsd !! item_date item) (window s (n + 1))).
  assert (forall i, Z.of_nat i <= n -> rawValues !! i = Some (observed perDayUsd s i)) as Hraw.
  { intros i Hi. unfold rawValues. change (map ?f ?l) with (f <$> l).
    rewrite list_lookup_fmap, (window_lookup s n i Hi). reflexivity. }
  pose proof (find_first (fun value_ : option float => bool_decide (is_Some value_)) rawValues)
    as Hfind.
  destruct (List.find _ rawValues) as [x|] eqn:Hf.
  - destruct Hfind as (j & Hj & Hx & _). apply bool_decide_eq_true in Hx as [v ->].
    assert (Z.of_nat j <= n) as Hjn.
    { apply lookup_lt_Some in Hj. unfold rawValues in Hj.
      rewrite length_map, window_length in Hj. lia. }
    rewrite Hraw in Hj by exact Hjn. inversion Hj as [Hobs].
    destruct (series_of_rates_filled unit_ (Z.max 2 days_) s n perDayUsd Hn Hlo Hhi)
      as (series & _ & _ & Hs & _); [exists j, v; split; [exact Hjn|exact Hobs]|].
    rewrite Hs. split; [discriminate|].
    intros [_ Hnone]. rewrite (Hnone j Hjn) in Hobs. discriminate.
  - unfold series_of_rates. rewrite series_of_rates_dates by assumption.
    cbn [bind]. fold rawValues. rewrite Hf.
    split.
    + intros H. inversion H. split; [reflexivity|].
      intros j Hj. specialize (Hfind (observed perDayUsd s j)).
      rewrite bool_decide_eq_false in Hfind.
      destruct (observed perDayUsd s j) as [v|] eqn:Hobs; [|reflexivity].
      exfalso. apply Hfind; [|eexists; reflexivity].
      apply list_elem_of_lookup. exists j. rewrite Hraw by exact Hj. rewrite Hobs. reflexivity.
    + intros [-> _]. reflexivity.
Qed.

Lemma fetchGoldSeries_no_points_witness :
  fetchGoldSeries oz 5 1704456000000 ∅
  = Thrown (Error "MetalpriceAPI returned no points for selected range").
Proof.
  apply (fetchGoldSeries_no_points oz 5 1704456000000 ∅); [lia|lia|].
  split; [reflexivity|]. intros j _. apply lookup_empty.
Defined.

(** X16. The headline figures of the live view. When [fetchGoldSeries] has an
    observed rate in its window, the series has [max(2, days)] points, the
    last one at UTC midnight of the current day; the price is that of the
    last point, the 24-hour change is the difference to the point before,
    and the change in percent is that difference over the point before,
    times 100, or 0 when the point before is priced 0. *)
Theorem fetchGoldSeries_headline (unit_ : GoldUnit) (days_ now : Z)
    (perDayUsd : gmap string float) :
  0 <= now <= 253402300799999 -> days_ <= 100000000 ->
  let n := Z.max 2 days_ - 1 in
  let s := (now / 86400000 - n) * 86400000 in
  (exists j v, Z.of_nat j <= n /\ observed perDayUsd s j = Some v) ->
  exists series last_ prior,
    fetchGoldSeries unit_ days_ now perDayUsd = Ok series /\
    days series = Z.max 2 days_ /\
    Z.of_nat (length (points series)) = Z.max 2 days_ /\
    last (points series) = Some last_ /\
    points series !! (length (points series) - 2)%nat = Some prior /\
    Live.time last_ = Some (now / 86400000 * 86400000) /\
    timestamp (data series) = Live.time last_ /\
    price (data series) = point_price last_ /\
    change24h (data series) = (point_price last_ - point_price prior)%float /\
    changePercent24h (data series)
      = (if (point_price prior =? 0)%float then 0
         else (point_price last_ - point_price prior) / point_price prior * 100)%float /\
    Live.unit (data series) = unit_ /\
    pricePerGram (data series)
      = match unit_ with
        | g => point_price last_
        | oz => (point_price last_ / 31.1034768)%float
        end.
Proof.
  intros Hnow Hdays n s (jobs & vobs & Hjobs & Hobs).
  rewrite fetchGoldSeries_window by assumption. fold n. fold s.
  assert (0 <= now / 86400000) as Hday by (apply Z.div_pos; lia).
  assert (now / 86400000 * 86400000 <= now) as Hfloor
    by (rewrite Z.mul_comm; apply Z.mul_div_le; lia).
  assert (1 <= n) as Hn by (subst n; lia).
  assert (- maxTime <= s) as Hlo by (subst s n; unfold maxTime; lia).
  assert (s + n * 86400000 <= maxTime) as Hhi by (subst s n; unfold maxTime; lia).
  assert (now / 86400000 * 86400000 = s + n * 86400000) as Htoday by (subst s; lia).
  assert (Z.max 2 days_ = n + 1) as Hsafe by (subst n; lia).
  rewrite Htoday, Hsafe. clearbody s n. clear Htoday Hsafe Hfloor Hday.
  unfold series_of_rates. rewrite series_of_rates_dates by (assumption || lia).
  cbn [bind].
  set (rawValues := map (fun item => perDayUsd !! item_date item) (window s (n + 1))).
  assert (length rawValues = Z.to_nat (n + 1)) as Hlenr
    by (unfold rawValues; rewrite length_map; apply window_length).
  assert (forall i, Z.of_nat i <= n -> rawValues !! i = Some (observed perDayUsd s i)) as Hraw.
  { intros i Hi. unfold rawValues. change (map ?f ?l) with (f <$> l).
    rewrite list_lookup_fmap, (window_lookup s n i Hi). reflexivity. }
  pose proof (find_first (fun value_ : option float => bool_decide (is_Some value_)) rawValues)
    as Hfind.
  destruct (List.find _ rawValues) as [[firstKnown|]|].
  2: { destruct Hfind as (j & _ & Hf & _). apply bool_decide_eq_true in Hf.
       destruct Hf as [? Hf]. discriminate. }
  2: { specialize (Hfind (Some vobs)).
       rewrite bool_decide_eq_false in Hfind. exfalso. apply Hfind; [|eexists; reflexivity].
       apply list_elem_of_lookup. exists jobs. rewrite Hraw by exact Hjobs. rewrite Hobs.
       reflexivity. }
  clear Hfind.
  set (filledValues := fill_loop rawValues firstKnown []).
  assert (length filledValues = Z.to_nat (n + 1)) as Hlenf
    by (unfold filledValues; rewrite fill_loop_length; exact Hlenr).
  set (pointsOz := zip_with _ (window s (n + 1)) filledValues).
  assert (length pointsOz = Z.to_nat (n + 1)) as Hlenp
    by (unfold pointsOz; rewrite length_zip_with, window_length; lia).
  assert (forall i, Z.of_nat i <= n ->
            exists filled, pointsOz !! i
              = Some {| oz_date := iso_date (s + Z.of_nat i * 86400000);
                        oz_time := Some (s + Z.of_nat i * 86400000);
                        pricePerOz := filled |}) as Hoz.
  { intros i Hi. destruct (lookup_lt_is_Some_2 filledValues i ltac:(lia)) as [filled Hf].
    exists filled. unfold pointsOz.
    rewrite lookup_zip_with, (window_lookup s n i Hi), Hf. reflexivity. }
  destruct (Hoz (Z.to_nat n) ltac:(lia)) as (vl & Hpl).
  destruct (Hoz (Z.to_nat n - 1)%nat ltac:(lia)) as (vp & Hpp).
  assert (last pointsOz = Some {| oz_date := iso_date (s + n * 86400000);
                                  oz_time := Some (s + n * 86400000);
                                  pricePerOz := vl |}) as Hlast.
  { rewrite last_lookup, Hlenp.
    replace (pred (Z.to_nat (n + 1))) with (Z.to_nat n) by lia.
    rewrite Hpl. do 3 f_equal; lia. }
  rewrite Hlast.
  assert ((2 <=? length pointsOz)%nat = true) as -> by (apply Nat.leb_le; lia).
  replace (length pointsOz - 2)%nat with (Z.to_nat n - 1)%nat by lia.
  rewrite Hpp. cbn [option_map pricePerOz oz_time].
  eexists _, {| Live.time := Some (s + n * 86400000);
                point_price := convertPrice vl unit_ |},
             {| Live.time := Some (s + Z.of_nat (Z.to_nat n - 1) * 86400000);
                point_price := convertPrice vp unit_ |}.
  split; [reflexivity|]. cbn [days points data].
  rewrite length_map, Hlenp.
  split; [reflexivity|]. split; [lia|].
  split.
  { change (map ?f ?l) with (f <$> l). rewrite fmap_last, Hlast. reflexivity. }
  split.
  { replace (Z.to_nat (n + 1) - 2)%nat with (Z.to_nat n - 1)%nat by lia.
    change (map ?f ?l) with (f <$> l). rewrite list_lookup_fmap, Hpp. reflexivity. }
  cbn [Live.time point_price timestamp price change24h changePercent24h Live.unit
       pricePerGram].
  repeat split; try reflexivity.
  destruct unit_; reflexivity.
Qed.

Lemma fetchGoldSeries_headline_witness :
  exists series,
    fetchGoldSeries g 5 1704456000000 sample_rates = Ok series /\
    price (data series) = (2060 / 31.1034768)%float /\
    change24h (data series) = (2060 / 31.1034768 - 2060 / 31.1034768)%float /\
    pricePerGram (data series) = price (data series).
Proof.
  destruct (fetchGoldSeries_headline g 5 1704456000000 sample_rates)
    as (series & last_ & prior & Hs & _ & _ & Hl & Hp & _ & _ & Hprice & Hch & _ & _ & Hg);
    [lia|lia| |].
  - exists 1%nat, 2040%float. split; [lia|]. vm_compute. reflexivity.
  - exists series. split; [exact Hs|].
    rewrite Hprice, Hch, Hg. clear Hprice Hch Hg.
    vm_compute in Hs. inversion Hs; subst series; clear Hs.
    vm_compute in Hl. inversion Hl; subst last_.
    vm_compute in Hp. inversion Hp; subst prior.
    repeat split; reflexivity.
Defined.

(** X17. The result depends on the clock only through the current day. *)
Theorem fetchGoldSeries_same_day (unit_ : GoldUnit) (days_ now now' : Z)
    (perDayUsd : gmap string float) :
  0 <= now <= 253402300799999 -> 0 <= now' <= 253402300799999 ->
  days_ <= 100000000 -> now / 86400000 = now' / 86400000 ->
  fetchGoldSeries unit_ days_ now perDayUsd = fetchGoldSeries unit_ days_ now' perDayUsd.
Proof.
  intros Hnow Hnow' Hdays Heq.
  rewrite !fetchGoldSeries_window by assumption. rewrite Heq. reflexivity.
Qed.

Lemma fetchGoldSeries_same_day_witness :
  fetchGoldSeries oz 5 1704412800000 sample_rates
  = fetchGoldSeries oz 5 1704499199999 sample_rates.
Proof. apply fetchGoldSeries_same_day; [lia|lia|lia|reflexivity]. Defined.

End FetchMore.

(** ** The links of the dashboard *)

Section Hrefs.
Import Gold.

Lemma form_encode_cons (c : ascii) (r : string) :
  form_encode (String c r) = (form_encode_char c ++ form_encode r)%string.
Proof. reflexivity. Qed.

Lemma form_decode_char (c : ascii) (r : string) :
  form_decode (form_encode_char c ++ r) = String c (form_decode r).
Proof. destruct c as [[] [] [] [] [] [] [] []]; reflexivity. Qed.

Lemma form_decode_encode (s : string) : form_decode (form_encode s) = s.
Proof.
  induction s as [|c s IH]; [reflexivity|].
  rewrite form_encode_cons, form_decode_char, IH. reflexivity.
Qed.

Lemma form_encode_inj (s1 s2 : string) : form_encode s1 = form_encode s2 -> s1 = s2.
Proof.
  intros H. apply (f_equal form_decode) in H. rewrite !form_decode_encode in H. exact H.
Qed.

Lemma has_char_app (c : ascii) (s1 s2 : string) :
  has_char c (s1 ++ s2) = has_char c s1 || has_char c s2.
Proof.
  induction s1 as [|c1 s1 IH]; [reflexivity|].
  change (String c1 s1 ++ s2)%string with (String c1 (s1 ++ s2)).
  cbn [has_char]. rewrite IH, orb_assoc. reflexivity.
Qed.

Lemma form_encode_no_ampersand (s : string) : has_char "&" (form_encode s) = false.
Proof.
  induction s as [|c s IH]; [reflexivity|].
  rewrite form_encode_cons, has_char_app, IH, orb_false_r.
  destruct c as [[] [] [] [] [] [] [] []]; reflexivity.
Qed.

Lemma form_encode_plain (s : string) : plain_key s = true -> form_encode s = s.
Proof.
  induction s as [|c s IH]; [reflexivity|].
  cbn [plain_key]. intros H. apply andb_prop in H as [Hc Hs].
  rewrite form_encode_cons, (IH Hs).
  destruct c as [[] [] [] [] [] [] [] []]; try discriminate Hc; reflexivity.
Qed.

Lemma buildHref_cases (rangeKey : string) (unit_ : GoldUnit) :
  buildHref rangeKey unit_
  = match String.eqb rangeKey "recent", unit_ with
    | true, oz => "/"
    | true, g => "/?unit=g"
    | false, oz => "/?range=" ++ form_encode rangeKey
    | false, g => "/?range=" ++ form_encode rangeKey ++ "&unit=g"
    end%string.
Proof.
  unfold buildHref. change (key recentRange) with "recent"%string.
  destruct (String.eqb rangeKey "recent"), unit_; reflexivity.
Qed.

Lemma length_append (s1 s2 : string) :
  String.length (s1 ++ s2) = (String.length s1 + String.length s2)%nat.
Proof.
  induction s1 as [|c s1 IH]; [reflexivity|].
  change (String c s1 ++ s2)%string with (String c (s1 ++ s2)).
  cbn [String.length]. rewrite IH. reflexivity.
Qed.

Lemma append_cancel_r (s1 s2 t : string) : (s1 ++ t = s2 ++ t)%string -> s1 = s2.
Proof.
  revert s2. induction s1 as [|c1 s1 IH]; intros [|c2 s2] H.
  - reflexivity.
  - apply (f_equal String.length) in H.
    change (String c2 s2 ++ t)%string with (String c2 (s2 ++ t)) in H.
    change (EmptyString ++ t)%string with t in H.
    cbn [String.length] in H. rewrite length_append in H. lia.
  - apply (f_equal String.length) in H.
    change (String c1 s1 ++ t)%string with (String c1 (s1 ++ t)) in H.
    change (EmptyString ++ t)%string with t in H.
    cbn [String.length] in H. rewrite length_append in H. lia.
  - change (String c1 s1 ++ t)%string with (String c1 (s1 ++ t)) in H.
    change (String c2 s2 ++ t)%string with (String c2 (s2 ++ t)) in H.
    injection H as -> H. rewrite (IH _ H). reflexivity.
Qed.

Lemma append_empty_r (s : string) : (s ++ "")%string = s.
Proof.
  induction s as [|c s IH]; [reflexivity|].
  change (String c s ++ "")%string with (String c (s ++ "")). rewrite IH. reflexivity.
Qed.

Lemma range_prefix (q : string) :
  ("/?range=" ++ q)%string
  = String "/" (String "?" (String "r" (String "a" (String "n" (String "g" (String "e"
      (String "=" q))))))).
Proof. reflexivity. Qed.

(** X18. Different pages have different links: for range keys made of code
    units up to U+00FF (the strings of this development), two calls of
    [buildHref] that differ in the range key or in the unit give different
    links. A key cannot pass for another key and a unit, because the
    serializer escapes [&] and [=]. Keys with an unpaired surrogate are
    outside this statement: the serializer writes each of them as U+FFFD. *)
Theorem buildHref_injective (key1 key2 : string) (unit1 unit2 : GoldUnit) :
  key1 <> key2 \/ unit1 <> unit2 -> buildHref key1 unit1 <> buildHref key2 unit2.
Proof.
  intros Hdiff Heq.
  assert (key1 = key2 /\ unit1 = unit2) as [Hk Hu]; [|destruct Hdiff; contradiction].
  revert Heq. rewrite !buildHref_cases.
  destruct (String.eqb_spec key1 "recent") as [->|Hk1],
           (String.eqb_spec key2 "recent") as [->|Hk2], unit1, unit2;
    rewrite ?range_prefix;
    intros H; try discriminate H; try (split; reflexivity);
    injection H as H;
    try (apply form_encode_inj in H; subst; split; reflexivity).
  - apply (f_equal (has_char "&")) in H.
    rewrite has_char_app, !form_encode_no_ampersand in H. discriminate.
  - apply (f_equal (has_char "&")) in H.
    rewrite has_char_app, !form_encode_no_ampersand in H. discriminate.
  - apply append_cancel_r, form_encode_inj in H. subst. split; reflexivity.
Qed.

(** The key "a&unit=g" in ounces against the key "a" in grams, and the key
    of the one letter U+00E9 against the key of the two code units of its
    UTF-8 form. *)
Lemma buildHref_injective_witness :
  buildHref "a" g = "/?range=a&unit=g"%string /\
  buildHref "a&unit=g" oz = "/?range=a%26unit%3Dg"%string /\
  buildHref "a&unit=g" oz <> buildHref "a" g /\
  buildHref (String (ascii_of_nat 233) EmptyString) oz
    <> buildHref (String (ascii_of_nat 195) (String (ascii_of_nat 169) EmptyString)) oz.
Proof.
  split; [reflexivity|]. split; [reflexivity|]. split.
  - apply (buildHref_injective "a&unit=g" "a" oz g). right. discriminate.
  - apply buildHref_injective. left. discriminate.
Defined.

(** X19. A key written with letters, digits and [* - . _] only, as the keys of
    well-formed ranges are, appears in the link as it is:
    [/?range=KEY], followed by [&unit=g] for grams. For the default range
    the link is the one of the live dashboard: [/] for ounces and
    [/?unit=g] for grams. *)
Theorem buildHref_plain (rangeKey : string) (unit_ : GoldUnit) :
  buildHref "recent" unit_ = Dashboard.buildHref unit_ /\
  (plain_key rangeKey = true -> rangeKey <> "recent"%string ->
   buildHref rangeKey unit_
   = ("/?range=" ++ rangeKey ++ match unit_ with oz => "" | g => "&unit=g" end)%string).
Proof.
  split; [destruct unit_; reflexivity|].
  intros Hp Hne. rewrite buildHref_cases.
  apply String.eqb_neq in Hne. rewrite Hne, (form_encode_plain _ Hp).
  destruct unit_; [|reflexivity].
  rewrite append_empty_r. reflexivity.
Qed.

End Hrefs.

(** ** Units and ranges *)

Section UnitsAndRanges.
Import Gold.

Lemma filter_map_comm {A B} (f : B -> bool) (h : A -> B) (l : list A) :
  List.filter f (map h l) = map h (List.filter (fun a => f (h a)) l).
Proof.
  induction l as [|a l IH]; [reflexivity|]. cbn [map List.filter].
  destruct (f (h a)); cbn [map]; rewrite IH; reflexivity.
Qed.

Lemma nonempty_or_map {A B} (h : A -> B) (sliced pts : list A) :
  nonempty_or (map h sliced) (map h pts) = map h (nonempty_or sliced pts).
Proof. destruct sliced; reflexivity. Qed.

(** X20. Slicing and unit conversion commute: the days a range selects do not
    depend on the unit, so the slice of the converted series is the
    converted slice of the series. *)
Theorem sliceRange_to_unit (unit_ : GoldUnit) (points : list GoldPoint)
    (range_ : GoldRangeConfig) (latest_ : GoldPoint) :
  sliceRange (map (to_unit unit_) points) range_ (to_unit unit_ latest_)
  = map (to_unit unit_) (sliceRange points range_ latest_).
Proof.
  destruct points as [|p0 points]; [reflexivity|].
  unfold sliceRange. cbn [map].
  change (to_unit unit_ p0 :: map (to_unit unit_) points)
    with (map (to_unit unit_) (p0 :: points)).
  destruct (kind range_), (truthy (year range_)) as [y|], (truthy (month range_)) as [m|];
    try reflexivity;
    rewrite filter_map_comm, nonempty_or_map; reflexivity.
Qed.

End UnitsAndRanges.

(** ** The labels of the view *)

Section AssemblerLabels.
Import Gold.

Lemma valid_date_nonempty (a : GoldAnchor) : valid_date a -> anchor_date a <> EmptyString.
Proof. intros [t Ht] Heq. rewrite Heq in Ht. discriminate. Qed.

(** X21. The source label is the snapshot's [source], or "Local snapshot" when it
    is empty. The date of the last update is the snapshot's [updatedAt];
    when that is empty it is the date of the anchor that comes last in the
    snapshot, which is the date of the latest point exactly when that
    anchor has the latest date. *)
Theorem getGoldData_lastUpdated (goldSeries : GoldSeriesFile) (range_ : GoldRangeConfig)
    (unit_ : GoldUnit) (data : GoldData) :
  Forall valid_date (anchors goldSeries) -> NoDup (anchor_date <$> anchors goldSeries) ->
  getGoldData goldSeries range_ unit_ = Ok data ->
  sourceLabel data = or_else (source goldSeries) "Local snapshot" /\
  sourceLabel data <> EmptyString /\
  (updatedAt goldSeries <> EmptyString -> lastUpdated data = updatedAt goldSeries) /\
  (updatedAt goldSeries = EmptyString ->
   exists a, last (anchors goldSeries) = Some a /\
     lastUpdated data = anchor_date a /\
     (lastUpdated data = date (latest data) <->
      forall b, b ∈ anchors goldSeries -> day_of b <= day_of a)).
Proof.
  intros Hv Hnd Hg.
  destruct (getGoldData_inv _ _ _ _ Hg) as (series & latest_ & Hne & Hb & Hl & Hlat & _).
  destruct (latest_point_anchor _ _ Hne Hv Hnd Hb) as (z & p & Hz & Hmax & Hp & _ & Hdp).
  assert (date latest_ = anchor_date z) as Hdl.
  { change (map (to_unit unit_) series) with (to_unit unit_ <$> series) in Hl.
    rewrite (last_fmap_Some _ _ _ Hp) in Hl. inversion Hl. exact Hdp. }
  assert (sourceLabel data = or_else (source goldSeries) "Local snapshot" /\
          lastUpdated data
          = or_else (or_else (updatedAt goldSeries)
                       (from_option anchor_date EmptyString (last (anchors goldSeries))))
                    (date latest_)) as [Hsrc Hupd].
  { revert Hg Hl. unfold getGoldData, loadSeriesFile.
    destruct (anchors goldSeries) as [|a0 rest] eqn:Ha; [discriminate|].
    cbn [bind anchors]. rewrite Hb. cbn [bind]. intros Hg Hl. rewrite Hl in Hg.
    inversion Hg. split; reflexivity. }
  split; [exact Hsrc|]. split.
  { rewrite Hsrc. destruct (source goldSeries); discriminate. }
  split.
  - intros Hu. rewrite Hupd. destruct (updatedAt goldSeries); [contradiction|reflexivity].
  - intros Hu. rewrite Hu in Hupd. cbn [or_else] in Hupd.
    destruct (last (anchors goldSeries)) as [a|] eqn:Hlast;
      [|apply last_None in Hlast; contradiction].
    assert (a ∈ anchors goldSeries) as Ha by (apply last_Some_elem_of; exact Hlast).
    assert (valid_date a) as Hva by (rewrite Forall_forall in Hv; apply Hv, Ha).
    assert (valid_date z) as Hvz by (rewrite Forall_forall in Hv; apply Hv, Hz).
    cbn [from_option] in Hupd.
    assert (lastUpdated data = anchor_date a) as Hlu.
    { rewrite Hupd. pose proof (valid_date_nonempty a Hva).
      destruct (anchor_date a); [contradiction|reflexivity]. }
    exists a. split; [reflexivity|]. split; [exact Hlu|].
    rewrite Hlu, Hlat, Hdl. split.
    + intros Heq b Hb'. unfold day_of at 2. rewrite Heq. apply (Hmax b Hb').
    + intros Hall. apply day_of_inj; [exact Hva|exact Hvz|].
      pose proof (Hall z Hz). pose proof (Hmax a Ha). lia.
Qed.

Lemma getGoldData_lastUpdated_witness :
  exists data,
    getGoldData
      {| source := ""; updatedAt := "";
         anchors := [ {| anchor_date := "2024-01-11"; anchor_value := 2100%float |};
                      {| anchor_date := "2024-01-01"; anchor_value := 2000%float |} ] |}
      recentRange oz = Ok data /\
    sourceLabel data = "Local snapshot"%string /\
    lastUpdated data = "2024-01-01"%string /\ date (latest data) = "2024-01-11"%string.
Proof.
  set (gs := {| source := ""; updatedAt := "";
                anchors := [ {| anchor_date := "2024-01-11"; anchor_value := 2100%float |};
                             {| anchor_date := "2024-01-01"; anchor_value := 2000%float |} ] |}).
  assert (Forall valid_date (anchors gs)) as Hv
    by (repeat constructor; eexists; vm_compute; reflexivity).
  assert (NoDup (anchor_date <$> anchors gs)) as Hnd.
  { vm_compute. repeat constructor; intros H;
      repeat (apply elem_of_cons in H as [H|H]; [discriminate|]);
      apply elem_of_nil in H; exact H. }
  destruct (getGoldData gs recentRange oz) as [data|e] eqn:Hg;
    [|vm_compute in Hg; discriminate].
  exists data. split; [reflexivity|].
  destruct (getGoldData_lastUpdated gs recentRange oz data Hv Hnd Hg)
    as (Hsrc & _ & _ & Hupd).
  destruct (Hupd eq_refl) as (a & Ha & Hlu & _).
  inversion Ha; subst a.
  split; [exact Hsrc|]. split; [exact Hlu|].
  vm_compute in Hg. inversion Hg. reflexivity.
Defined.

End AssemblerLabels.

(** ** Month and year ranges on calendar dates *)

Section SliceCalendar.
Import Gold.

(** The text of the ISO date of a day. *)
Lemma iso_date_parts (d : Z) :
  -719528 <= d <= 2932896 ->
  exists y m dd,
    civil_from_days d = (y, m, dd) /\ 0 <= y <= 9999 /\ 1 <= m <= 12 /\ 1 <= dd <= 31 /\
    iso_date (d * msPerDay)
    = (zero_pad 4 y ++ "-" ++ zero_pad 2 m ++ "-" ++ zero_pad 2 dd)%string.
Proof.
  intros Hd. pose proof (civil_from_days_year d Hd) as Hy.
  pose proof (days_from_civil_from_days d) as Hv.
  unfold iso_date, iso_string. rewrite Z.div_mul, Z.mod_mul by (unfold msPerDay; lia).
  destruct (civil_from_days d) as [[y m] dd]. destruct Hv as (Hm & Hdd & _).
  exists y, m, dd. split; [reflexivity|]. split; [exact Hy|]. split; [exact Hm|].
  split.
  { unfold days_in_month in Hdd.
    repeat match type of Hdd with context [if ?b then _ else _] => destruct b end; lia. }
  unfold iso_year. destruct (Z.leb_spec 0 y); [|lia]. destruct (Z.leb_spec y 9999); [|lia].
  cbn [andb]. cbv beta iota fix delta [zero_pad String.append]. reflexivity.
Qed.

(** A date that parses is the ISO date of its day. *)
Lemma Date_parse_is_iso_date (s : string) (t : Z) :
  Date_parse s = Some t ->
  exists d, t = d * msPerDay /\ -719528 <= d <= 2932896 /\ s = iso_date (d * msPerDay).
Proof.
  intros Hs. destruct (Date_parse_range s t Hs) as (d & -> & Hd).
  exists d. split; [reflexivity|]. split; [exact Hd|].
  apply (Date_parse_inj _ _ (d * msPerDay)); [exact Hs|apply Date_parse_iso_date, Hd].
Qed.

Lemma zero_pad_digits_4 (s : string) (v y : Z) :
  String.length s = 4%nat -> digits_value s = Some v -> 0 <= y <= 9999 ->
  (s = zero_pad 4 y <-> v = y).
Proof.
  intros Hlen Hv Hy. split.
  - intros ->. rewrite digits_value_zero_pad_4 in Hv by lia. congruence.
  - intros ->. apply (digits_value_inj _ _ y);
      [rewrite Hlen; reflexivity|exact Hv|apply digits_value_zero_pad_4; lia].
Qed.

Lemma zero_pad_digits_2 (s : string) (v m : Z) :
  String.length s = 2%nat -> digits_value s = Some v -> 0 <= m <= 99 ->
  (s = zero_pad 2 m <-> v = m).
Proof.
  intros Hlen Hv Hm. split.
  - intros ->. rewrite digits_value_zero_pad_2 in Hv by lia. congruence.
  - intros ->. apply (digits_value_inj _ _ m);
      [rewrite Hlen; reflexivity|exact Hv|apply digits_value_zero_pad_2; lia].
Qed.

Lemma startsWith_year_month (ys ms : string) (y m dd : Z) :
  String.length ys = 4%nat -> String.length ms = 2%nat ->
  startsWith (zero_pad 4 y ++ "-" ++ zero_pad 2 m ++ "-" ++ zero_pad 2 dd)
             (ys ++ "-" ++ ms) = true
  <-> ys = zero_pad 4 y /\ ms = zero_pad 2 m.
Proof.
  intros Hly Hlm. unfold startsWith. rewrite prefix_correct.
  destruct ys as [|a0 [|a1 [|a2 [|a3 [|a4 ys]]]]]; try discriminate Hly.
  destruct ms as [|b0 [|b1 [|b2 ms]]]; try discriminate Hlm.
  cbv beta iota fix delta [zero_pad String.append String.length substring].
  split.
  - intros H. injection H as H0 H1 H2 H3 H4 H5. subst. split; reflexivity.
  - intros [H1 H2]. injection H1 as -> -> -> ->. injection H2 as -> ->. reflexivity.
Qed.

Lemma startsWith_year (ys : string) (y m dd : Z) :
  String.length ys = 4%nat ->
  startsWith (zero_pad 4 y ++ "-" ++ zero_pad 2 m ++ "-" ++ zero_pad 2 dd) ys = true
  <-> ys = zero_pad 4 y.
Proof.
  intros Hly. unfold startsWith. rewrite prefix_correct.
  destruct ys as [|a0 [|a1 [|a2 [|a3 [|a4 ys]]]]]; try discriminate Hly.
  cbv beta iota fix delta [zero_pad String.append String.length substring].
  split.
  - intros H. injection H as H0 H1 H2 H3. subst. reflexivity.
  - intros H1. injection H1 as -> -> -> ->. reflexivity.
Qed.

Lemma truthy_nonempty (s : string) : s <> EmptyString -> truthy (Some s) = Some s.
Proof. destruct s; [contradiction|reflexivity]. Qed.

(** X22. On points whose dates are calendar days, the range of a month
    "YYYY-MM" given in digits selects exactly the points of that month of
    that year, and the range of a year the points of that year; when there
    is none, and so whenever the month is not one of 01 to 12, the slice
    is the whole input. *)
Theorem sliceRange_calendar (points : list GoldPoint) (range_ : GoldRangeConfig)
    (latest_ : GoldPoint) (ys : string) (Y : Z) :
  (forall p, p ∈ points -> is_Some (Date_parse (date p))) ->
  year range_ = Some ys -> String.length ys = 4%nat -> digits_value ys = Some Y ->
  (kind range_ = kind_year ->
   sliceRange points range_ latest_
   = nonempty_or (List.filter (date_in_year Y) points) points) /\
  (forall ms M,
     kind range_ = kind_month ->
     month range_ = Some ms -> String.length ms = 2%nat -> digits_value ms = Some M ->
     sliceRange points range_ latest_
     = nonempty_or (List.filter (date_in_month Y M) points) points /\
     (~ 1 <= M <= 12 -> sliceRange points range_ latest_ = points)).
Proof.
  intros Hdates Hy Hly HY.
  assert (truthy (year range_) = Some ys) as Hty
    by (rewrite Hy; apply truthy_nonempty; intros ->; discriminate).
  assert (forall p, p ∈ points ->
            exists d y m dd,
              Date_parse (date p) = Some (d * msPerDay) /\
              civil_from_days d = (y, m, dd) /\ 0 <= y <= 9999 /\ 1 <= m <= 12 /\
              1 <= dd <= 31 /\
              date p = (zero_pad 4 y ++ "-" ++ zero_pad 2 m ++ "-" ++ zero_pad 2 dd)%string)
    as Hparts.
  { intros p Hp. destruct (Hdates p Hp) as [t Ht].
    destruct (Date_parse_is_iso_date _ _ Ht) as (d & -> & Hd & Hiso).
    destruct (iso_date_parts d Hd) as (y & m & dd & Hc & Hyr & Hm & Hdd & Hs).
    exists d, y, m, dd. repeat split; try assumption; try lia. congruence. }
  split.
  - intros Hk. destruct points as [|p0 pts] eqn:Hpts; [reflexivity|]. rewrite <- Hpts in *.
    unfold sliceRange. rewrite Hpts, <- Hpts, Hk, Hty.
    assert (List.filter (fun point => startsWith (date point) ys) points
            = List.filter (date_in_year Y) points) as Hf.
    { apply filter_ext_in. intros p Hp. apply list_elem_of_In in Hp.
      destruct (Hparts p Hp) as (d & y & m & dd & Hpd & Hc & Hyr & Hm & Hdd & Hs).
      unfold date_in_year. rewrite Hpd, Z.div_mul, Hc by (unfold msPerDay; lia).
      rewrite Hs. apply eq_iff_eq_true.
      rewrite (startsWith_year ys y m dd Hly), (zero_pad_digits_4 ys Y y Hly HY Hyr), Z.eqb_eq.
      split; congruence. }
    destruct (truthy (month range_)); rewrite Hf; reflexivity.
  - intros ms M Hk Hm Hlm HM.
    assert (truthy (month range_) = Some ms) as Htm
      by (rewrite Hm; apply truthy_nonempty; intros ->; discriminate).
    assert (List.filter (fun point => startsWith (date point) (ys ++ "-" ++ ms)) points
            = List.filter (date_in_month Y M) points) as Hf.
    { apply filter_ext_in. intros p Hp. apply list_elem_of_In in Hp.
      destruct (Hparts p Hp) as (d & y & m & dd & Hpd & Hc & Hyr & Hmr & Hdd & Hs).
      unfold date_in_month. rewrite Hpd, Z.div_mul, Hc by (unfold msPerDay; lia).
      rewrite Hs. apply eq_iff_eq_true.
      rewrite (startsWith_year_month ys ms y m dd Hly Hlm),
        (zero_pad_digits_4 ys Y y Hly HY Hyr),
        (zero_pad_digits_2 ms M m Hlm HM ltac:(lia)), andb_true_iff, !Z.eqb_eq.
      split; intros [? ?]; split; congruence. }
    assert (sliceRange points range_ latest_
            = nonempty_or (List.filter (date_in_month Y M) points) points) as Hslice.
    { destruct points as [|p0 pts] eqn:Hpts; [reflexivity|]. rewrite <- Hpts in *.
      unfold sliceRange. rewrite Hpts, <- Hpts, Hk, Hty, Htm, Hf. reflexivity. }
    split; [exact Hslice|].
    intros HMr. rewrite Hslice.
    assert (List.filter (date_in_month Y M) points = []) as ->; [|reflexivity].
    clear Hslice Hf. induction points as [|p pts IH]; [reflexivity|].
    cbn [List.filter].
    assert (date_in_month Y M p = false) as ->.
    { destruct (Hparts p ltac:(apply elem_of_cons; left; reflexivity))
        as (d & y & m & dd & Hpd & Hc & Hyr & Hmr & Hdd & Hs).
      unfold date_in_month. rewrite Hpd, Z.div_mul, Hc by (unfold msPerDay; lia).
      apply andb_false_iff. right. apply Z.eqb_neq. lia. }
    apply IH.
    + intros q Hq. apply Hdates. apply elem_of_cons. right. exact Hq.
    + intros q Hq. apply Hparts. apply elem_of_cons. right. exact Hq.
Qed.

Lemma sliceRange_calendar_witness :
  sliceRange january march_2024 (jan "2024-01-02" 1704153600000) = january.
Proof.
  assert (forall p, p ∈ january -> is_Some (Date_parse (date p))) as Hd.
  { intros p Hp. apply elem_of_cons in Hp as [->|Hp];
      [|apply list_elem_of_singleton in Hp; subst p]; eexists; vm_compute; reflexivity. }
  destruct (sliceRange_calendar january march_2024 (jan "2024-01-02" 1704153600000)
              "2024" 2024 Hd eq_refl eq_refl eq_refl) as [_ Hmonth].
  destruct (Hmonth "03"%string 3 eq_refl eq_refl eq_refl eq_refl) as [Hs _].
  rewrite Hs. reflexivity.
Defined.

End SliceCalendar.

(** ** The label of a month range *)

Section MonthLabel.
Import Gold.

Lemma reads_digits_spec (s : string) :
  reads_digits s = true ->
  exists v, Number s = SFin (inject_Z v) /\ digits_value s = Some v.
Proof.
  unfold reads_digits. destruct (Number s) as [| |[n d]]; try discriminate.
  destruct (digits_value s) as [v|]; [|discriminate].
  cbn [Qnum Qden]. intros H. apply andb_prop in H as [Hn Hd].
  apply Z.eqb_eq in Hn. apply Pos.eqb_eq in Hd. subst. exists v. split; reflexivity.
Qed.

Lemma Number_digits_4 (s : string) :
  String.length s = 4%nat -> all_digits s = true ->
  exists v, Number s = SFin (inject_Z v) /\ digits_value s = Some v.
Proof.
  intros Hlen Hd.
  destruct s as [|c1 [|c2 [|c3 [|c4 [|c5 s]]]]]; try discriminate.
  cbn [all_digits] in Hd. repeat (apply andb_prop in Hd as [?%is_digit_chars Hd]).
  apply reads_digits_spec.
  assert (forallb (fun c1 => forallb (fun c2 => forallb (fun c3 => forallb (fun c4 =>
            reads_digits (String c1 (String c2 (String c3 (String c4 EmptyString)))))
            digit_chars) digit_chars) digit_chars) digit_chars = true) as Hall
    by (vm_compute; reflexivity).
  rewrite forallb_forall in Hall. specialize (Hall c1 ltac:(assumption)).
  rewrite forallb_forall in Hall. specialize (Hall c2 ltac:(assumption)).
  rewrite forallb_forall in Hall. specialize (Hall c3 ltac:(assumption)).
  rewrite forallb_forall in Hall. exact (Hall c4 ltac:(assumption)).
Qed.

Lemma Number_digits_2 (s : string) :
  String.length s = 2%nat -> all_digits s = true ->
  exists v, Number s = SFin (inject_Z v) /\ digits_value s = Some v.
Proof.
  intros Hlen Hd.
  destruct s as [|c1 [|c2 [|c3 s]]]; try discriminate.
  cbn [all_digits] in Hd. repeat (apply andb_prop in Hd as [?%is_digit_chars Hd]).
  apply reads_digits_spec.
  assert (forallb (fun c1 => forallb (fun c2 =>
            reads_digits (String c1 (String c2 EmptyString)))
            digit_chars) digit_chars = true) as Hall
    by (vm_compute; reflexivity).
  rewrite forallb_forall in Hall. specialize (Hall c1 ltac:(assumption)).
  rewrite forallb_forall in Hall. exact (Hall c2 ltac:(assumption)).
Qed.

(** X23. The label of the range of "month-YYYY-MM" (digits) is the month of
    [Date.UTC(YYYY, MM - 1, 1)]: a year below 100 is taken as 1900 + year,
    and a month outside 01..12 is carried into the neighbouring year, while
    the [year] and [month] the range filters by stay as written. For a year
    from 100 on and a month from 01 to 12 the label is the month of the
    date "YYYY-MM-01". *)
Theorem resolveRange_month_label (input : QueryParam) (ys ms : string) (Y M : Z) :
  String.length ys = 4%nat -> all_digits ys = true -> digits_value ys = Some Y ->
  String.length ms = 2%nat -> all_digits ms = true -> digits_value ms = Some M ->
  option_map toLowerCase (first_value input) = Some ("month-" ++ ys ++ "-" ++ ms)%string ->
  let year_ := if Y <=? 99 then 1900 + Y else Y in
  let t := days_from_civil (year_ + (M - 1) / 12) ((M - 1) mod 12 + 1) 1 * 86400000 in
  resolveRange input
  = Ok {| key := "month-" ++ ys ++ "-" ++ ms; label := LabelMonthYear t;
          kind := kind_month; days := None; year := Some ys; month := Some ms |} /\
  (100 <= Y -> 1 <= M <= 12 -> Date_parse (ys ++ "-" ++ ms ++ "-01") = Some t).
Proof.
  intros Hly Hdy HY Hlm Hdm HM Hnorm year_ t.
  destruct (Number_digits_4 ys Hly Hdy) as (vy & Hvy & HY').
  destruct (Number_digits_2 ms Hlm Hdm) as (vm & Hvm & HM').
  assert (vy = Y) as -> by congruence. assert (vm = M) as -> by congruence.
  clear HY' HM'.
  assert (0 <= Y <= 9999) as HYr.
  { unfold digits_value in HY. destruct (span_digits 10 ys 0 0) as [[v n] r] eqn:Hs.
    destruct n; [discriminate|]. destruct r; [|discriminate]. inversion HY; subst v.
    pose proof (span_digits_bound ys 0 0%nat Y (S n) Hs ltac:(lia)) as Hb.
    rewrite Hly in Hb. simpl in Hb. lia. }
  assert (0 <= M <= 99) as HMr.
  { unfold digits_value in HM. destruct (span_digits 10 ms 0 0) as [[v n] r] eqn:Hs.
    destruct n; [discriminate|]. destruct r; [|discriminate]. inversion HM; subst v.
    pose proof (span_digits_bound ms 0 0%nat M (S n) Hs ltac:(lia)) as Hb.
    rewrite Hlm in Hb. simpl in Hb. lia. }
  assert (Date_UTC (SFin (inject_Z Y)) (strnum_pred (SFin (inject_Z M))) = Some t) as Hutc.
  { unfold Date_UTC, strnum_pred, truncate. simpl Qnum. simpl Qden. rewrite !Z.quot_1_r.
    replace (M * 1 + Z.opp 1 * 1) with (M - 1) by lia.
    assert ((if (0 <=? Y) && (Y <=? 99) then 1900 + Y else Y) = year_) as ->.
    { subst year_. destruct (Z.leb_spec 0 Y); [|lia]. reflexivity. }
    match goal with
    | |- (if ?c then _ else _) = _ => assert (c = true) as ->; [|reflexivity]
    end.
    apply Z.leb_le.
    assert (0 <= year_ <= 9999) as Hyr by (subst year_; destruct (Z.leb_spec Y 99); lia).
    assert (-1 <= (M - 1) / 12 <= 8 /\ 0 <= (M - 1) mod 12 < 12) as [Hq Hmn]
      by (Z.div_mod_to_equations; lia).
    pose proof (days_from_civil_bounds (year_ + (M - 1) / 12) ((M - 1) mod 12 + 1) 1
                  ltac:(lia) ltac:(lia) ltac:(lia)) as Hb.
    unfold msPerDay, maxTime. lia. }
  split.
  - unfold resolveRange. rewrite Hnorm.
    assert (split "-" ("month-" ++ ys ++ "-" ++ ms) = ["month"; ys; ms]%string) as Hsplit.
    { change ("month-" ++ ys ++ "-" ++ ms)%string
        with (String "m" (String "o" (String "n" (String "t" (String "h"
                (String "-" (ys ++ String "-" ms))))))).
      pose proof (split_digits_app ys ms Hdy) as Hym. rewrite (split_digits ms Hdm) in Hym.
      simpl. rewrite Hym. reflexivity. }
    rewrite Hsplit.
    remember ("month-" ++ ys ++ "-" ++ ms)%string as k eqn:Hk.
    assert (String.eqb k (key recentRange) = false) as ->
      by (rewrite Hk; vm_compute; reflexivity).
    assert (startsWith k "month-" = true) as -> by (rewrite Hk; apply startsWith_app).
    destruct k as [|c k]; [discriminate Hk|].
    cbn [lookup list_lookup has_length default from_option id].
    rewrite Hly, Hlm, Hvy, Hvm, Hutc. reflexivity.
  - intros HY100 HM12.
    destruct ys as [|a0 [|a1 [|a2 [|a3 [|a4 ys]]]]]; try discriminate Hly.
    destruct ms as [|b0 [|b1 [|b2 ms]]]; try discriminate Hlm.
    unfold Date_parse.
    cbv beta iota fix delta [String.append String.length Nat.eqb negb substring String.get].
    rewrite HY, HM.
    change (digits_value "01") with (Some 1). cbv iota beta.
    match goal with
    | |- (if ?c then _ else _) = _ => assert (c = true) as ->
    end.
    { rewrite !andb_true_iff, !Z.leb_le. repeat split; try lia.
      unfold days_in_month.
      repeat match goal with |- context [if ?b then _ else _] => destruct b end; lia. }
    subst t year_. destruct (Z.leb_spec Y 99); [lia|].
    rewrite Z.div_small, Z.mod_small by lia. unfold msPerDay.
    replace (Y + 0) with Y by lia. replace (M - 1 + 1) with M by lia. reflexivity.
Qed.

Lemma resolveRange_month_label_witness :
  resolveRange (QString "month-2024-13")
  = Ok {| key := "month-2024-13"; label := LabelMonthYear 1735689600000;
          kind := kind_month; days := None; year := Some "2024"%string;
          month := Some "13"%string |} /\
  Date_parse "2025-01-01" = Some 1735689600000.
Proof.
  destruct (resolveRange_month_label (QString "month-2024-13") "2024" "13" 2024 13
              eq_refl eq_refl eq_refl eq_refl eq_refl eq_refl eq_refl) as [H _].
  split; [exact H|reflexivity].
Defined.

End MonthLabel.

(** ** [computeChange] at the edges of the prices *)

Section ComputeChangeEdges.
Import Gold.

(** [(x - z) / z] is NaN or an infinity when [z] is a zero. *)
Lemma sub_div_zero (x z : float) (s : bool) :
  Prim2SF z = S754_zero s -> isFinite ((x - z) / z) = false.
Proof.
  intros Hz. unfold isFinite. rewrite div_spec, sub_spec, Hz.
  destruct (Prim2SF x) as [sx|sx| |sx mx ex]; try reflexivity.
  destruct sx, s; reflexivity.
Qed.

(** [(x - x) / x] is 0 for a positive finite [x]. *)
Lemma sub_div_self (x : float) (m : positive) (e : Z) :
  Prim2SF x = S754_finite false m e -> ((x - x) / x)%float = 0%float.
Proof.
  intros Hx. apply Prim2SF_inj. rewrite div_spec, sub_spec, Hx.
  unfold SF64sub, SFsub. cbv beta iota zeta. rewrite Z.sub_diag. reflexivity.
Qed.

(** X24. On a series of one point per day with at least [N + 1] points: when
    the price [N] days before the last point is zero, the change is NaN or
    an infinity (it is not absent and not a finite number); when that
    price is positive and equal to the last price, the change is 0. *)
Theorem computeChange_zero_or_flat (t0 : Z) (points : list GoldPoint) (N : Z)
    (latest_ prior : GoldPoint) :
  dense_daily t0 points -> 0 <= N -> N + 1 <= Z.of_nat (length points) ->
  last points = Some latest_ ->
  points !! (length points - 1 - Z.to_nat N)%nat = Some prior ->
  (forall s, Prim2SF (value prior) = S754_zero s ->
     exists c, computeChange points N = Some c /\ isFinite c = false) /\
  (forall m e, Prim2SF (value prior) = S754_finite false m e ->
     value latest_ = value prior -> computeChange points N = Some 0%float).
Proof.
  intros Hdense HN Hlen Hlast Hp.
  assert (computeChange points N
          = Some ((value latest_ - value prior) / value prior)%float) as Hc.
  { unfold computeChange. rewrite Hlast.
    rewrite (find_prior_dense t0 points N latest_ prior Hdense HN Hlen Hlast Hp).
    reflexivity. }
  split.
  - intros s Hz. eexists. split; [exact Hc|]. apply (sub_div_zero _ _ s Hz).
  - intros m e Hx Heq. rewrite Hc, Heq. f_equal. apply (sub_div_self _ m e Hx).
Qed.

Lemma computeChange_zero_or_flat_witness :
  computeChange
    [ {| date := "2024-01-01"; value := 2000%float; time := Some 1704067200000 |};
      {| date := "2024-01-02"; value := 2010%float; time := Some 1704153600000 |};
      {| date := "2024-01-03"; value := 2010%float; time := Some 1704240000000 |} ] 1
  = Some 0%float.
Proof.
  set (points := [ {| date := "2024-01-01"; value := 2000%float; time := Some 1704067200000 |};
                   {| date := "2024-01-02"; value := 2010%float; time := Some 1704153600000 |};
                   {| date := "2024-01-03"; value := 2010%float; time := Some 1704240000000 |} ]).
  assert (dense_daily 1704067200000 points) as Hdense.
  { intros i p Hi. destruct i as [|[|[|i]]]; inversion Hi; reflexivity. }
  destruct (computeChange_zero_or_flat 1704067200000 points 1
              {| date := "2024-01-03"; value := 2010%float; time := Some 1704240000000 |}
              {| date := "2024-01-02"; value := 2010%float; time := Some 1704153600000 |}
              Hdense ltac:(lia) ltac:(simpl; lia) eq_refl eq_refl) as [_ Hflat].
  apply (Hflat 8840073487319040%positive (-42)); reflexivity.
Defined.

End ComputeChangeEdges.
